(** * MeetMogger-AI: the transcript analysis core, embedded in Rocq

    This development embeds the analysis core of MeetMogger-AI
    ([validators.py], [transcript_processor.py], [sentiment_analyzer.py],
    [insight_extractor.py]) and the upload path of [file_handler.py] as
    executable Rocq functions and proves properties of them.

    Conventions of the embedding.
    - A Python [str] is a list of characters ([str := list ascii]); a
      character is its code point, so the model covers text whose code points
      are below 256.  The character classes ([\s], [\w], [str.lower]) follow
      CPython on that range.
    - Python's [re] module is embedded as a backtracking matcher over a small
      regular-expression syntax ([Re.regex]); each pattern of the program is
      written in that syntax next to the pattern string it stands for.
    - A Python [float] is modelled by the rational number it denotes ([Q]),
      with exact arithmetic: comparisons are the exact ones, rounding of the
      arithmetic operations is not modelled.  The general
      statements below are therefore about the formulas the code evaluates,
      about comparisons of stored values, and about bounds that rounding to
      nearest preserves.
    - Exceptions are explicit ([exc]); the logger is the only global state
      and is threaded explicitly ([World], monad [M]).
    - VADER and TextBlob are third-party libraries: they enter the model as
      the interface [TextLibs]; the text decoders of the file handler (UTF-8,
      PDF, DOCX) enter it as the interface [Decoders]. *)

From Stdlib Require Import String Ascii Bool Arith NArith ZArith List.
From Stdlib Require Import QArith Qminmax Qabs Qround Lia Lqa Permutation.
From Stdlib Require Import Sorted.
Import ListNotations.
Local Close Scope Q_scope.
Local Open Scope list_scope.
Set Warnings "-register-all".

(** ** Python strings *)

Definition str : Type := list ascii.

(** [L "abc"] is the Python string literal ["abc"]. *)
Definition L (s : string) : str := list_ascii_of_string s.
Arguments L s%_string.

Module Py.

Definition ord (c : ascii) : N := N_of_ascii c.

Definition between (lo hi : N) (c : ascii) : bool :=
  ((lo <=? ord c) && (ord c <=? hi))%N.

Definition is_code (n : N) (c : ascii) : bool := (ord c =? n)%N.

(** [str.isspace] on one character, which is also [\s] of [re] and the set
    that [str.strip] and [str.split] use. *)
Definition isspace (c : ascii) : bool :=
  between 9 13 c || between 28 32 c || is_code 133 c || is_code 160 c.

(** [[A-Z]], [[a-z]], [[a-zA-Z]]. *)
Definition is_AZ (c : ascii) : bool := between 65 90 c.
Definition is_az (c : ascii) : bool := between 97 122 c.
Definition is_azAZ (c : ascii) : bool := is_az c || is_AZ c.

(** [\w] of [re] on [str] patterns: alphanumeric characters and the
    underscore. *)
Definition isword (c : ascii) : bool :=
  is_azAZ c || between 48 57 c || is_code 95 c
  || is_code 170 c || is_code 178 c || is_code 179 c || is_code 181 c
  || is_code 185 c || is_code 186 c || between 188 190 c
  || between 192 214 c || between 216 246 c || between 248 255 c.

(** [str.lower] on one character. *)
Definition lower_char (c : ascii) : ascii :=
  if between 65 90 c || (between 192 222 c && negb (is_code 215 c))
  then ascii_of_N (ord c + 32) else c.

Definition lower (s : str) : str := map lower_char s.

Fixpoint str_eqb (a b : str) : bool :=
  match a, b with
  | [], [] => true
  | x :: a', y :: b' => Ascii.eqb x y && str_eqb a' b'
  | _, _ => false
  end.

(** [x in l] for a list (or set) of strings. *)
Definition mem (x : str) (l : list str) : bool := existsb (str_eqb x) l.

Fixpoint lstrip (s : str) : str :=
  match s with
  | c :: t => if isspace c then lstrip t else s
  | [] => []
  end.

Definition rstrip (s : str) : str := rev (lstrip (rev s)).

(** [s.strip()] *)
Definition strip (s : str) : str := rstrip (lstrip s).

Fixpoint startswith (p s : str) : bool :=
  match p, s with
  | [], _ => true
  | x :: p', y :: s' => Ascii.eqb x y && startswith p' s'
  | _ :: _, [] => false
  end.

(** [needle in hay] for strings: substring test. *)
Fixpoint contains (needle hay : str) : bool :=
  startswith needle hay
  || match hay with
     | [] => false
     | _ :: t => contains needle t
     end.

Fixpoint split_ws_from (cur : str) (s : str) : list str :=
  match s with
  | [] => match cur with [] => [] | _ => [rev cur] end
  | c :: t =>
      if isspace c
      then match cur with
           | [] => split_ws_from [] t
           | _ => rev cur :: split_ws_from [] t
           end
      else split_ws_from (c :: cur) t
  end.

(** [s.split()]: the maximal runs of non-whitespace characters. *)
Definition split_ws (s : str) : list str := split_ws_from [] s.

Fixpoint split_char_from (sep : ascii) (cur : str) (s : str) : list str :=
  match s with
  | [] => [rev cur]
  | c :: t =>
      if Ascii.eqb c sep
      then rev cur :: split_char_from sep [] t
      else split_char_from sep (c :: cur) t
  end.

(** [s.split(sep)] for a one-character separator. *)
Definition split_char (sep : ascii) (s : str) : list str :=
  split_char_from sep [] s.

(** [" ".join(l)] and ["".join(l)]. *)
Fixpoint join (sep : str) (l : list str) : str :=
  match l with
  | [] => []
  | [x] => x
  | x :: t => x ++ sep ++ join sep t
  end.

(** [a <= b] on strings: lexicographic on code points. *)
Fixpoint str_leb (a b : str) : bool :=
  match a, b with
  | [], _ => true
  | _ :: _, [] => false
  | x :: a', y :: b' =>
      if (ord x <? ord y)%N then true
      else if (ord y <? ord x)%N then false
      else str_leb a' b'
  end.

(** A Python [set] of strings, as a list without repetition:
    [set_add x s] is [s.add(x)]. *)
Definition set_add (x : str) (s : list str) : list str :=
  if mem x s then s else s ++ [x].

Fixpoint insert_sorted (x : str) (l : list str) : list str :=
  match l with
  | [] => [x]
  | y :: t => if str_leb x y then x :: l else y :: insert_sorted x t
  end.

(** [sorted(l)] for a list of strings. *)
Definition sorted (l : list str) : list str :=
  fold_right insert_sorted [] l.

(** [any(w in text for w in ws)] *)
Definition any_in (ws : list str) (text : str) : bool :=
  existsb (fun w => contains w text) ws.

(** [sum(1 for w in ws if w in text)] *)
Definition count_in (ws : list str) (text : str) : nat :=
  length (filter (fun w => contains w text) ws).

(** [s[a:b]] for [0 <= a]. *)
Definition slice (s : str) (a b : nat) : str := firstn (b - a) (skipn a s).

(** [s.endswith(p)] *)
Definition endswith (p s : str) : bool := startswith (rev p) (rev s).

End Py.

(** ** Python values, exceptions, the logger *)

(** The values a caller can pass where a transcript is expected. *)
Inductive PyVal : Type :=
| PNone
| PStr (s : str)
| PInt (z : Z)
| PFloat (q : Q)
| PBool (b : bool)
| PList (l : list PyVal)
| PDict (d : list (str * PyVal)).

(** [type(v).__name__] *)
Definition type_name (v : PyVal) : str :=
  match v with
  | PNone => L "NoneType"
  | PStr _ => L "str"
  | PInt _ => L "int"
  | PFloat _ => L "float"
  | PBool _ => L "bool"
  | PList _ => L "list"
  | PDict _ => L "dict"
  end.

(** [d[key]], [None] when [key not in d]. *)
Fixpoint dict_get (key : str) (d : list (str * PyVal)) : option PyVal :=
  match d with
  | [] => None
  | (k, v) :: t => if Py.str_eqb k key then Some v else dict_get key t
  end.

Inductive PyExn : Type :=
| AttributeError (msg : str)
| LibraryError (msg : str).

(** [str(e)] *)
Definition exn_message (e : PyExn) : str :=
  match e with
  | AttributeError m => m
  | LibraryError m => m
  end.

(** The outcome of a call: a value, or an exception that propagates. *)
Inductive exc (A : Type) : Type :=
| Ok (a : A)
| Raise (e : PyExn).
Arguments Ok {A} a.
Arguments Raise {A} e.

Inductive LogLevel : Type := INFO | WARNING | ERROR.

(** The process-wide state: the records the module loggers have emitted. *)
Record World : Type := mkWorld { log : list (LogLevel * str) }.

(** Computations that read and write the world. *)
Definition M (A : Type) : Type := World -> A * World.

Definition ret {A} (a : A) : M A := fun w => (a, w).

Definition bind {A B} (m : M A) (f : A -> M B) : M B :=
  fun w => let (a, w') := m w in f a w'.

Notation "x <- m ;; k" := (bind m (fun x => k))
  (at level 61, m at next level, right associativity).
Notation "m ;;; k" := (bind m (fun _ => k))
  (at level 61, right associativity).

(** [logger.info(msg)], [logger.warning(msg)], [logger.error(msg)] *)
Definition logger (lvl : LogLevel) (msg : str) : M unit :=
  fun w => (tt, mkWorld (log w ++ [(lvl, msg)])).

(** A [for] loop that collects the results of its body. *)
Fixpoint mapM {A B} (f : A -> M B) (l : list A) : M (list B) :=
  match l with
  | [] => ret []
  | x :: t => y <- f x ;; ys <- mapM f t ;; ret (y :: ys)
  end.

(** A loop or comprehension that collects the results of a body that can
    raise: the first exception ends it. *)
Fixpoint emap {A B} (f : A -> exc B) (l : list A) : exc (list B) :=
  match l with
  | [] => Ok []
  | x :: t =>
      match f x with
      | Raise e => Raise e
      | Ok y =>
          match emap f t with
          | Raise e => Raise e
          | Ok ys => Ok (y :: ys)
          end
      end
  end.

(** ** Python's [re] *)

Module Re.

Record flags : Type := mkFlags { IGNORECASE : bool; MULTILINE : bool }.

Definition no_flags : flags := mkFlags false false.

Inductive regex : Type :=
| Eps
| Lit (c : ascii)
| Class (p : ascii -> bool)
| Seq (a b : regex)
| Alt (a b : regex)
| Star (a : regex)
| LazyStar (a : regex)
| Group (n : nat) (a : regex)
| Bol
| WordB.
Arguments Lit c%_char.

(** The matcher's position: the text behind it (nearest character first),
    the text ahead, and the groups captured so far. *)
Record mstate : Type := mkState {
  seen : str;
  todo : str;
  caps : list (nat * str)
}.

Definition lit_eqb (fl : flags) (c x : ascii) : bool :=
  if IGNORECASE fl
  then Ascii.eqb (Py.lower_char c) (Py.lower_char x)
  else Ascii.eqb c x.

Definition newline : ascii := ascii_of_N 10.

(** [^] *)
Definition at_bol (fl : flags) (st : mstate) : bool :=
  match seen st with
  | [] => true
  | c :: _ => MULTILINE fl && Ascii.eqb c newline
  end.

(** [\b]: exactly one of the two neighbours is a word character. *)
Definition at_wordb (st : mstate) : bool :=
  let before := match seen st with [] => false | c :: _ => Py.isword c end in
  let after := match todo st with [] => false | c :: _ => Py.isword c end in
  xorb before after.

(** The text consumed between two positions of one run. *)
Definition consumed (st st1 : mstate) : str :=
  firstn (length (todo st) - length (todo st1)) (todo st).

Definition set_cap (n : nat) (s : str) (st : mstate) : mstate :=
  mkState (seen st) (todo st) ((n, s) :: caps st).

Definition progress (st st1 : mstate) : bool :=
  length (todo st1) <? length (todo st).

(** The two repetition loops over a body matcher: [greedy] tries one more
    iteration before it continues, [lazy] continues before it tries one more.
    An iteration has to consume a character, so [n], the number of characters
    ahead when the loop starts, bounds the iterations. *)
Section Repetition.
Variable body : mstate -> (mstate -> option mstate) -> option mstate.
Variable k : mstate -> option mstate.

Fixpoint greedy (n : nat) (st : mstate) {struct n} : option mstate :=
  match n with
  | O => k st
  | S n' =>
      match body st (fun st1 => if progress st st1 then greedy n' st1
                                else None) with
      | Some e => Some e
      | None => k st
      end
  end.

Fixpoint lazy (n : nat) (st : mstate) {struct n} : option mstate :=
  match n with
  | O => k st
  | S n' =>
      match k st with
      | Some e => Some e
      | None =>
          body st (fun st1 => if progress st st1 then lazy n' st1 else None)
      end
  end.

End Repetition.

(** [run fl r st k]: match [r] at [st], then continue with [k]; alternatives
    are tried in the order Python tries them (left alternative first, greedy
    repetition longest first, lazy repetition shortest first). *)
Fixpoint run (fl : flags) (r : regex) (st : mstate)
    (k : mstate -> option mstate) {struct r} : option mstate :=
  match r with
  | Eps => k st
  | Lit c =>
      match todo st with
      | x :: t =>
          if lit_eqb fl c x then k (mkState (x :: seen st) t (caps st))
          else None
      | [] => None
      end
  | Class p =>
      match todo st with
      | x :: t =>
          if p x then k (mkState (x :: seen st) t (caps st)) else None
      | [] => None
      end
  | Seq a b => run fl a st (fun st1 => run fl b st1 k)
  | Alt a b =>
      match run fl a st k with
      | Some e => Some e
      | None => run fl b st k
      end
  | Star a => greedy (run fl a) k (length (todo st)) st
  | LazyStar a => lazy (run fl a) k (length (todo st)) st
  | Group n a => run fl a st (fun st1 => k (set_cap n (consumed st st1) st1))
  | Bol => if at_bol fl st then k st else None
  | WordB => if at_wordb st then k st else None
  end.

(** A match attempt at one position. *)
Definition match_at (fl : flags) (r : regex) (before ahead : str)
    : option mstate :=
  run fl r (mkState before ahead []) Some.

(** [m.group(n)] *)
Fixpoint group (n : nat) (cs : list (nat * str)) : str :=
  match cs with
  | [] => []
  | (i, s) :: t => if Nat.eqb i n then s else group n t
  end.

(** The text cut into the characters no match covers and the matches, left
    to right, matches not overlapping. *)
Inductive token : Type :=
| Chr (c : ascii)
| Hit (text : str) (groups : list (nat * str)).

(** [tokens fl r before ahead skip] scans [ahead]: the next [skip]
    characters belong to the match found last; at every other position one
    match is attempted, and the scan goes on after the match.  After an empty
    match the scan moves on by one character, with the character kept. *)
Fixpoint tokens (fl : flags) (r : regex) (before ahead : str) (skip : nat)
    {struct ahead} : list token :=
  match ahead with
  | [] =>
      match skip with
      | O =>
          match match_at fl r before [] with
          | Some e => [Hit [] (caps e)]
          | None => []
          end
      | S _ => []
      end
  | c :: rest =>
      match skip with
      | S n => tokens fl r (c :: before) rest n
      | O =>
          match match_at fl r before ahead with
          | Some e =>
              match length ahead - length (todo e) with
              | O => Hit [] (caps e) :: Chr c
                       :: tokens fl r (c :: before) rest 0
              | S n => Hit (firstn (S n) ahead) (caps e)
                         :: tokens fl r (c :: before) rest n
              end
          | None => Chr c :: tokens fl r (c :: before) rest 0
          end
      end
  end.

Definition scan (fl : flags) (r : regex) (s : str) : list token :=
  tokens fl r [] s 0.

(** [re.match(r, s)], as the groups of the match. *)
Definition re_match (fl : flags) (r : regex) (s : str)
    : option (list (nat * str)) :=
  match match_at fl r [] s with
  | Some e => Some (caps e)
  | None => None
  end.

(** [re.search(r, s)] is not [None]. *)
Definition re_search (fl : flags) (r : regex) (s : str) : bool :=
  existsb (fun t => match t with Hit _ _ => true | Chr _ => false end)
          (scan fl r s).

(** A replacement template: literal text and group references. *)
Inductive rpart : Type :=
| RText (s : str)
| RGroup (n : nat).

Definition expand (repl : list rpart) (cs : list (nat * str)) : str :=
  flat_map (fun p => match p with
                     | RText s => s
                     | RGroup n => group n cs
                     end) repl.

(** [re.sub(r, repl, s)] *)
Definition re_sub (fl : flags) (r : regex) (repl : list rpart) (s : str)
    : str :=
  flat_map (fun t => match t with
                     | Chr c => [c]
                     | Hit _ cs => expand repl cs
                     end) (scan fl r s).

Fixpoint pieces (cur : str) (ts : list token) : list str :=
  match ts with
  | [] => [rev cur]
  | Chr c :: t => pieces (c :: cur) t
  | Hit _ _ :: t => rev cur :: pieces [] t
  end.

(** [re.split(r, s)] for a pattern without groups. *)
Definition re_split (fl : flags) (r : regex) (s : str) : list str :=
  pieces [] (scan fl r s).

(** [re.findall(r, s)] for a pattern without groups. *)
Definition re_findall (fl : flags) (r : regex) (s : str) : list str :=
  flat_map (fun t => match t with
                     | Chr _ => []
                     | Hit m _ => [m]
                     end) (scan fl r s).

Fixpoint spans (pos : nat) (ts : list token) : list (nat * nat) :=
  match ts with
  | [] => []
  | Chr _ :: t => spans (S pos) t
  | Hit m _ :: t => (pos, pos + length m) :: spans (pos + length m) t
  end.

(** [re.finditer(r, s)], as the [(m.start(), m.end())] of the matches. *)
Definition re_finditer (fl : flags) (r : regex) (s : str)
    : list (nat * nat) :=
  spans 0 (scan fl r s).

(** *** Pattern syntax *)

(** A literal string. *)
Fixpoint lit (s : str) : regex :=
  match s with
  | [] => Eps
  | [c] => Lit c
  | c :: t => Seq (Lit c) (lit t)
  end.

(** [(?:a|b|...)] *)
Fixpoint alts (l : list regex) : regex :=
  match l with
  | [] => Class (fun _ => false)
  | [a] => a
  | a :: t => Alt a (alts t)
  end.

(** [(?:w1|w2|...)] for literal words. *)
Definition words (l : list string) : regex := alts (map (fun w => lit (L w)) l).

(** [a+] *)
Definition Plus (a : regex) : regex := Seq a (Star a).

(** [a b c ...] *)
Fixpoint seqs (l : list regex) : regex :=
  match l with
  | [] => Eps
  | [a] => a
  | a :: t => Seq a (seqs t)
  end.

(** [.] *)
Definition Dot : regex := Class (fun c => negb (Ascii.eqb c newline)).

(** [\s] *)
Definition Space : regex := Class Py.isspace.

(** [[abc]] for the characters of a string. *)
Definition one_of (s : string) : regex :=
  Class (fun c => existsb (Ascii.eqb c) (L s)).
Arguments one_of s%_string.

End Re.

(** ** [utils/validators.py] *)

Module Validators.

Record Validation : Type := mkValidation {
  is_valid : bool;
  transcript : str;
  error : option str;
  warnings : list str
}.

(** [[a-zA-Z]] *)
Definition ALPHA : Re.regex := Re.Class Py.is_azAZ.

(** [[.!?]+] *)
Definition SENTENCE_END : Re.regex := Re.Plus (Re.one_of ".!?").

Definition reject (e : str) (ws : list str) : Validation :=
  mkValidation false [] (Some e) ws.

(** The part of [validate_transcript] that follows the type tests:
    "Clean and validate string". *)
Definition validate_string (s : str) : Validation :=
  let cleaned := Py.strip s in
  match cleaned with
  | [] => reject (L "Transcript is empty") []
  | _ =>
      let w1 :=
        if length cleaned <? 10
        then [L "Transcript is very short (less than 10 characters)"]
        else [] in
      let w2 :=
        if (50000 <? Z.of_nat (length cleaned))%Z
        then w1 ++ [L "Transcript is very long (over 50,000 characters)"]
        else w1 in
      if negb (Re.re_search Re.no_flags ALPHA cleaned)
      then reject (L "Transcript contains no alphabetic characters") w2
      else
        let sentences := Re.re_split Re.no_flags SENTENCE_END cleaned in
        let w3 :=
          if length sentences <? 2
          then w2 ++ [L "Transcript appears to have no sentence breaks"]
          else w2 in
        mkValidation true cleaned None w3
  end.

(** [transcript.strip()] on a value that need not be a string: every other
    type of [PyVal] has no attribute [strip]. *)
Definition no_strip (v : PyVal) : PyExn :=
  AttributeError
    (L "'" ++ type_name v ++ L "' object has no attribute 'strip'").

Definition validate_transcript (transcript : PyVal) : exc Validation :=
  match transcript with
  | PNone => Ok (reject (L "Transcript cannot be None") [])
  | PStr s => Ok (validate_string s)
  | PDict d =>
      match dict_get (L "text") d with
      | Some (PStr s) => Ok (validate_string s)
      | Some v => Raise (no_strip v)
      | None =>
          Ok (reject (L "Transcript must be a string, received "
                        ++ type_name transcript) [])
      end
  | _ =>
      Ok (reject (L "Transcript must be a string, received "
                    ++ type_name transcript) [])
  end.

(** [validate_file_upload]'s result dictionary. *)
Record UploadValidation : Type := mkUpload {
  up_is_valid : bool;
  up_content : str;
  up_error : option str;
  up_file_type : str
}.

(** [allowed_types], a dictionary from MIME types to extensions. *)
Definition allowed_types : list (str * list str) :=
  [ (L "text/plain", [L ".txt"]);
    (L "application/pdf", [L ".pdf"]);
    (L "application/vnd.openxmlformats-officedocument.wordprocessingml.document",
     [L ".docx"]);
    (L "text/csv", [L ".csv"]) ].

(** [validate_file_upload(file_content, file_type)] for [bytes] content and
    a [str] type. *)
Definition validate_file_upload (file_content : list Byte.byte)
    (file_type : str) : UploadValidation :=
  match file_content with
  | [] => mkUpload false [] (Some (L "File is empty")) file_type
  | _ =>
      if (10 * 1024 * 1024 <? Z.of_nat (length file_content))%Z
      then mkUpload false [] (Some (L "File too large (max 10MB)")) file_type
      else if negb (Py.mem file_type (map fst allowed_types))
      then mkUpload false []
             (Some (L "Unsupported file type: " ++ file_type)) file_type
      else mkUpload true [] None file_type
  end.

(** [[\x00-\x08\x0B\x0C\x0E-\x1F\x7F]] *)
Definition is_control (c : ascii) : bool :=
  Py.between 0 8 c || Py.is_code 11 c || Py.is_code 12 c
  || Py.between 14 31 c || Py.is_code 127 c.

Definition CONTROL : Re.regex := Re.Class is_control.

(** [sanitize_text(text)]; a value that is not a string gives [""]. *)
Definition sanitize_text (text : PyVal) : str :=
  match text with
  | PStr text =>
      let sanitized := Re.re_sub Re.no_flags CONTROL [] text in
      let sanitized :=
        Re.re_sub Re.no_flags (Re.Plus Re.Space) [Re.RText (L " ")]
                  sanitized in
      Py.strip sanitized
  | _ => []
  end.

(** [validate_insight_data]'s result dictionary. *)
Record InsightValidation : Type := mkInsightValidation {
  iv_is_valid : bool;
  iv_errors : list str;
  iv_warnings : list str
}.

Definition required_keys : list str :=
  map L ["problems"; "solutions"; "action_items"]%string.

(** The body of the loop over [required_keys]. *)
Definition check_key (insights : list (str * PyVal))
    (result : InsightValidation) (key : str) : InsightValidation :=
  match dict_get key insights with
  | None =>
      mkInsightValidation false
        (iv_errors result ++ [L "Missing required key: " ++ key])
        (iv_warnings result)
  | Some (PList _) => result
  | Some _ =>
      mkInsightValidation false
        (iv_errors result ++ [L "Key '" ++ key ++ L "' must be a list"])
        (iv_warnings result)
  end.

(** [len(insights[key])] where the entry is a list. *)
Definition entry_length (insights : list (str * PyVal)) (key : str) : nat :=
  match dict_get key insights with
  | Some (PList l) => length l
  | _ => 0
  end.

(** [validate_insight_data(insights)] for a dictionary. *)
Definition validate_insight_data (insights : list (str * PyVal))
    : InsightValidation :=
  let result :=
    fold_left (check_key insights) required_keys
              (mkInsightValidation true [] []) in
  if iv_is_valid result
  then
    let total_insights :=
      fold_left Nat.add (map (entry_length insights) required_keys) 0 in
    if total_insights =? 0
    then mkInsightValidation (iv_is_valid result) (iv_errors result)
           (iv_warnings result ++ [L "No insights extracted from transcript"])
    else result
  else result.

End Validators.

(** ** [core/transcript_processor.py] *)

Module TranscriptProcessor.
Import Validators.

Inductive Metadata : Type :=
| MetaError (error : str)
| MetaStats (original_length cleaned_length sentence_count speaker_count : nat)
            (average_sentence_length : Q) (word_count : nat)
            (speakers : list str) (processing_timestamp : str).

Record ProcessedTranscript : Type := mkProcessed {
  original_text : PyVal;
  cleaned_text : str;
  sentences : list str;
  speakers : list str;
  metadata : Metadata
}.

Definition label_pattern (name : Re.regex) : Re.regex :=
  Re.seqs [Re.Bol; Re.Group 1 name; Re.Lit ":"; Re.Star Re.Space].

(** [self.speaker_patterns] *)
Definition speaker_patterns : list Re.regex :=
  [ (* ^([A-Z][a-zA-Z\s]+):\s* *)
    label_pattern
      (Re.Seq (Re.Class Py.is_AZ)
              (Re.Plus (Re.Class (fun c => Py.is_azAZ c || Py.isspace c))));
    (* ^([A-Z][A-Z\s]+):\s* *)
    label_pattern
      (Re.Seq (Re.Class Py.is_AZ)
              (Re.Plus (Re.Class (fun c => Py.is_AZ c || Py.isspace c))));
    (* ^([A-Z][a-z]+):\s* *)
    label_pattern (Re.Seq (Re.Class Py.is_AZ) (Re.Plus (Re.Class Py.is_az)));
    (* ^([A-Z]+):\s* *)
    label_pattern (Re.Plus (Re.Class Py.is_AZ)) ].

(** [self.noise_patterns] *)
Definition noise_patterns : list Re.regex :=
  [ (* \[.*?\] *) Re.seqs [Re.Lit "["; Re.LazyStar Re.Dot; Re.Lit "]"];
    (* \(.*?\) *) Re.seqs [Re.Lit "("; Re.LazyStar Re.Dot; Re.Lit ")"];
    (* <.*?>   *) Re.seqs [Re.Lit "<"; Re.LazyStar Re.Dot; Re.Lit ">"];
    (* \.\.\.+ *) Re.seqs [Re.Lit "."; Re.Lit "."; Re.Plus (Re.Lit ".")];
    (* --+     *) Re.seqs [Re.Lit "-"; Re.Plus (Re.Lit "-")];
    (* __+     *) Re.seqs [Re.Lit "_"; Re.Plus (Re.Lit "_")] ].

Definition icase : Re.flags := Re.mkFlags true false.

(** The [fixes] table of [_fix_common_issues], in insertion order. *)
Definition fixes : list (Re.regex * str) :=
  let word (w : string) := Re.seqs [Re.WordB; Re.lit (L w); Re.WordB] in
  let twice (w : string) :=
    Re.seqs [Re.WordB; Re.lit (L w); Re.Plus Re.Space; Re.lit (L w);
             Re.WordB] in
  [ (word "uh"%string, []); (word "um"%string, []); (word "er"%string, []);
    (twice "well"%string, L "well"); (twice "yeah"%string, L "yeah");
    (twice "okay"%string, L "okay") ].

Definition _fix_common_issues (text : str) : str :=
  (* \s+([.!?,:;])  ->  \1 *)
  let text :=
    Re.re_sub Re.no_flags
      (Re.Seq (Re.Plus Re.Space) (Re.Group 1 (Re.one_of ".!?,:;")))
      [Re.RGroup 1] text in
  (* ([.!?,:;])([A-Z])  ->  \1 \2 *)
  let text :=
    Re.re_sub Re.no_flags
      (Re.Seq (Re.Group 1 (Re.one_of ".!?,:;"))
              (Re.Group 2 (Re.Class Py.is_AZ)))
      [Re.RGroup 1; Re.RText (L " "); Re.RGroup 2] text in
  fold_left (fun t fix_ => Re.re_sub icase (fst fix_) [Re.RText (snd fix_)] t)
            fixes text.

Definition _clean_text (text : str) : str :=
  let cleaned :=
    fold_left (fun c pattern => Re.re_sub Re.no_flags pattern [] c)
              noise_patterns text in
  (* \s+  ->  ' ' *)
  let cleaned :=
    Re.re_sub Re.no_flags (Re.Plus Re.Space) [Re.RText (L " ")] cleaned in
  (* ([.!?])\s*([.!?])+  ->  \1 *)
  let cleaned :=
    Re.re_sub Re.no_flags
      (Re.seqs [Re.Group 1 (Re.one_of ".!?"); Re.Star Re.Space;
                Re.Plus (Re.Group 2 (Re.one_of ".!?"))])
      [Re.RGroup 1] cleaned in
  let cleaned := _fix_common_issues cleaned in
  Py.strip cleaned.

Definition _extract_sentences (text : str) : list str :=
  let sentences := Re.re_split Re.no_flags SENTENCE_END text in
  filter (fun sentence => 10 <? length sentence) (map Py.strip sentences).

(** The inner loop of [_extract_speakers]: the first pattern that matches
    the line decides, whether its name is kept or not. *)
Fixpoint speaker_of_line (patterns : list Re.regex) (line : str)
    (speakers : list str) : list str :=
  match patterns with
  | [] => speakers
  | pattern :: more =>
      match Re.re_match Re.no_flags pattern line with
      | Some groups =>
          let speaker := Py.strip (Re.group 1 groups) in
          if 1 <? length speaker then Py.set_add speaker speakers
          else speakers
      | None => speaker_of_line more line speakers
      end
  end.

Definition _extract_speakers (text : str) : list str :=
  let lines := Py.split_char Re.newline text in
  Py.sorted
    (fold_left (fun speakers line =>
                  speaker_of_line speaker_patterns line speakers)
               lines []).

Definition sum_nat (l : list nat) : nat := fold_left Nat.add l 0.

Definition Qnat (n : nat) : Q := inject_Z (Z.of_nat n).

Definition _create_metadata (original cleaned : str) (sentences : list str)
    (speakers : list str) : Metadata :=
  MetaStats (length original) (length cleaned) (length sentences)
    (length speakers)
    (match sentences with
     | [] => 0%Q
     | _ => (Qnat (sum_nat (map (fun s => length (Py.split_ws s)) sentences))
             / Qnat (length sentences))%Q
     end)
    (length (Py.split_ws cleaned))
    speakers
    (L "2024-01-01T00:00:00Z").

Definition _create_empty_result (original_text : PyVal) (error : str)
    : ProcessedTranscript :=
  mkProcessed original_text [] [] [] (MetaError error).

Definition opt_str (o : option str) : str :=
  match o with Some s => s | None => L "None" end.

(** [TranscriptProcessor.process].  The helpers called inside its [try]
    raise nothing, so its [except] branch has no run.  The log line of the
    success case is kept without its two counts. *)
Definition process (text : PyVal) : M (exc ProcessedTranscript) :=
  match validate_transcript text with
  | Raise e => ret (Raise e)
  | Ok validation =>
      if negb (is_valid validation)
      then
        logger WARNING (L "Invalid transcript: " ++ opt_str (error validation)) ;;;
        ret (Ok (_create_empty_result text (opt_str (error validation))))
      else
        let original_text := transcript validation in
        let cleaned_text := _clean_text original_text in
        let sentences := _extract_sentences cleaned_text in
        let speakers := _extract_speakers cleaned_text in
        let metadata :=
          _create_metadata original_text cleaned_text sentences speakers in
        logger INFO (L "Processed transcript") ;;;
        ret (Ok (mkProcessed (PStr original_text) cleaned_text sentences
                   speakers metadata))
  end.

End TranscriptProcessor.

(** ** [core/sentiment_analyzer.py] *)

(** VADER's [polarity_scores] dictionary. *)
Record VaderScores : Type := mkVader {
  neg : Q;
  neu : Q;
  pos : Q;
  compound : Q
}.

(** The third-party text libraries, as the analyzer calls them.  Each call
    may raise (TextBlob raises when its corpora are not installed). *)
Class TextLibs : Type := {
  (** [SentimentIntensityAnalyzer().polarity_scores(sentence)] *)
  vader_polarity_scores : str -> exc VaderScores;
  (** [[str(s) for s in TextBlob(text).sentences]] *)
  textblob_sentences : str -> exc (list str);
  (** [TextBlob(sentence).sentiment], as [(polarity, subjectivity)] *)
  textblob_sentiment : str -> exc (Q * Q)
}.

Module SentimentAnalyzer.
Import Validators.

Inductive Label : Type := Positive | Negative | Neutral.

Inductive Intensity : Type := High | Medium.

Record Highlight : Type := mkHighlight {
  h_word : str;
  h_polarity : Label;
  h_start : nat;
  h_end : nat;
  h_intensity : Intensity
}.

(** The dictionary [_analyze_sentence] returns.  [vader_scores] and
    [textblob_scores] are [None] for the empty dictionary; [s_error] is
    [None] when the key ["error"] is absent. *)
Record SentenceResult : Type := mkSentence {
  text : str;
  sentiment : Label;
  polarity : Q;
  confidence : Q;
  highlights : list Highlight;
  highlighted_text : str;
  is_important : bool;
  vader_scores : option VaderScores;
  textblob_scores : option (Q * Q);
  s_error : option str
}.

Record Statistics : Type := mkStatistics {
  total_sentences : nat;
  count_positive : nat;
  count_negative : nat;
  count_neutral : nat;
  average_polarity : Q;
  average_confidence : Q;
  max_polarity : Q;
  min_polarity : Q;
  important_sentences : nat
}.

(** The [summary] dictionary: [{}], [{"error": e}], or the statistics. *)
Inductive Summary : Type :=
| SummaryEmpty
| SummaryError (error : str)
| SummaryStats (s : Statistics).

Record SentimentResult : Type := mkResult {
  overall : Label;
  score : Q;
  r_confidence : Q;
  sentences : list SentenceResult;
  summary : Summary
}.

(** The analyzer object: the fields [__init__] sets.  No method assigns to
    them afterwards. *)
Record Analyzer : Type := mkAnalyzer {
  use_vader : bool;
  use_textblob : bool;
  positive_words : list str;
  negative_words : list str;
  intensity_words : list str
}.

(** [SentimentAnalyzer(use_vader, use_textblob)].  The three word sets are
    Python sets; they are listed here in the order of the source, each word
    once.  The results below do not depend on the order: two different words
    never match at the same offset, and the matches are sorted by offset. *)
Definition __init__ (use_vader use_textblob : bool) : Analyzer :=
  mkAnalyzer use_vader use_textblob
    (map L
       ["good"; "great"; "excellent"; "happy"; "love"; "wonderful"; "amazing";
        "positive"; "pleased"; "satisfied"; "fantastic"; "nice"; "awesome";
        "glad"; "enjoy"; "perfect"; "outstanding"; "brilliant"; "superb";
        "delighted"; "thrilled"; "excited"; "optimistic"; "confident"]%string)
    (map L
       ["bad"; "terrible"; "awful"; "sad"; "hate"; "horrible"; "negative";
        "angry"; "upset"; "disappointed"; "poor"; "worse"; "worst";
        "unhappy"; "annoyed"; "frustrated"; "concerned"; "worried"]%string)
    (map L
       ["very"; "extremely"; "incredibly"; "absolutely"; "completely";
        "totally"; "really"; "quite"; "rather"; "somewhat"; "slightly"]%string).

Definition _create_empty_result (error : str) : SentimentResult :=
  mkResult Neutral 0 0 [] (SummaryError error).

Definition _get_word_intensity (self : Analyzer) (text : str)
    (start end_ : nat) : Intensity :=
  let before_text := Py.lower (Py.slice text (start - 20) start) in
  if Py.any_in (intensity_words self) before_text then High else Medium.

(** [rf'\b{re.escape(word)}\b'] *)
Definition word_pattern (word : str) : Re.regex :=
  Re.seqs [Re.WordB; Re.lit word; Re.WordB].

Definition highlights_of (self : Analyzer) (text : str) (pol : Label)
    (words : list str) : list Highlight :=
  let text_lower := Py.lower text in
  flat_map
    (fun word =>
       map (fun m : nat * nat =>
              let (s, e) := m in
              mkHighlight (Py.slice text s e) pol s e
                          (_get_word_intensity self text s e))
           (Re.re_finditer Re.no_flags (word_pattern word) text_lower))
    words.

Fixpoint insert_by_start (h : Highlight) (l : list Highlight)
    : list Highlight :=
  match l with
  | [] => [h]
  | x :: t =>
      if h_start h <=? h_start x then h :: l else x :: insert_by_start h t
  end.

(** [highlights.sort(key=lambda x: x["start"])]: a stable sort. *)
Definition sort_by_start (l : list Highlight) : list Highlight :=
  fold_right insert_by_start [] l.

Definition _generate_highlights (self : Analyzer) (text : str)
    : list Highlight :=
  sort_by_start
    (highlights_of self text Positive (positive_words self)
     ++ highlights_of self text Negative (negative_words self)).

(** The loop of [_create_highlighted_text]; both intensities are rendered
    the same way. *)
Fixpoint highlight_parts (text : str) (last_end : nat) (hs : list Highlight)
    : str :=
  match hs with
  | [] => Py.slice text last_end (length text)
  | h :: t =>
      if h_start h <? last_end then highlight_parts text last_end t
      else Py.slice text last_end (h_start h)
             ++ L "**" ++ h_word h ++ L "**"
             ++ highlight_parts text (h_end h) t
  end.

Definition _create_highlighted_text (text : str) (hs : list Highlight)
    : str :=
  match hs with
  | [] => text
  | _ => highlight_parts text 0 (sort_by_start hs)
  end.

(** The label thresholds of [_analyze_sentence] and of
    [_calculate_overall_sentiment]. *)
Definition label_of (score : Q) : Label :=
  if Qle_bool (5 # 100) score then Positive
  else if Qle_bool score (- (5 # 100)) then Negative
  else Neutral.

Definition combine (self : Analyzer) (vader_compound textblob_polarity : Q)
    : Q :=
  if use_vader self && use_textblob self
  then (vader_compound * (7 # 10) + textblob_polarity * (3 # 10))%Q
  else if use_vader self then vader_compound
  else textblob_polarity.

Definition important_cues : list str :=
  map L ["action"; "next"; "follow"; "deadline"; "urgent"]%string.

Section WithLibs.
Context {libs : TextLibs}.

(** [_extract_sentences]: TextBlob's tokenizer, then the sentences of at
    least three words. *)
Definition _extract_sentences (text : str) : exc (list str) :=
  match textblob_sentences text with
  | Raise e => Raise e
  | Ok ss =>
      Ok (filter (fun s => 3 <=? length (Py.split_ws s)) (map Py.strip ss))
  end.

Definition initial_result (sentence : str) : SentenceResult :=
  mkSentence sentence Neutral 0 0 [] sentence false None None None.

Definition failed (r : SentenceResult) (e : PyExn) : M SentenceResult :=
  logger ERROR (L "Error analyzing sentence: " ++ exn_message e) ;;;
  ret (mkSentence (text r) (sentiment r) (polarity r) (confidence r)
         (highlights r) (highlighted_text r) (is_important r)
         (vader_scores r) (textblob_scores r) (Some (exn_message e))).

(** [_analyze_sentence].  An exception of either library leaves the entries
    written so far and adds ["error"]. *)
Definition _analyze_sentence (self : Analyzer) (sentence : str)
    : M SentenceResult :=
  let result := initial_result sentence in
  match (if use_vader self
         then match vader_polarity_scores sentence with
              | Ok v => Ok (Some v, compound v)
              | Raise e => Raise e
              end
         else Ok (None, 0%Q)) with
  | Raise e => failed result e
  | Ok (vs, vader_compound) =>
      let result :=
        mkSentence sentence Neutral 0 0 [] sentence false vs None None in
      match (if use_textblob self
             then match textblob_sentiment sentence with
                  | Ok (p, s) => Ok (Some (p, s), p)
                  | Raise e => Raise e
                  end
             else Ok (None, 0%Q)) with
      | Raise e => failed result e
      | Ok (ts, textblob_polarity) =>
          let combined_score :=
            combine self vader_compound textblob_polarity in
          let sentiment := label_of combined_score in
          let confidence := Qabs combined_score in
          let highlights := _generate_highlights self sentence in
          let is_important :=
            Qle_bool (3 # 10) confidence
            || (0 <? length highlights)
            || Py.any_in important_cues (Py.lower sentence) in
          ret (mkSentence sentence sentiment combined_score confidence
                 highlights (_create_highlighted_text sentence highlights)
                 is_important vs ts None)
      end
  end.

End WithLibs.

(** The accumulation loop of [_calculate_overall_sentiment], as
    [(total_weight, weighted_score)].  Every sentence result carries the keys
    ["polarity"] and ["confidence"], so the loop's test always holds. *)
Definition accumulate (rs : list SentenceResult) : Q * Q :=
  fold_left
    (fun (acc : Q * Q) result =>
       let weight := confidence result in
       (fst acc + weight, snd acc + polarity result * weight)%Q)
    rs (0%Q, 0%Q).

Record Overall : Type := mkOverall {
  o_overall : Label;
  o_score : Q;
  o_confidence : Q
}.

Definition _calculate_overall_sentiment (rs : list SentenceResult)
    : Overall :=
  match rs with
  | [] => mkOverall Neutral 0 0
  | _ =>
      let (total_weight, weighted_score) := accumulate rs in
      if Qeq_bool total_weight 0 then mkOverall Neutral 0 0
      else
        let avg_score := (weighted_score / total_weight)%Q in
        let avg_confidence :=
          (total_weight / inject_Z (Z.of_nat (length rs)))%Q in
        mkOverall (label_of avg_score) avg_score (Qmin avg_confidence 1)
  end.

Definition label_eqb (a b : Label) : bool :=
  match a, b with
  | Positive, Positive | Negative, Negative | Neutral, Neutral => true
  | _, _ => false
  end.

(** [sum(l)], [max(l)], [min(l)]: [max] and [min] return the first of equal
    extremes. *)
Definition Qsum (l : list Q) : Q := fold_left Qplus l 0%Q.

Definition Qmaximum (x : Q) (l : list Q) : Q :=
  fold_left (fun m y => if Qle_bool y m then m else y) l x.

Definition Qminimum (x : Q) (l : list Q) : Q :=
  fold_left (fun m y => if Qle_bool m y then m else y) l x.

Definition _create_summary (rs : list SentenceResult) : Summary :=
  match map polarity rs with
  | [] => SummaryEmpty
  | p :: ps =>
      let n := inject_Z (Z.of_nat (length rs)) in
      let count l := length (filter (fun r => label_eqb (sentiment r) l) rs) in
      SummaryStats
        (mkStatistics (length rs)
           (count Positive) (count Negative) (count Neutral)
           (Qsum (p :: ps) / n)%Q
           (Qsum (map confidence rs) / n)%Q
           (Qmaximum p ps) (Qminimum p ps)
           (length (filter is_important rs)))
  end.

Definition label_name (l : Label) : str :=
  match l with
  | Positive => L "Positive"
  | Negative => L "Negative"
  | Neutral => L "Neutral"
  end.

Section Analyze.
Context {libs : TextLibs}.

(** [SentimentAnalyzer.analyze].  The validation stands before the [try];
    the log line of the success case is kept without its formatted score. *)
Definition analyze (self : Analyzer) (text : PyVal)
    : M (exc SentimentResult) :=
  match validate_transcript text with
  | Raise e => ret (Raise e)
  | Ok validation =>
      if negb (is_valid validation)
      then
        logger WARNING
          (L "Invalid transcript: "
             ++ TranscriptProcessor.opt_str (error validation)) ;;;
        ret (Ok (_create_empty_result
                   (TranscriptProcessor.opt_str (error validation))))
      else
        let cleaned_text := transcript validation in
        match _extract_sentences cleaned_text with
        | Raise e =>
            logger ERROR (L "Sentiment analysis error: " ++ exn_message e) ;;;
            ret (Ok (_create_empty_result
                       (L "Analysis error: " ++ exn_message e)))
        | Ok sentences =>
            sentence_results <- mapM (_analyze_sentence self) sentences ;;
            let overall_sentiment :=
              _calculate_overall_sentiment sentence_results in
            let summary := _create_summary sentence_results in
            logger INFO
              (L "Sentiment analysis completed: "
                 ++ label_name (o_overall overall_sentiment)) ;;;
            ret (Ok (mkResult (o_overall overall_sentiment)
                       (o_score overall_sentiment)
                       (o_confidence overall_sentiment)
                       sentence_results summary))
        end
  end.

End Analyze.

(** The dictionary [get_sentiment_distribution_chart_data] returns when it
    is not empty. *)
Record ChartData : Type := mkChart {
  c_labels : list str;
  c_values : list nat;
  c_colors : list str
}.

(** [get_sentiment_distribution_chart_data]: [None] stands for [{}].  The
    labels and values are the keys and values of the distribution, in the
    order [_create_summary] inserts them. *)
Definition get_sentiment_distribution_chart_data (result : SentimentResult)
    : option ChartData :=
  match summary result with
  | SummaryStats st =>
      Some (mkChart
              [label_name Positive; label_name Negative; label_name Neutral]
              [count_positive st; count_negative st; count_neutral st]
              [L "#28a745"; L "#dc3545"; L "#6c757d"])
  | _ => None
  end.

End SentimentAnalyzer.

(** ** [core/insight_extractor.py] *)

Module InsightExtractor.
Import Validators.

Inductive InsightType : Type :=
| PROBLEM | SOLUTION | ACTION_ITEM | OPPORTUNITY | RISK | DECISION.

(** [for insight_type in InsightType] *)
Definition all_types : list InsightType :=
  [PROBLEM; SOLUTION; ACTION_ITEM; OPPORTUNITY; RISK; DECISION].

(** [insight_type.value] *)
Definition value (t : InsightType) : str :=
  match t with
  | PROBLEM => L "problem"
  | SOLUTION => L "solution"
  | ACTION_ITEM => L "action_item"
  | OPPORTUNITY => L "opportunity"
  | RISK => L "risk"
  | DECISION => L "decision"
  end.

Definition type_eqb (a b : InsightType) : bool :=
  Py.str_eqb (value a) (value b).

Inductive Priority : Type := high | medium | low.

Record Insight : Type := mkInsight {
  text : str;
  type : InsightType;
  confidence : Q;
  category : str;
  keywords : list str;
  context : str;
  priority : Priority
}.

Record Config : Type := mkConfig {
  patterns : list Re.regex;
  cfg_keywords : list str;
  categories : list str
}.

(** [re.IGNORECASE | re.MULTILINE] *)
Definition find_flags : Re.flags := Re.mkFlags true true.

(** [[\s\w\',-]] *)
Definition tail_char (c : ascii) : bool :=
  Py.isspace c || Py.isword c || existsb (Ascii.eqb c) (L "',-").

(** [(?:w1|w2|...)[\s\w\',-]*[.!?]] *)
Definition trigger (ws : list string) : Re.regex :=
  Re.seqs [Re.words ws; Re.Star (Re.Class tail_char); Re.one_of ".!?"].

Local Open Scope string_scope.

(** [_initialize_patterns] *)
Definition _initialize_patterns (t : InsightType) : Config :=
  match t with
  | PROBLEM =>
      mkConfig
        [ trigger ["problem"; "issue"; "challenge"; "concern"; "difficult";
                   "trouble"; "obstacle"; "barrier"; "pain point"];
          trigger ["struggling"; "facing"; "dealing with";
                   "having trouble with"];
          trigger ["not working"; "broken"; "failed"; "unsuccessful"];
          trigger ["need to fix"; "need to resolve"; "need to address"];
          trigger ["concerned about"; "worried about"; "anxious about"] ]
        (map L ["problem"; "issue"; "challenge"; "concern"; "difficult";
                "trouble"; "struggling"; "broken"; "failed"])
        (map L ["technical"; "business"; "process"; "resource"; "timeline"])
  | SOLUTION =>
      mkConfig
        [ trigger ["solution"; "resolve"; "fix"; "address"; "recommend";
                   "suggest"; "propose"; "implement"];
          trigger ["we can"; "we should"; "we need to"; "let's"; "how about"];
          trigger ["best practice"; "approach"; "method"; "strategy"];
          trigger ["workaround"; "alternative"; "option"];
          trigger ["upgrade"; "improve"; "enhance"; "optimize"] ]
        (map L ["solution"; "resolve"; "fix"; "address"; "recommend";
                "suggest"; "implement"; "approach"; "strategy"])
        (map L ["technical"; "process"; "training"; "resource"; "timeline"])
  | ACTION_ITEM =>
      mkConfig
        [ trigger ["action item"; "next step"; "todo"; "task"; "follow up";
                   "follow-up"];
          trigger ["we need to"; "we should"; "we will"; "we'll"; "let's"];
          trigger ["schedule"; "plan"; "arrange"; "coordinate"];
          trigger ["deadline"; "due date"; "timeline"; "schedule"];
          trigger ["assign"; "delegate"; "responsible"; "owner"] ]
        (map L ["action"; "next"; "step"; "todo"; "task"; "follow";
                "schedule"; "deadline"; "assign"; "responsible"])
        (map L ["immediate"; "short_term"; "long_term"; "ongoing"])
  | OPPORTUNITY =>
      mkConfig
        [ trigger ["opportunity"; "potential"; "possibility"; "chance";
                   "prospect"];
          trigger ["could"; "might"; "may"; "if we"];
          trigger ["upsell"; "cross-sell"; "expand"; "grow"; "scale"];
          trigger ["partnership"; "collaboration"; "joint"; "together"];
          trigger ["market"; "customer"; "client"; "account"] ]
        (map L ["opportunity"; "potential"; "possibility"; "chance"; "upsell";
                "expand"; "partnership"; "market"])
        (map L ["sales"; "partnership"; "expansion"; "market"; "product"])
  | RISK =>
      mkConfig
        [ trigger ["risk"; "threat"; "danger"; "concern"; "worry"];
          trigger ["if not"; "unless"; "otherwise"; "or else"];
          trigger ["budget"; "cost"; "expense"; "financial"];
          trigger ["timeline"; "schedule"; "deadline"; "delay"];
          trigger ["competition"; "competitor"; "market"] ]
        (map L ["risk"; "threat"; "danger"; "concern"; "worry"; "budget";
                "cost"; "timeline"; "competition"])
        (map L ["financial"; "timeline"; "competitive"; "technical";
                "operational"])
  | DECISION =>
      mkConfig
        [ trigger ["decide"; "decision"; "choose"; "select"; "pick"];
          trigger ["agree"; "disagree"; "approve"; "reject"];
          trigger ["final"; "conclude"; "determine"; "resolve"];
          trigger ["yes"; "no"; "maybe"; "perhaps"; "possibly"];
          trigger ["go with"; "proceed with"; "move forward"] ]
        (map L ["decide"; "decision"; "choose"; "select"; "agree"; "approve";
                "final"; "conclude"; "yes"; "no"])
        (map L ["approval"; "selection"; "direction"; "commitment";
                "rejection"])
  end.

(** [_initialize_stop_words] *)
Definition _initialize_stop_words : list str :=
  map L
    ["the"; "a"; "an"; "and"; "or"; "but"; "in"; "on"; "at"; "to"; "for";
     "of"; "with"; "by"; "is"; "are"; "was"; "were"; "be"; "been"; "being";
     "have"; "has"; "had"; "do"; "does"; "did"; "will"; "would"; "could";
     "should"; "may"; "might"; "must"; "can"; "this"; "that"; "these";
     "those"].

(** The extractor object: [self.patterns] and [self.stop_words]. *)
Record Extractor : Type := mkExtractor {
  self_patterns : InsightType -> Config;
  stop_words : list str
}.

Definition __init__ : Extractor :=
  mkExtractor _initialize_patterns _initialize_stop_words.

(** [prefixes_to_remove] of [_clean_insight_text] *)
Definition prefixes_to_remove : list Re.regex :=
  let prefix ws := Re.seqs [Re.Bol; Re.words ws; Re.Star Re.Space] in
  [ prefix ["so"; "well"; "okay"; "ok"; "alright"; "right"; "yes"; "no";
            "sure"; "absolutely"; "definitely"];
    prefix ["i think"; "i believe"; "i feel"; "i guess"; "i suppose"];
    prefix ["we need to"; "we should"; "we can"; "we will"; "we'll"] ].

Local Close Scope string_scope.

Definition _clean_insight_text (text : str) : str :=
  let cleaned :=
    Re.re_sub Re.no_flags (Re.Plus Re.Space) [Re.RText (L " ")]
      (Py.strip text) in
  Py.strip
    (fold_left
       (fun c prefix => Re.re_sub TranscriptProcessor.icase prefix [] c)
       prefixes_to_remove cleaned).

Definition Qnat (n : nat) : Q := inject_Z (Z.of_nat n).

Definition _is_valid_insight (self : Extractor) (text : str) : bool :=
  if length text <? 10 then false
  else
    let words := Py.split_ws text in
    if length words <? 3 then false
    else
      let stop_word_count :=
        length (filter (fun word => Py.mem (Py.lower word) (stop_words self))
                       words) in
      if Qlt_le_dec (7 # 10) (Qnat stop_word_count / Qnat (length words))
      then false
      else true.

Definition action_words : list str :=
  map L ["will"; "should"; "need"; "must"; "can"; "could"]%string.

Definition _calculate_insight_confidence (text : str) (cfg : Config) : Q :=
  let confidence := 0%Q in
  let text_lower := Py.lower text in
  let keyword_matches := Py.count_in (cfg_keywords cfg) text_lower in
  let confidence :=
    (confidence + Qmin (Qnat keyword_matches * (2 # 10)) (6 # 10))%Q in
  let word_count := length (Py.split_ws text) in
  let confidence :=
    if 10 <? word_count then (confidence + (2 # 10))%Q
    else if 5 <? word_count then (confidence + (1 # 10))%Q
    else confidence in
  let action_matches := Py.count_in action_words text_lower in
  let confidence :=
    (confidence + Qmin (Qnat action_matches * (1 # 10)) (2 # 10))%Q in
  Qmin confidence 1.

Definition _extract_keywords (text : str) (pattern_keywords : list str)
    : list str :=
  let text_lower := Py.lower text in
  filter (fun keyword => Py.contains keyword text_lower) pattern_keywords.

(** [category_keywords] of [_categorize_insight], in insertion order. *)
Definition category_keywords : list (str * list str) :=
  [ (L "technical",
     map L ["technical"; "system"; "software"; "hardware"; "bug"; "error";
            "code"]%string);
    (L "business",
     map L ["business"; "revenue"; "profit"; "customer"; "market";
            "sales"]%string);
    (L "process",
     map L ["process"; "workflow"; "procedure"; "method"; "approach"]%string);
    (L "resource",
     map L ["resource"; "budget"; "cost"; "money"; "funding"; "staff";
            "team"]%string);
    (L "timeline",
     map L ["timeline"; "schedule"; "deadline"; "date"; "time"; "urgent";
            "priority"]%string) ].

Definition _categorize_insight (text : str) (categories : list str) : str :=
  let text_lower := Py.lower text in
  match find (fun ck => Py.any_in (snd ck) text_lower) category_keywords with
  | Some (category, _) => category
  | None =>
      match categories with
      | c :: _ => c
      | [] => L "general"
      end
  end.

Definition high_priority_words : list str :=
  map L ["urgent"; "critical"; "important"; "asap"; "immediately";
         "deadline"]%string.

Definition _determine_priority (text : str) (insight_type : InsightType)
    (confidence : Q) : Priority :=
  let text_lower := Py.lower text in
  if Py.any_in high_priority_words text_lower then high
  else if (type_eqb insight_type ACTION_ITEM || type_eqb insight_type PROBLEM)
          && (if Qlt_le_dec (5 # 10) confidence then true else false)
  then medium
  else if type_eqb insight_type OPPORTUNITY || type_eqb insight_type DECISION
  then low
  else medium.

(** The [for i, sentence in enumerate(sentences)] loop of
    [_extract_context]: the slice around the first sentence that contains the
    insight, [[]] when there is none. *)
Fixpoint context_window (text_lower : str) (sentences : list str) (i : nat)
    (rest : list str) : list str :=
  match rest with
  | [] => []
  | sentence :: more =>
      if Py.contains text_lower (Py.lower sentence)
      then firstn (Nat.min (length sentences) (i + 2) - (i - 1))
                  (skipn (i - 1) sentences)
      else context_window text_lower sentences (S i) more
  end.

Definition _extract_context (text full_context : str) : str :=
  let text_lower := Py.lower text in
  let context_lower := Py.lower full_context in
  if negb (Py.contains text_lower context_lower) then text
  else
    let sentences :=
      Re.re_split Re.no_flags SENTENCE_END full_context in
    Py.strip (Py.join (L " ") (context_window text_lower sentences 0 sentences)).

(** [_create_insight]; nothing inside its [try] raises, and an [Insight]
    object is true, so every call yields an insight that is appended. *)
Definition _create_insight (text : str) (insight_type : InsightType)
    (cfg : Config) (context : str) : Insight :=
  let confidence := _calculate_insight_confidence text cfg in
  let keywords := _extract_keywords text (cfg_keywords cfg) in
  let category := _categorize_insight text (categories cfg) in
  let priority := _determine_priority text insight_type confidence in
  let context_sentences := _extract_context text context in
  mkInsight text insight_type confidence category keywords context_sentences
            priority.

(** The loop of [_deduplicate_insights], with its set [seen_texts]. *)
Fixpoint dedup_from (seen_texts : list str) (insights : list Insight)
    : list Insight :=
  match insights with
  | [] => []
  | insight :: more =>
      let text_lower := Py.lower (text insight) in
      if negb (Py.mem text_lower seen_texts)
      then insight :: dedup_from (Py.set_add text_lower seen_texts) more
      else dedup_from seen_texts more
  end.

Definition _deduplicate_insights (insights : list Insight) : list Insight :=
  dedup_from [] insights.

Fixpoint insert_by_confidence (x : Insight) (l : list Insight)
    : list Insight :=
  match l with
  | [] => [x]
  | y :: t =>
      if Qle_bool (confidence y) (confidence x) then x :: l
      else y :: insert_by_confidence x t
  end.

(** [sorted(l, key=lambda x: x.confidence, reverse=True)]: stable, highest
    confidence first. *)
Definition sort_by_confidence (l : list Insight) : list Insight :=
  fold_right insert_by_confidence [] l.

Definition _extract_insights_by_type (self : Extractor) (text : str)
    (insight_type : InsightType) : list Insight :=
  let patterns_config := self_patterns self insight_type in
  let insights :=
    flat_map
      (fun pattern =>
         flat_map
           (fun m =>
              let cleaned_match := _clean_insight_text m in
              if _is_valid_insight self cleaned_match
              then [_create_insight cleaned_match insight_type
                                    patterns_config text]
              else [])
           (Re.re_findall find_flags pattern text))
      (patterns patterns_config) in
  sort_by_confidence (_deduplicate_insights insights).

(** [round(x, 3)]: to the nearest multiple of 1/1000, ties to the even
    one.  The tie is the one of the exact rational; a Python float may sit
    just beside it. *)
Definition round3 (x : Q) : Q :=
  let t := (x * 1000)%Q in
  let f := Qfloor t in
  let d := (t - inject_Z f)%Q in
  let up := inject_Z (f + 1) in
  let down := inject_Z f in
  ((if Qlt_le_dec d (1 # 2) then down
    else if Qlt_le_dec (1 # 2) d then up
    else if Z.even f then down else up) / 1000)%Q.

Definition _calculate_extraction_confidence (insights : list Insight) : Q :=
  match insights with
  | [] => 0%Q
  | _ =>
      round3 (fold_left Qplus (map confidence insights) 0
              / Qnat (length insights))%Q
  end.

Record Detail : Type := mkDetail {
  d_text : str;
  d_confidence : Q;
  d_category : str;
  d_keywords : list str;
  d_priority : Priority
}.

Record ReportMetadata : Type := mkMetadata {
  total_insights : nat;
  insights_by_type : list (str * nat);
  extraction_confidence : Q;
  high_priority_items : list str;
  error : option str
}.

Record Report : Type := mkReport {
  problems : list str;
  solutions : list str;
  action_items : list str;
  opportunities : list str;
  risks : list str;
  decisions : list str;
  metadata : ReportMetadata;
  detailed_insights : list (str * list Detail)
}.

Definition _create_empty_result (error : str) : Report :=
  mkReport [] [] [] [] [] [] (mkMetadata 0 [] 0 [] (Some error)) [].

Definition priority_eqb (a b : Priority) : bool :=
  match a, b with
  | high, high | medium, medium | low, low => true
  | _, _ => false
  end.

(** [[i.text for i in l]] *)
Definition texts (l : list Insight) : list str := map text l.

(** The entry of [detailed_insights] for one insight. *)
Definition detail (i : Insight) : Detail :=
  mkDetail (text i) (confidence i) (category i) (keywords i) (priority i).

Definition priority_name (p : Priority) : str :=
  match p with
  | high => L "high"
  | medium => L "medium"
  | low => L "low"
  end.

Definition detail_dict (d : Detail) : PyVal :=
  PDict [ (L "text", PStr (d_text d));
          (L "confidence", PFloat (d_confidence d));
          (L "category", PStr (d_category d));
          (L "keywords", PList (map PStr (d_keywords d)));
          (L "priority", PStr (priority_name (d_priority d))) ].

(** A report as the Python dictionary it is, entry by entry. *)
Definition report_dict (rep : Report) : list (str * PyVal) :=
  let m := metadata rep in
  [ (L "problems", PList (map PStr (problems rep)));
    (L "solutions", PList (map PStr (solutions rep)));
    (L "action_items", PList (map PStr (action_items rep)));
    (L "opportunities", PList (map PStr (opportunities rep)));
    (L "risks", PList (map PStr (risks rep)));
    (L "decisions", PList (map PStr (decisions rep)));
    (L "metadata",
     PDict ([ (L "total_insights", PInt (Z.of_nat (total_insights m)));
              (L "insights_by_type",
               PDict (map (fun kv => (fst kv, PInt (Z.of_nat (snd kv))))
                          (insights_by_type m)));
              (L "extraction_confidence", PFloat (extraction_confidence m));
              (L "high_priority_items",
               PList (map PStr (high_priority_items m))) ]
            ++ match error m with
               | Some e => [(L "error", PStr e)]
               | None => []
               end));
    (L "detailed_insights",
     PDict (map (fun kv => (fst kv, PList (map detail_dict (snd kv))))
                (detailed_insights rep))) ].

(** [insight_type.value] in the comprehension that builds
    ["detailed_insights"]: there [insight_type] is a key of
    [insights_by_type], and the keys of that dictionary are the strings
    [InsightType.X.value]; a [str] has no attribute [value]. *)
Definition key_value (insight_type : str) : exc str :=
  Raise (AttributeError (L "'str' object has no attribute 'value'")).

(** [InsightExtractor.extract_insights].  The validation stands before the
    [try].  Inside the [try] the per-type insights are collected under the
    string keys [insight_type.value], the entries of the result are built
    in the order of the dictionary display, and the comprehension for
    ["detailed_insights"] iterates over the items of [insights_by_type];
    what it raises is caught by the [except] of the method.  The log lines
    of the success case are kept without their formatted values. *)
Definition extract_insights (self : Extractor) (text : PyVal)
    : M (exc Report) :=
  match validate_transcript text with
  | Raise e => ret (Raise e)
  | Ok validation =>
      if negb (is_valid validation)
      then
        logger WARNING
          (L "Invalid transcript: "
             ++ TranscriptProcessor.opt_str (Validators.error validation)) ;;;
        ret (Ok (_create_empty_result
                   (TranscriptProcessor.opt_str (Validators.error validation))))
      else
        let cleaned_text := transcript validation in
        let by_type t := _extract_insights_by_type self cleaned_text t in
        let insights_by_type := map (fun t => (value t, by_type t)) all_types in
        let all_insights := flat_map by_type all_types in
        match emap (fun item : str * list Insight =>
                      let (insight_type, insights) := item in
                      match key_value insight_type with
                      | Raise e => Raise e
                      | Ok key => Ok (key, map detail insights)
                      end)
                   insights_by_type with
        | Ok detailed =>
            let result :=
              mkReport
                (texts (by_type PROBLEM))
                (texts (by_type SOLUTION))
                (texts (by_type ACTION_ITEM))
                (texts (by_type OPPORTUNITY))
                (texts (by_type RISK))
                (texts (by_type DECISION))
                (mkMetadata
                   (length all_insights)
                   (map (fun kv => (fst kv, length (snd kv)))
                        insights_by_type)
                   (_calculate_extraction_confidence all_insights)
                   (texts
                      (filter (fun i => priority_eqb (priority i) high)
                              all_insights))
                   None)
                detailed in
            (if negb (iv_is_valid (validate_insight_data (report_dict result)))
             then logger WARNING (L "Insight validation failed")
             else ret tt) ;;;
            logger INFO (L "Extracted insights from transcript") ;;;
            ret (Ok result)
        | Raise e =>
            logger ERROR (L "Insight extraction error: " ++ exn_message e) ;;;
            ret (Ok (_create_empty_result
                       (L "Extraction error: " ++ exn_message e)))
        end
  end.

End InsightExtractor.

(** ** [utils/file_handler.py] *)

(** The decoders the file handler calls, each with the failures its caller
    catches. *)
Class Decoders : Type := {
  (** [content.decode('utf-8')]; [None] for [UnicodeDecodeError] *)
  decode_utf8 : list Byte.byte -> option str;
  (** [content.decode('utf-8', errors='ignore')] *)
  decode_utf8_ignore : list Byte.byte -> str;
  (** [page.extract_text()] for the pages of [PdfReader(io.BytesIO(content))] *)
  pdf_page_texts : list Byte.byte -> exc (list str);
  (** [paragraph.text] for the paragraphs of [Document(io.BytesIO(content))] *)
  docx_paragraph_texts : list Byte.byte -> exc (list str)
}.

Module FileHandler.
Import Validators.

(** The dictionary [process_uploaded_file] returns. *)
Record Upload : Type := mkUploadResult {
  success : bool;
  content : str;
  error : option str;
  file_type : str;
  filename : str
}.

Definition DOCX_TYPE : str :=
  L "application/vnd.openxmlformats-officedocument.wordprocessingml.document".

(** The loop [text += t + "\n"]. *)
Definition lines_of (l : list str) : str :=
  flat_map (fun t => t ++ [Re.newline]) l.

Section WithDecoders.
Context {dec : Decoders}.

Definition _extract_from_txt (content : list Byte.byte) : str :=
  match decode_utf8 content with
  | Some s => s
  | None => decode_utf8_ignore content
  end.

Definition _extract_from_pdf (content : list Byte.byte) : M str :=
  match pdf_page_texts content with
  | Ok pages => ret (lines_of pages)
  | Raise e =>
      logger ERROR (L "PDF extraction error: " ++ exn_message e) ;;; ret []
  end.

Definition _extract_from_docx (content : list Byte.byte) : M str :=
  match docx_paragraph_texts content with
  | Ok paragraphs => ret (lines_of paragraphs)
  | Raise e =>
      logger ERROR (L "DOCX extraction error: " ++ exn_message e) ;;; ret []
  end.

(** The end of [process_uploaded_file], once the text is extracted. *)
Definition finish (file_type filename : str) (content : str) : M Upload :=
  match Py.strip content with
  | [] =>
      ret (mkUploadResult false []
             (Some (L "No text content found in file")) file_type filename)
  | _ =>
      logger INFO (L "Successfully processed file: " ++ filename) ;;;
      ret (mkUploadResult true content None file_type filename)
  end.

(** [FileHandler.process_uploaded_file].  Nothing inside its [try] raises:
    the validation and the three extractors return in every case. *)
Definition process_uploaded_file (file_content : list Byte.byte)
    (file_type filename : str) : M Upload :=
  let validation := validate_file_upload file_content file_type in
  if negb (up_is_valid validation)
  then ret (mkUploadResult false [] (up_error validation) file_type filename)
  else if Py.str_eqb file_type (L "text/plain")
          || Py.endswith (L ".txt") filename
  then finish file_type filename (_extract_from_txt file_content)
  else if Py.str_eqb file_type (L "application/pdf")
          || Py.endswith (L ".pdf") filename
  then content <- _extract_from_pdf file_content ;;
       finish file_type filename content
  else if Py.str_eqb file_type DOCX_TYPE
          || Py.endswith (L ".docx") filename
  then content <- _extract_from_docx file_content ;;
       finish file_type filename content
  else ret (mkUploadResult false []
              (Some (L "Unsupported file type: " ++ file_type))
              file_type filename).

End WithDecoders.

End FileHandler.

(** ** Stand-ins for the text libraries

    They make the model runnable on examples.  For both, sentences are the
    fragments between terminators. *)

(** A sentence scores by two cue words. *)
Definition toy_score (s : str) : Q :=
  if Py.contains (L "great") (Py.lower s) then (1 # 2)%Q
  else if Py.contains (L "terrible") (Py.lower s) then (- (1 # 2))%Q
  else 0%Q.

Definition toy_libs : TextLibs := {|
  vader_polarity_scores := fun s => Ok (mkVader 0 1 0 (toy_score s));
  textblob_sentences :=
    fun s => Ok (Re.re_split Re.no_flags Validators.SENTENCE_END s);
  textblob_sentiment := fun s => Ok (toy_score s, (1 # 2)%Q)
|}.

(** Libraries that return one fixed score for every sentence. *)
Definition const_libs (q : Q) : TextLibs := {|
  vader_polarity_scores := fun _ => Ok (mkVader 0 1 0 q);
  textblob_sentences :=
    fun s => Ok (Re.re_split Re.no_flags Validators.SENTENCE_END s);
  textblob_sentiment := fun _ => Ok (q, (1 # 2)%Q)
|}.

(** Libraries whose VADER call fails on the sentences that hold a given
    word, and whose other calls are those of [toy_libs]. *)
Definition brittle_libs (word : str) : TextLibs := {|
  vader_polarity_scores :=
    fun s => if Py.contains word (Py.lower s)
             then Raise (LibraryError (L "lexicon lookup failed"))
             else Ok (mkVader 0 1 0 (toy_score s));
  textblob_sentences :=
    fun s => Ok (Re.re_split Re.no_flags Validators.SENTENCE_END s);
  textblob_sentiment := fun s => Ok (toy_score s, (1 # 2)%Q)
|}.

(** Libraries without a sentence tokenizer. *)
Definition no_tokenizer_libs : TextLibs := {|
  vader_polarity_scores := fun s => Ok (mkVader 0 1 0 (toy_score s));
  textblob_sentences :=
    fun _ => Raise (LibraryError (L "tokenizer resource not found"));
  textblob_sentiment := fun s => Ok (toy_score s, (1 # 2)%Q)
|}.

(** Decoders that read every byte as one character, and take a PDF or a
    DOCX file for one page or paragraph of such text. *)
Definition toy_decoders : Decoders := {|
  decode_utf8 := fun b => Some (map (fun x => ascii_of_N (Byte.to_N x)) b);
  decode_utf8_ignore := fun b => map (fun x => ascii_of_N (Byte.to_N x)) b;
  pdf_page_texts :=
    fun b => Ok [map (fun x => ascii_of_N (Byte.to_N x)) b];
  docx_paragraph_texts :=
    fun b => Ok [map (fun x => ascii_of_N (Byte.to_N x)) b]
|}.

(** The bytes of an ASCII text. *)
Definition bytes_of (s : str) : list Byte.byte :=
  map (fun c => match Byte.of_N (N_of_ascii c) with
                | Some b => b
                | None => Byte.x00
                end) s.

(** The empty world: nothing logged yet. *)
Definition world0 : World := mkWorld [].

(** ** Inputs *)

(** ["John: Hello everyone!\nMary: Hi John, how are you?\nJohn: I'm doing
    great, thanks."] *)
Definition scenario6 : str :=
  L "John: Hello everyone!" ++ [Re.newline]
  ++ L "Mary: Hi John, how are you?" ++ [Re.newline]
  ++ L "John: I'm doing great, thanks.".

(** ["Alice: We   should ship it [noise] today.\nBob: I agree with that
    plan... Really good work everyone!"] *)
Definition two_speaker_lines : str :=
  L "Alice: We   should ship it [noise] today." ++ [Re.newline]
  ++ L "Bob: I agree with that plan... Really good work everyone!".

(** [{"text": 5}] *)
Definition dict_text_5 : PyVal := PDict [(L "text", PInt 5)].

(** ** The specification's notions, stated on their own *)

(** *** Invalid input *)

(** The inputs the specification calls invalid, each with the error
    description the validation gives it: [None]; a value that is neither a
    string nor a dict with a ["text"] entry; a string of whitespace only; a
    string without a letter. *)
Inductive invalid_input : PyVal -> str -> Prop :=
| invalid_none :
    invalid_input PNone (L "Transcript cannot be None")
| invalid_type (v : PyVal) :
    v <> PNone ->
    (forall s, v <> PStr s) ->
    (forall d, v = PDict d -> dict_get (L "text") d = None) ->
    invalid_input v (L "Transcript must be a string, received " ++ type_name v)
| invalid_empty (s : str) :
    forallb Py.isspace s = true ->
    invalid_input (PStr s) (L "Transcript is empty")
| invalid_no_letter (s : str) :
    forallb Py.isspace s = false ->
    existsb Py.is_azAZ s = false ->
    invalid_input (PStr s) (L "Transcript contains no alphabetic characters").

(** *** Fragments between runs of terminators *)

(** One of ['.'], ['!'], ['?']. *)
Definition is_terminator (c : ascii) : bool :=
  existsb (Ascii.eqb c) (L ".!?").

(** The text cut at the runs of terminators, read directly off the text:
    [cur] collects the current fragment (last character first), [in_run]
    says that the previous character was a terminator. *)
Fixpoint fragments_from (cur : str) (in_run : bool) (s : str) : list str :=
  match s with
  | [] => [rev cur]
  | c :: t =>
      if is_terminator c
      then if in_run then fragments_from [] true t
           else rev cur :: fragments_from [] true t
      else fragments_from (c :: cur) false t
  end.

Definition fragments (s : str) : list str := fragments_from [] false s.

(** The longest prefix of characters in a class, and what follows it. *)
Fixpoint take_run (p : ascii -> bool) (s : str) : str :=
  match s with
  | c :: t => if p c then c :: take_run p t else []
  | [] => []
  end.

Fixpoint drop_run (p : ascii -> bool) (s : str) : str :=
  match s with
  | c :: t => if p c then drop_run p t else s
  | [] => []
  end.

(** *** Sentiment aggregation and confidences *)

(** The sum of the sentence confidences: the total weight. *)
Definition total_confidence (rs : list SentimentAnalyzer.SentenceResult) : Q :=
  fold_right Qplus 0%Q (map SentimentAnalyzer.confidence rs).

(** The sum of the sentence polarities, each weighted by its confidence. *)
Definition weighted_polarity (rs : list SentimentAnalyzer.SentenceResult) : Q :=
  fold_right Qplus 0%Q
    (map (fun r => (SentimentAnalyzer.polarity r
                    * SentimentAnalyzer.confidence r)%Q) rs).

(** The documented ranges of the library scores: VADER's compound score and
    TextBlob's polarity lie between -1 and 1. *)
Definition libs_in_range (libs : TextLibs) : Prop :=
  (forall s v, vader_polarity_scores s = Ok v -> (-1 <= compound v <= 1)%Q)
  /\ (forall s p sub, textblob_sentiment s = Ok (p, sub) -> (-1 <= p <= 1)%Q).

(** A number is a confidence when it lies in the closed unit interval. *)
Definition unit_interval (q : Q) : Prop := (0 <= q <= 1)%Q.

(** *** Insights *)

(** The confidence of a candidate as the specification gives it:
    [min(1, min(0.2 k, 0.6) + w + min(0.1 a, 0.2))], where [k] counts the
    keywords that occur in the lower-cased text, [a] counts the action words
    that occur in it, and [w] is 0.2 above ten words, 0.1 above five, and 0
    otherwise. *)
Definition claimed_confidence (keywords : list str) (text : str) : Q :=
  let text_lower := Py.lower text in
  let k := inject_Z (Z.of_nat (Py.count_in keywords text_lower)) in
  let a :=
    inject_Z
      (Z.of_nat
         (Py.count_in
            (map L ["will"; "should"; "need"; "must"; "can"; "could"]%string)
            text_lower)) in
  let word_count := length (Py.split_ws text) in
  let w := if 10 <? word_count then (2 # 10)%Q
           else if 5 <? word_count then (1 # 10)%Q
           else 0%Q in
  Qmin 1 (Qmin ((2 # 10) * k) (6 # 10) + w + Qmin ((1 # 10) * a) (2 # 10)).

(** The text of an insight, lower-cased: what the deduplication compares. *)
Definition lowered_text (i : InsightExtractor.Insight) : str :=
  Py.lower (InsightExtractor.text i).

(** The six lists of texts of a report, in the order of the insight
    types. *)
Definition report_lists (rep : InsightExtractor.Report) : list (list str) :=
  [ InsightExtractor.problems rep; InsightExtractor.solutions rep;
    InsightExtractor.action_items rep; InsightExtractor.opportunities rep;
    InsightExtractor.risks rep; InsightExtractor.decisions rep ].

(** The share of stop words among the words of a text. *)
Definition stop_word_share (ex : InsightExtractor.Extractor) (text : str) : Q :=
  let words := Py.split_ws text in
  (inject_Z
     (Z.of_nat
        (length
           (filter (fun word =>
                      Py.mem (Py.lower word) (InsightExtractor.stop_words ex))
                   words)))
   / inject_Z (Z.of_nat (length words)))%Q.

(** *** Library failures *)

(** What a record says when a library call failed on its sentence. *)
Definition failed_record (r : SentimentAnalyzer.SentenceResult) : Prop :=
  SentimentAnalyzer.sentiment r = SentimentAnalyzer.Neutral
  /\ SentimentAnalyzer.polarity r = 0%Q
  /\ SentimentAnalyzer.confidence r = 0%Q
  /\ SentimentAnalyzer.highlights r = []
  /\ SentimentAnalyzer.highlighted_text r = SentimentAnalyzer.text r
  /\ SentimentAnalyzer.is_important r = false
  /\ SentimentAnalyzer.textblob_scores r = None.

Definition libs_answer (libs : TextLibs) (self : SentimentAnalyzer.Analyzer)
    (s : str) : Prop :=
  (SentimentAnalyzer.use_vader self = true ->
   exists v, vader_polarity_scores s = Ok v)
  /\ (SentimentAnalyzer.use_textblob self = true ->
      exists p, textblob_sentiment s = Ok p).

(** *** Highlights *)

(** A highlight that marks an occurrence of a lexicon word: its offsets
    delimit, in the lower-cased sentence, a word of the lexicon of its
    polarity, and its word is the text of the sentence between the same
    offsets. *)
Definition marks_lexicon_word (self : SentimentAnalyzer.Analyzer) (text : str)
    (h : SentimentAnalyzer.Highlight) : Prop :=
  SentimentAnalyzer.h_start h <= SentimentAnalyzer.h_end h
  /\ SentimentAnalyzer.h_end h <= length (Py.lower text)
  /\ SentimentAnalyzer.h_word h
     = Py.slice text (SentimentAnalyzer.h_start h) (SentimentAnalyzer.h_end h)
  /\ ((SentimentAnalyzer.h_polarity h = SentimentAnalyzer.Positive
       /\ In (Py.slice (Py.lower text) (SentimentAnalyzer.h_start h)
                       (SentimentAnalyzer.h_end h))
             (SentimentAnalyzer.positive_words self))
      \/ (SentimentAnalyzer.h_polarity h = SentimentAnalyzer.Negative
          /\ In (Py.slice (Py.lower text) (SentimentAnalyzer.h_start h)
                          (SentimentAnalyzer.h_end h))
                (SentimentAnalyzer.negative_words self))).

(** A text without its asterisks. *)
Definition without_markers (s : str) : str :=
  filter (fun c => negb (Ascii.eqb c "*"%char)) s.

(** *** Characters a match can see *)

(** A matcher state whose text ahead and whose captured groups hold only
    characters of a given kind. *)
Definition state_over (P : ascii -> Prop) (st : Re.mstate) : Prop :=
  Forall P (Re.todo st) /\ Forall (fun ns => Forall P (snd ns)) (Re.caps st).

Definition token_over (P : ascii -> Prop) (t : Re.token) : Prop :=
  match t with
  | Re.Chr c => P c
  | Re.Hit m cs => Forall P m /\ Forall (fun ns => Forall P (snd ns)) cs
  end.

Definition rpart_over (P : ascii -> Prop) (p : Re.rpart) : Prop :=
  match p with
  | Re.RText s => Forall P s
  | Re.RGroup _ => True
  end.

(** A character that is not whitespace, or is the plain space: not a tab,
    a line break or another separator. *)
Definition plain_space (c : ascii) : Prop :=
  Py.isspace c = true -> c = " "%char.

(** *** Sanitised text *)

(** Runs of whitespace replaced by one space, read directly off the text:
    [in_run] says that the previous character was whitespace. *)
Fixpoint squeeze_from (in_run : bool) (s : str) : str :=
  match s with
  | [] => []
  | c :: t =>
      if Py.isspace c
      then if in_run then squeeze_from true t
           else " "%char :: squeeze_from true t
      else c :: squeeze_from false t
  end.

(** A text whose whitespace is single plain spaces: [after_space] says
    that the previous character was a space. *)
Fixpoint single_spaced (after_space : bool) (s : str) : Prop :=
  match s with
  | [] => True
  | c :: t =>
      if Py.isspace c
      then c = " "%char /\ after_space = false /\ single_spaced true t
      else single_spaced false t
  end.

(** *** Uploads *)

(** What the result of [process_uploaded_file] says about the upload: a
    success carries text that is not blank, and was given content of at
    most 10 MB under one of the listed MIME types; a failure carries an
    error and no content. *)
Definition consistent_upload (file_content : list Byte.byte)
    (file_type filename : str) (r : FileHandler.Upload) : Prop :=
  FileHandler.file_type r = file_type
  /\ FileHandler.filename r = filename
  /\ (FileHandler.success r = true ->
      FileHandler.error r = None
      /\ Py.strip (FileHandler.content r) <> []
      /\ file_content <> []
      /\ (Z.of_nat (length file_content) <= 10 * 1024 * 1024)%Z
      /\ In file_type (map fst Validators.allowed_types))
  /\ (FileHandler.success r = false ->
      FileHandler.content r = [] /\ FileHandler.error r <> None).

(** *** Chart data *)

Definition count_label (l : SentimentAnalyzer.Label)
    (rs : list SentimentAnalyzer.SentenceResult) : nat :=
  length (filter (fun r => SentimentAnalyzer.label_eqb
                             (SentimentAnalyzer.sentiment r) l) rs).

(** * Properties *)

(** ** Speaker extraction on the three-line scenario *)

(** Applied to the raw scenario text, [_extract_speakers] finds both
    speakers. *)
Lemma extract_speakers_on_raw_scenario6 :
  TranscriptProcessor._extract_speakers scenario6 = [L "John"; L "Mary"].
Proof. vm_compute. reflexivity. Qed.

(** [_clean_text] turns every newline of the scenario into a space. *)
Lemma clean_text_scenario6 :
  TranscriptProcessor._clean_text scenario6
  = L "John: Hello everyone! Mary: Hi John, how are you? John: I'm doing great, thanks.".
Proof. vm_compute. reflexivity. Qed.

(** C1 (the code departs from the claim): [process] on the scenario input
    returns the speaker list [["John"]], not [["John"; "Mary"]]: it extracts
    the speakers from the cleaned text, in which the line breaks are gone, so
    the text is one line and only its first label is seen. *)
Theorem process_scenario6_speakers :
  forall w : World,
    exists r,
      fst (TranscriptProcessor.process (PStr scenario6) w) = Ok r
      /\ TranscriptProcessor.speakers r = [L "John"]
      /\ TranscriptProcessor.speakers r <> [L "John"; L "Mary"].
Proof.
  intro w. eexists. split; [ reflexivity | ].
  split; [ vm_compute; reflexivity | vm_compute; discriminate ].
Qed.

(** ** Invalid input *)

(** C10 (the code departs from the claim): a dict whose ["text"] entry is not
    a string is not rejected with the type-error message;
    [validate_transcript] calls [strip] on the entry and raises
    [AttributeError]. *)
Theorem validate_transcript_dict_non_string :
  forall (d : list (str * PyVal)) (v : PyVal),
    dict_get (L "text") d = Some v ->
    (forall s, v <> PStr s) ->
    Validators.validate_transcript (PDict d)
    = Raise (Validators.no_strip v).
Proof.
  intros d v Hget Hv. unfold Validators.validate_transcript.
  rewrite Hget. destruct v; try reflexivity.
  exfalso. eapply Hv. reflexivity.
Qed.

Lemma validate_transcript_dict_non_string_witness :
  dict_get (L "text") [(L "text", PInt 5)] = Some (PInt 5)
  /\ Validators.validate_transcript dict_text_5
     = Raise (AttributeError (L "'int' object has no attribute 'strip'")).
Proof.
  split; [ reflexivity | ].
  apply (validate_transcript_dict_non_string [(L "text", PInt 5)] (PInt 5));
    [ reflexivity | discriminate ].
Defined.

(** C2 (the code departs from the claim): on the non-text input
    [{"text": 5}] both entry points let the [AttributeError] of the
    validation reach the caller; the validation stands before their [try]. *)
Theorem entry_points_raise_on_dict_text_5 :
  forall (libs : TextLibs) (self : SentimentAnalyzer.Analyzer)
         (ex : InsightExtractor.Extractor) (w : World),
    SentimentAnalyzer.analyze self dict_text_5 w
    = (Raise (AttributeError (L "'int' object has no attribute 'strip'")), w)
    /\ InsightExtractor.extract_insights ex dict_text_5 w
       = (Raise (AttributeError (L "'int' object has no attribute 'strip'")),
          w).
Proof. intros. split; reflexivity. Qed.

(** ** Rational arithmetic helpers *)

Lemma Qle_bool_true (x y : Q) : Qle_bool x y = true <-> (x <= y)%Q.
Proof. apply Qle_bool_iff. Qed.

Lemma Qle_bool_false (x y : Q) : Qle_bool x y = false <-> (y < x)%Q.
Proof.
  split; intro H.
  - apply Qnot_le_lt. intro Hle. apply Qle_bool_iff in Hle. congruence.
  - destruct (Qle_bool x y) eqn:E; [ | reflexivity ].
    apply Qle_bool_iff in E. exfalso. apply (Qlt_not_le _ _ H E).
Qed.

Lemma Qmin_eq_compat (a b c d : Q) :
  (a == b)%Q -> (c == d)%Q -> (Qmin a c == Qmin b d)%Q.
Proof.
  intros Hab Hcd.
  destruct (Q.min_spec a c) as [[H1 E1] | [H1 E1]];
    destruct (Q.min_spec b d) as [[H2 E2] | [H2 E2]];
    rewrite E1, E2; lra.
Qed.

Lemma Qmin_bounds (x lo hi : Q) :
  (lo <= x)%Q -> (lo <= hi)%Q -> (lo <= Qmin x hi <= hi)%Q.
Proof.
  intros Hx Hhi.
  destruct (Q.min_spec x hi) as [[H E] | [H E]]; rewrite E; lra.
Qed.

(** ** The label thresholds *)

(** The three cases of [label_of], by the score. *)
Lemma label_of_spec (q : Q) :
  ((5 # 100 <= q)%Q -> SentimentAnalyzer.label_of q = SentimentAnalyzer.Positive)
  /\ ((q <= - (5 # 100))%Q ->
      SentimentAnalyzer.label_of q = SentimentAnalyzer.Negative)
  /\ ((- (5 # 100) < q < 5 # 100)%Q ->
      SentimentAnalyzer.label_of q = SentimentAnalyzer.Neutral).
Proof.
  unfold SentimentAnalyzer.label_of.
  destruct (Qle_bool (5 # 100) q) eqn:Hp.
  - apply Qle_bool_true in Hp. repeat split; intros; first [ reflexivity | exfalso; lra ].
  - apply Qle_bool_false in Hp.
    destruct (Qle_bool q (- (5 # 100))) eqn:Hn.
    + apply Qle_bool_true in Hn. repeat split; intros; first [ reflexivity | exfalso; lra ].
    + apply Qle_bool_false in Hn. repeat split; intros; first [ reflexivity | exfalso; lra ].
Qed.

(** What [_analyze_sentence] returns: the label and the confidence are
    functions of the polarity it stores, and the polarity is the combined
    score of the two library scores, or 0 when a library raised. *)
Lemma analyze_sentence_shape (libs : TextLibs)
    (self : SentimentAnalyzer.Analyzer) (sentence : str) (w : World) :
  let r := fst (SentimentAnalyzer._analyze_sentence self sentence w) in
  SentimentAnalyzer.sentiment r
  = SentimentAnalyzer.label_of (SentimentAnalyzer.polarity r)
  /\ SentimentAnalyzer.confidence r = Qabs (SentimentAnalyzer.polarity r)
  /\ (SentimentAnalyzer.polarity r = 0%Q
      \/ exists v t,
           (SentimentAnalyzer.use_vader self = true ->
            exists vs, vader_polarity_scores sentence = Ok vs
                       /\ v = compound vs)
           /\ (SentimentAnalyzer.use_vader self = false -> v = 0%Q)
           /\ (SentimentAnalyzer.use_textblob self = true ->
               exists s, textblob_sentiment sentence = Ok (t, s))
           /\ (SentimentAnalyzer.use_textblob self = false -> t = 0%Q)
           /\ SentimentAnalyzer.polarity r
              = SentimentAnalyzer.combine self v t).
Proof.
  unfold SentimentAnalyzer._analyze_sentence.
  destruct (SentimentAnalyzer.use_vader self) eqn:Uv;
    [ destruct (vader_polarity_scores sentence) as [vs | e] eqn:Ev | ];
    try (cbn; repeat split; left; reflexivity);
    (destruct (SentimentAnalyzer.use_textblob self) eqn:Ut;
     [ destruct (textblob_sentiment sentence) as [[p s] | e] eqn:Et | ];
     try (cbn; repeat split; left; reflexivity)).
  - cbn. repeat split. right. exists (compound vs), p.
    repeat split; intros; try congruence; eauto.
  - cbn. repeat split. right. exists (compound vs), 0%Q.
    repeat split; intros; try congruence; eauto.
  - cbn. repeat split. right. exists 0%Q, p.
    repeat split; intros; try congruence; eauto.
  - cbn. repeat split. right. exists 0%Q, 0%Q.
    repeat split; intros; try congruence; eauto.
Qed.

(** C3: the label of every analyzed sentence follows the thresholds on its
    combined score (its stored polarity): at least 0.05 is Positive, at most
    -0.05 is Negative, strictly between is Neutral. *)
Theorem sentence_label_thresholds :
  forall (libs : TextLibs) (self : SentimentAnalyzer.Analyzer)
         (sentence : str) (w : World),
    let r := fst (SentimentAnalyzer._analyze_sentence self sentence w) in
    ((5 # 100 <= SentimentAnalyzer.polarity r)%Q ->
     SentimentAnalyzer.sentiment r = SentimentAnalyzer.Positive)
    /\ ((SentimentAnalyzer.polarity r <= - (5 # 100))%Q ->
        SentimentAnalyzer.sentiment r = SentimentAnalyzer.Negative)
    /\ ((- (5 # 100) < SentimentAnalyzer.polarity r < 5 # 100)%Q ->
        SentimentAnalyzer.sentiment r = SentimentAnalyzer.Neutral).
Proof.
  intros libs self sentence w r.
  destruct (analyze_sentence_shape libs self sentence w) as [Hl _].
  fold r in Hl. rewrite Hl. apply label_of_spec.
Qed.

(** ** Insight confidence *)

(** The accumulated confidence, in closed form. *)
Lemma calculate_insight_confidence_closed (text : str)
    (cfg : InsightExtractor.Config) :
  (InsightExtractor._calculate_insight_confidence text cfg
   == claimed_confidence (InsightExtractor.cfg_keywords cfg) text)%Q.
Proof.
  unfold InsightExtractor._calculate_insight_confidence, claimed_confidence.
  change (InsightExtractor.action_words)
    with (map L ["will"; "should"; "need"; "must"; "can"; "could"]%string).
  unfold InsightExtractor.Qnat.
  set (k := inject_Z (Z.of_nat (Py.count_in (InsightExtractor.cfg_keywords cfg) _))).
  set (a := inject_Z (Z.of_nat (Py.count_in (map L _) _))).
  set (word_count := length (Py.split_ws text)).
  rewrite Q.min_comm.
  apply Qmin_eq_compat; [ reflexivity | ].
  assert (Hk : (Qmin (k * (2 # 10)) (6 # 10) == Qmin ((2 # 10) * k) (6 # 10))%Q)
    by (apply Qmin_eq_compat; [ ring | reflexivity ]).
  assert (Ha : (Qmin (a * (1 # 10)) (2 # 10) == Qmin ((1 # 10) * a) (2 # 10))%Q)
    by (apply Qmin_eq_compat; [ ring | reflexivity ]).
  destruct (10 <? word_count); [ | destruct (5 <? word_count) ];
    rewrite Hk, Ha; ring.
Qed.

(** The keywords of each insight type are pairwise different, so the count
    [k] is a number of distinct keywords. *)
Lemma keywords_distinct (t : InsightExtractor.InsightType) :
  NoDup (InsightExtractor.cfg_keywords (InsightExtractor._initialize_patterns t)).
Proof.
  destruct t; cbv [InsightExtractor._initialize_patterns
                     InsightExtractor.cfg_keywords map];
    repeat (constructor;
            [ cbv [In L list_ascii_of_string]; intuition discriminate | ]);
    constructor.
Qed.

(** The confidence of a candidate lies in the unit interval. *)
Lemma insight_confidence_bounds (text : str) (cfg : InsightExtractor.Config) :
  (0 <= InsightExtractor._calculate_insight_confidence text cfg <= 1)%Q.
Proof.
  unfold InsightExtractor._calculate_insight_confidence.
  set (k := InsightExtractor.Qnat _).
  set (a := InsightExtractor.Qnat _).
  assert (Hk : (0 <= k)%Q).
  { unfold k, InsightExtractor.Qnat. 
    change 0%Q with (inject_Z 0). rewrite <- Zle_Qle. lia. }
  assert (Ha : (0 <= a)%Q).
  { unfold a, InsightExtractor.Qnat.
    change 0%Q with (inject_Z 0). rewrite <- Zle_Qle. lia. }
  assert (Hmk : (0 <= Qmin (k * (2 # 10)) (6 # 10))%Q)
    by (apply Q.min_glb; lra).
  assert (Hma : (0 <= Qmin (a * (1 # 10)) (2 # 10))%Q)
    by (apply Q.min_glb; lra).
  apply Qmin_bounds; [ | lra ].
  destruct (10 <? _); [ | destruct (5 <? _) ]; lra.
Qed.

(** ** Document-level aggregation *)

(** The loop of [_calculate_overall_sentiment] computes the two sums. *)
Lemma accumulate_from (rs : list SentimentAnalyzer.SentenceResult) :
  forall tw ws : Q,
    let acc := fold_left
                 (fun (acc : Q * Q) result =>
                    let weight := SentimentAnalyzer.confidence result in
                    (fst acc + weight,
                     snd acc + SentimentAnalyzer.polarity result * weight)%Q)
                 rs (tw, ws) in
    (fst acc == tw + total_confidence rs)%Q
    /\ (snd acc == ws + weighted_polarity rs)%Q.
Proof.
  induction rs as [ | r rs IH ]; intros tw ws.
  - cbn. split; ring.
  - cbn -[Qplus Qmult].
    specialize (IH (tw + SentimentAnalyzer.confidence r)%Q
                   (ws + SentimentAnalyzer.polarity r
                         * SentimentAnalyzer.confidence r)%Q).
    cbv zeta in IH. destruct IH as [IH1 IH2]. cbn [fst snd] in *.
    split.
    + rewrite IH1. unfold total_confidence. cbn [map fold_right]. ring.
    + rewrite IH2. unfold weighted_polarity. cbn [map fold_right]. ring.
Qed.

Lemma accumulate_sums (rs : list SentimentAnalyzer.SentenceResult) :
  (fst (SentimentAnalyzer.accumulate rs) == total_confidence rs)%Q
  /\ (snd (SentimentAnalyzer.accumulate rs) == weighted_polarity rs)%Q.
Proof.
  destruct (accumulate_from rs 0 0) as [H1 H2].
  unfold SentimentAnalyzer.accumulate. split.
  - rewrite H1. ring.
  - rewrite H2. ring.
Qed.

(** C5: the overall result is Neutral/0/0 when the total weight (the sum of
    the sentence confidences) is zero; otherwise the overall score is the
    confidence-weighted mean of the sentence polarities, and the overall
    confidence is the total weight over the number of sentences, capped
    at 1. *)
Theorem overall_sentiment_weighted_mean :
  forall rs : list SentimentAnalyzer.SentenceResult,
    let o := SentimentAnalyzer._calculate_overall_sentiment rs in
    ((total_confidence rs == 0)%Q ->
     o = SentimentAnalyzer.mkOverall SentimentAnalyzer.Neutral 0 0)
    /\ (~ (total_confidence rs == 0)%Q ->
        (SentimentAnalyzer.o_score o
         == weighted_polarity rs / total_confidence rs)%Q
        /\ (SentimentAnalyzer.o_confidence o
            == Qmin (total_confidence rs / inject_Z (Z.of_nat (length rs))) 1)%Q
        /\ SentimentAnalyzer.o_overall o
           = SentimentAnalyzer.label_of (SentimentAnalyzer.o_score o)).
Proof.
  intros rs o. subst o.
  destruct (accumulate_sums rs) as [Hw Hs].
  unfold SentimentAnalyzer._calculate_overall_sentiment.
  destruct rs as [ | r rs' ].
  - split; [ reflexivity | ]. intros H. exfalso. apply H. reflexivity.
  - set (rs := r :: rs') in *.
    destruct (SentimentAnalyzer.accumulate rs) as [tw ws] eqn:E.
    cbn [fst snd] in Hw, Hs.
    destruct (Qeq_bool tw 0) eqn:Ez.
    + split; [ reflexivity | ].
      intros H. exfalso. apply H. rewrite <- Hw. apply Qeq_bool_eq. exact Ez.
    + apply Qeq_bool_neq in Ez. split.
      * intros H. exfalso. apply Ez. rewrite Hw. exact H.
      * intros _. cbn [SentimentAnalyzer.o_score SentimentAnalyzer.o_confidence
                         SentimentAnalyzer.o_overall].
        split; [ | split; [ | reflexivity ] ].
        -- rewrite Hw, Hs. reflexivity.
        -- apply Qmin_eq_compat; [ | reflexivity ]. rewrite Hw. reflexivity.
Qed.

(** ** Confidence values lie in the unit interval *)

Lemma toy_libs_in_range : libs_in_range toy_libs.
Proof.
  split.
  - intros s v H. cbn in H. injection H as <-. cbn [compound].
    unfold toy_score.
    destruct (Py.contains _ _); [ lra | destruct (Py.contains _ _); lra ].
  - intros s p sub H. cbn in H. injection H as <- _.
    unfold toy_score.
    destruct (Py.contains _ _); [ lra | destruct (Py.contains _ _); lra ].
Qed.

Lemma combine_in_range (self : SentimentAnalyzer.Analyzer) (v t : Q) :
  (-1 <= v <= 1)%Q -> (-1 <= t <= 1)%Q ->
  (-1 <= SentimentAnalyzer.combine self v t <= 1)%Q.
Proof.
  intros Hv Ht. unfold SentimentAnalyzer.combine.
  destruct (SentimentAnalyzer.use_vader self && SentimentAnalyzer.use_textblob self);
    [ lra | destruct (SentimentAnalyzer.use_vader self); lra ].
Qed.

(** The confidence of an analyzed sentence is a confidence. *)
Lemma sentence_confidence_bounds (libs : TextLibs)
    (self : SentimentAnalyzer.Analyzer) (sentence : str) (w : World) :
  libs_in_range libs ->
  unit_interval
    (SentimentAnalyzer.confidence
       (fst (SentimentAnalyzer._analyze_sentence self sentence w))).
Proof.
  intros [Hv Ht].
  destruct (analyze_sentence_shape libs self sentence w) as (_ & Hc & Hp).
  cbv zeta in Hc, Hp. rewrite Hc. unfold unit_interval.
  split; [ apply Qabs_nonneg | ].
  apply Qabs_Qle_condition.
  destruct Hp as [H0 | (v & t & Hv1 & Hv0 & Ht1 & Ht0 & Hcomb)].
  - rewrite H0. lra.
  - rewrite Hcomb. apply combine_in_range.
    + destruct (SentimentAnalyzer.use_vader self).
      * destruct (Hv1 eq_refl) as (vs & E & ->). eapply Hv. exact E.
      * rewrite (Hv0 eq_refl). lra.
    + destruct (SentimentAnalyzer.use_textblob self).
      * destruct (Ht1 eq_refl) as (s & E). eapply Ht. exact E.
      * rewrite (Ht0 eq_refl). lra.
Qed.

(** A property of every result of the loop body holds for the list a
    collecting loop returns. *)
Lemma mapM_Forall {A B} (f : A -> M B) (P : B -> Prop) :
  (forall x w, P (fst (f x w))) ->
  forall l w, Forall P (fst (mapM f l w)).
Proof.
  intros Hf. induction l as [ | x l IH ]; intro w.
  - constructor.
  - cbn. unfold bind. specialize (Hf x w).
    destruct (f x w) as [y w1]. specialize (IH w1).
    destruct (mapM f l w1) as [ys w2]. cbn in *. constructor; assumption.
Qed.

Lemma total_confidence_nonneg (rs : list SentimentAnalyzer.SentenceResult) :
  Forall (fun r => unit_interval (SentimentAnalyzer.confidence r)) rs ->
  (0 <= total_confidence rs)%Q.
Proof.
  unfold total_confidence. induction 1 as [ | r rs [Hr _] _ IH ]; cbn.
  - lra.
  - lra.
Qed.

(** The overall confidence over sentences with confidences is a
    confidence. *)
Lemma overall_confidence_bounds (rs : list SentimentAnalyzer.SentenceResult) :
  Forall (fun r => unit_interval (SentimentAnalyzer.confidence r)) rs ->
  unit_interval
    (SentimentAnalyzer.o_confidence
       (SentimentAnalyzer._calculate_overall_sentiment rs)).
Proof.
  intros Hrs. pose proof (total_confidence_nonneg rs Hrs) as Hnn.
  destruct (accumulate_sums rs) as [Hw _].
  unfold SentimentAnalyzer._calculate_overall_sentiment, unit_interval.
  destruct rs as [ | r rs' ]; [ cbn; lra | ].
  set (rs := r :: rs') in *.
  destruct (SentimentAnalyzer.accumulate rs) as [tw ws].
  cbn [fst] in Hw.
  destruct (Qeq_bool tw 0); [ cbn; lra | ].
  cbn [SentimentAnalyzer.o_confidence].
  apply Qmin_bounds; [ | lra ].
  apply Qle_shift_div_l.
  - change 0%Q with (inject_Z 0). rewrite <- Zlt_Qlt.
    subst rs. cbn [length]. lia.
  - rewrite Hw. lra.
Qed.

(** What [analyze] returns when it returns: the empty result, or the
    aggregation of the analyzed sentences. *)
Lemma analyze_result (libs : TextLibs) (self : SentimentAnalyzer.Analyzer)
    (text : PyVal) (w : World) (res : SentimentAnalyzer.SentimentResult) :
  fst (SentimentAnalyzer.analyze self text w) = Ok res ->
  (exists e, res = SentimentAnalyzer._create_empty_result e)
  \/ (exists ss w1,
        SentimentAnalyzer.sentences res
        = fst (mapM (SentimentAnalyzer._analyze_sentence self) ss w1)
        /\ SentimentAnalyzer.r_confidence res
           = SentimentAnalyzer.o_confidence
               (SentimentAnalyzer._calculate_overall_sentiment
                  (SentimentAnalyzer.sentences res))
        /\ SentimentAnalyzer.score res
           = SentimentAnalyzer.o_score
               (SentimentAnalyzer._calculate_overall_sentiment
                  (SentimentAnalyzer.sentences res))
        /\ SentimentAnalyzer.overall res
           = SentimentAnalyzer.o_overall
               (SentimentAnalyzer._calculate_overall_sentiment
                  (SentimentAnalyzer.sentences res))).
Proof.
  unfold SentimentAnalyzer.analyze.
  destruct (Validators.validate_transcript text) as [v | e]; [ | discriminate ].
  destruct (negb (Validators.is_valid v)).
  - cbn. intros [= <-]. left. eexists. reflexivity.
  - destruct (SentimentAnalyzer._extract_sentences (Validators.transcript v))
      as [ss | e].
    + unfold bind.
      destruct (mapM (SentimentAnalyzer._analyze_sentence self) ss w)
        as [rs w1] eqn:E.
      cbn. intros [= <-]. right. exists ss, w. rewrite E. cbn.
      repeat split; reflexivity.
    + cbn. intros [= <-]. left. eexists. reflexivity.
Qed.

(** ** The insight pipeline *)

Lemma str_eqb_eq (a b : str) : Py.str_eqb a b = true <-> a = b.
Proof.
  revert b. induction a as [ | x a IH ]; destruct b as [ | y b ]; cbn;
    try (split; discriminate); try tauto.
  rewrite andb_true_iff, Ascii.eqb_eq, IH.
  split; [ intros [-> ->]; reflexivity | intros [= -> ->]; auto ].
Qed.

Lemma mem_In (x : str) (l : list str) : Py.mem x l = true <-> In x l.
Proof.
  unfold Py.mem. rewrite existsb_exists. split.
  - intros (y & Hy & E). apply str_eqb_eq in E. subst. exact Hy.
  - intros H. exists x. split; [ exact H | apply str_eqb_eq; reflexivity ].
Qed.

Lemma set_add_In (x y : str) (s : list str) :
  In x (Py.set_add y s) <-> x = y \/ In x s.
Proof.
  unfold Py.set_add. destruct (Py.mem y s) eqn:E.
  - apply mem_In in E. split; [ auto | intros [-> | H]; assumption ].
  - rewrite in_app_iff. cbn. intuition.
Qed.

Lemma insert_by_confidence_perm (x : InsightExtractor.Insight)
    (l : list InsightExtractor.Insight) :
  Permutation (InsightExtractor.insert_by_confidence x l) (x :: l).
Proof.
  induction l as [ | y l IH ]; cbn.
  - reflexivity.
  - destruct (Qle_bool _ _); [ reflexivity | ].
    rewrite IH. apply perm_swap.
Qed.

(** Sorting by confidence rearranges the insights and nothing more. *)
Lemma sort_by_confidence_perm (l : list InsightExtractor.Insight) :
  Permutation (InsightExtractor.sort_by_confidence l) l.
Proof.
  induction l as [ | x l IH ]; cbn.
  - reflexivity.
  - rewrite insert_by_confidence_perm. constructor. exact IH.
Qed.

(** The deduplication keeps insights of its input, none of which has a
    lower-cased text that was seen before. *)
Lemma dedup_from_In (l : list InsightExtractor.Insight) :
  forall seen i,
    In i (InsightExtractor.dedup_from seen l) ->
    In i l /\ ~ In (lowered_text i) seen.
Proof.
  induction l as [ | x l IH ]; intros seen i; cbn.
  - tauto.
  - destruct (Py.mem (Py.lower (InsightExtractor.text x)) seen) eqn:E; cbn.
    + intros H. destruct (IH _ _ H). tauto.
    + intros [<- | H].
      * split; [ auto | ]. intro Hin. apply mem_In in Hin.
        unfold lowered_text in Hin. congruence.
      * destruct (IH _ _ H) as [Hl Hs]. split; [ auto | ].
        intro Hin. apply Hs. apply set_add_In. auto.
Qed.

Lemma dedup_from_NoDup (l : list InsightExtractor.Insight) :
  forall seen, NoDup (map lowered_text (InsightExtractor.dedup_from seen l)).
Proof.
  induction l as [ | x l IH ]; intro seen; cbn.
  - constructor.
  - destruct (Py.mem (Py.lower (InsightExtractor.text x)) seen) eqn:E; cbn.
    + apply IH.
    + constructor; [ | apply IH ].
      intro Hin. apply in_map_iff in Hin. destruct Hin as (j & Ej & Hj).
      apply dedup_from_In in Hj. destruct Hj as [_ Hs].
      apply Hs. apply set_add_In. left. exact Ej.
Qed.

(** The deduplication, one candidate at a time: the next candidate is
    dropped exactly when its lower-cased text is the lower-cased text of a
    candidate already kept. *)
Lemma dedup_from_snoc (l : list InsightExtractor.Insight) :
  forall seen i,
    InsightExtractor.dedup_from seen (l ++ [i])
    = InsightExtractor.dedup_from seen l
      ++ (if Py.mem (lowered_text i)
               (seen ++ map lowered_text (InsightExtractor.dedup_from seen l))
          then [] else [i]).
Proof.
  induction l as [ | x l IH ]; intros seen i; cbn.
  - rewrite app_nil_r. fold (lowered_text i).
    destruct (Py.mem (lowered_text i) seen); reflexivity.
  - fold (lowered_text x).
    destruct (Py.mem (lowered_text x) seen) eqn:E; cbn.
    + apply IH.
    + rewrite IH. do 2 f_equal.
      match goal with
      | |- (if ?a then _ else _) = (if ?b then _ else _) =>
          assert (Hm : a = b)
      end.
      { apply eq_true_iff_eq.
        rewrite !mem_In, !in_app_iff, set_add_In. cbn. intuition. }
      rewrite Hm. reflexivity.
Qed.

Lemma deduplicate_snoc (l : list InsightExtractor.Insight)
    (i : InsightExtractor.Insight) :
  InsightExtractor._deduplicate_insights (l ++ [i])
  = InsightExtractor._deduplicate_insights l
    ++ (if Py.mem (lowered_text i)
             (map lowered_text (InsightExtractor._deduplicate_insights l))
        then [] else [i]).
Proof. apply (dedup_from_snoc l [] i). Qed.

(** The insights of one type: no two agree in lower-cased text. *)
Lemma insights_by_type_NoDup (self : InsightExtractor.Extractor) (text : str)
    (t : InsightExtractor.InsightType) :
  NoDup (map Py.lower
           (InsightExtractor.texts
              (InsightExtractor._extract_insights_by_type self text t))).
Proof.
  unfold InsightExtractor._extract_insights_by_type, InsightExtractor.texts.
  rewrite map_map. fold lowered_text.
  eapply Permutation_NoDup.
  - apply Permutation_map. symmetry. apply sort_by_confidence_perm.
  - apply dedup_from_NoDup.
Qed.

(** Every insight of one type was created from a valid candidate by
    [_create_insight]. *)
Lemma insights_by_type_created (self : InsightExtractor.Extractor)
    (text : str) (t : InsightExtractor.InsightType)
    (i : InsightExtractor.Insight) :
  In i (InsightExtractor._extract_insights_by_type self text t) ->
  exists candidate,
    InsightExtractor._is_valid_insight self candidate = true
    /\ i = InsightExtractor._create_insight candidate t
             (InsightExtractor.self_patterns self t) text.
Proof.
  unfold InsightExtractor._extract_insights_by_type. intro H.
  apply (Permutation_in _ (sort_by_confidence_perm _)) in H.
  apply dedup_from_In in H. destruct H as [H _].
  apply in_flat_map in H. destruct H as (pattern & _ & H).
  apply in_flat_map in H. destruct H as (m & _ & H).
  destruct (InsightExtractor._is_valid_insight self _) eqn:E; cbn in H.
  - destruct H as [<- | []]. eexists. split; [ exact E | reflexivity ].
  - destruct H.
Qed.

(** What [extract_insights] returns when it returns: an empty report that
    carries an error. *)
Lemma extract_insights_result (ex : InsightExtractor.Extractor)
    (text : PyVal) (w : World) (rep : InsightExtractor.Report) :
  fst (InsightExtractor.extract_insights ex text w) = Ok rep ->
  exists e, rep = InsightExtractor._create_empty_result e.
Proof.
  unfold InsightExtractor.extract_insights.
  destruct (Validators.validate_transcript text) as [v | e]; [ | discriminate ].
  destruct (negb (Validators.is_valid v)).
  - unfold bind, logger, ret. cbn [fst]. intros [= <-]. eexists. reflexivity.
  - unfold InsightExtractor.all_types.
    cbn [map emap InsightExtractor.key_value].
    unfold bind, logger, ret. cbn [fst]. intros [= <-]. eexists. reflexivity.
Qed.

(** C8: within each type, the insights that [_extract_insights_by_type]
    returns never hold two texts that are equal up to case; the
    deduplication drops a candidate exactly when its lower-cased text equals
    the lower-cased text of a candidate already kept; and the same holds of
    the six lists of every report of [extract_insights]. *)
Theorem extracted_insights_case_distinct :
  forall (ex : InsightExtractor.Extractor) (text : str)
         (t : InsightExtractor.InsightType),
    NoDup (map Py.lower
             (InsightExtractor.texts
                (InsightExtractor._extract_insights_by_type ex text t)))
    /\ (forall candidates candidate,
           InsightExtractor._deduplicate_insights (candidates ++ [candidate])
           = InsightExtractor._deduplicate_insights candidates
             ++ (if Py.mem (lowered_text candidate)
                      (map lowered_text
                         (InsightExtractor._deduplicate_insights candidates))
                 then [] else [candidate]))
    /\ (forall (input : PyVal) (w : World) (rep : InsightExtractor.Report),
           fst (InsightExtractor.extract_insights ex input w) = Ok rep ->
           Forall (fun texts => NoDup (map Py.lower texts))
             [ InsightExtractor.problems rep; InsightExtractor.solutions rep;
               InsightExtractor.action_items rep;
               InsightExtractor.opportunities rep; InsightExtractor.risks rep;
               InsightExtractor.decisions rep ]).
Proof.
  intros ex text t. split; [ apply insights_by_type_NoDup | ].
  split; [ apply deduplicate_snoc | ].
  intros input w rep H.
  destruct (extract_insights_result ex input w rep H) as [e ->].
  cbn. repeat constructor.
Qed.

(** The second sentence repeats the first in capitals: of the three problem
    candidates, one insight is kept for the first two. *)
Lemma extracted_insights_case_distinct_witness :
  InsightExtractor.texts
    (InsightExtractor._extract_insights_by_type InsightExtractor.__init__
       (L "The problem is very serious. THE PROBLEM IS VERY SERIOUS. Another issue is here now.")
       InsightExtractor.PROBLEM)
  = [L "problem is very serious."; L "issue is here now."]
  /\ NoDup (map Py.lower
              (InsightExtractor.texts
                 (InsightExtractor._extract_insights_by_type
                    InsightExtractor.__init__
                    (L "The problem is very serious. THE PROBLEM IS VERY SERIOUS. Another issue is here now.")
                    InsightExtractor.PROBLEM))).
Proof.
  split; [ vm_compute; reflexivity | ].
  apply (extracted_insights_case_distinct InsightExtractor.__init__
           (L "The problem is very serious. THE PROBLEM IS VERY SERIOUS. Another issue is here now.")
           InsightExtractor.PROBLEM).
Defined.

(** C6: the confidence of an insight is
    [min(1, min(0.2 k, 0.6) + w + min(0.1 a, 0.2))] of its text
    ([claimed_confidence]): for the insight created from any candidate text,
    and so for every insight of the extraction, whose text is a valid
    candidate. *)
Theorem insight_confidence_formula :
  forall (self : InsightExtractor.Extractor) (text : str)
         (t : InsightExtractor.InsightType),
    (forall candidate cfg context,
        (InsightExtractor.confidence
           (InsightExtractor._create_insight candidate t cfg context)
         == claimed_confidence (InsightExtractor.cfg_keywords cfg) candidate)%Q)
    /\ (forall i,
           In i (InsightExtractor._extract_insights_by_type self text t) ->
           InsightExtractor._is_valid_insight self (InsightExtractor.text i)
           = true
           /\ (InsightExtractor.confidence i
               == claimed_confidence
                    (InsightExtractor.cfg_keywords
                       (InsightExtractor.self_patterns self t))
                    (InsightExtractor.text i))%Q).
Proof.
  intros self text t. split.
  - intros candidate cfg context. apply calculate_insight_confidence_closed.
  - intros i Hi. apply insights_by_type_created in Hi.
    destruct Hi as (c & Hvalid & ->). split; [ exact Hvalid | ].
    apply calculate_insight_confidence_closed.
Qed.

(** The two problems of ["We have a major problem with the system. The
    issue is causing delays."]: one keyword each, four words, no action
    word, so confidence 0.2. *)
Lemma insight_confidence_formula_witness :
  let found :=
    InsightExtractor._extract_insights_by_type InsightExtractor.__init__
      (L "We have a major problem with the system. The issue is causing delays.")
      InsightExtractor.PROBLEM in
  map InsightExtractor.text found
  = [L "problem with the system."; L "issue is causing delays."]
  /\ Forall (fun i => (InsightExtractor.confidence i == 2 # 10)%Q) found
  /\ Forall (fun i =>
               (InsightExtractor.confidence i
                == claimed_confidence
                     (InsightExtractor.cfg_keywords
                        (InsightExtractor._initialize_patterns
                           InsightExtractor.PROBLEM))
                     (InsightExtractor.text i))%Q) found.
Proof.
  cbv zeta. split; [ vm_compute; reflexivity | ].
  split; [ vm_compute; repeat constructor | ].
  apply Forall_forall. intros i Hi.
  apply (insight_confidence_formula InsightExtractor.__init__
           (L "We have a major problem with the system. The issue is causing delays.")
           InsightExtractor.PROBLEM).
  exact Hi.
Defined.

(** C7: provided the library scores lie in their documented ranges, every
    confidence the pipeline produces lies in [0,1]: the overall sentiment
    confidence, the confidence of every analyzed sentence, and the confidence
    of every insight that the extraction creates for a type. *)
Theorem confidences_in_unit_interval :
  forall libs : TextLibs,
    libs_in_range libs ->
    forall (self : SentimentAnalyzer.Analyzer)
           (ex : InsightExtractor.Extractor) (input : PyVal) (w : World)
           (text : str) (t : InsightExtractor.InsightType),
      (forall res,
          fst (SentimentAnalyzer.analyze self input w) = Ok res ->
          unit_interval (SentimentAnalyzer.r_confidence res)
          /\ Forall (fun s => unit_interval (SentimentAnalyzer.confidence s))
                    (SentimentAnalyzer.sentences res))
      /\ Forall (fun i => unit_interval (InsightExtractor.confidence i))
                (InsightExtractor._extract_insights_by_type ex text t).
Proof.
  intros libs Hlibs self ex input w text t. split.
  - intros res H.
    destruct (analyze_result libs self input w res H)
      as [[e ->] | (ss & w1 & Hs & Hc & _)].
    + cbn. split; [ unfold unit_interval; lra | constructor ].
    + assert (Hall : Forall (fun s => unit_interval (SentimentAnalyzer.confidence s))
                            (SentimentAnalyzer.sentences res)).
      { rewrite Hs. apply mapM_Forall. intros x w'.
        apply sentence_confidence_bounds. exact Hlibs. }
      split; [ | exact Hall ].
      rewrite Hc. apply overall_confidence_bounds. exact Hall.
  - apply Forall_forall. intros i Hi. apply insights_by_type_created in Hi.
    destruct Hi as (c & _ & ->). cbn. apply insight_confidence_bounds.
Qed.

(** Two sentences of scores 0.5 and -0.5, and the two problems of the text
    of scenario 3. *)
Lemma confidences_in_unit_interval_witness :
  libs_in_range toy_libs
  /\ (exists res,
        fst (SentimentAnalyzer.analyze (libs := toy_libs)
               (SentimentAnalyzer.__init__ true true)
               (PStr (L "This is a great solution! The delay was terrible."))
               world0) = Ok res
        /\ (SentimentAnalyzer.r_confidence res == 1 # 2)%Q
        /\ unit_interval (SentimentAnalyzer.r_confidence res)
        /\ Forall (fun s => unit_interval (SentimentAnalyzer.confidence s))
                  (SentimentAnalyzer.sentences res))
  /\ length (InsightExtractor._extract_insights_by_type
               InsightExtractor.__init__
               (L "We have a major problem with the system. The issue is causing delays.")
               InsightExtractor.PROBLEM) = 2
  /\ Forall (fun i => unit_interval (InsightExtractor.confidence i))
            (InsightExtractor._extract_insights_by_type
               InsightExtractor.__init__
               (L "We have a major problem with the system. The issue is causing delays.")
               InsightExtractor.PROBLEM).
Proof.
  pose proof (confidences_in_unit_interval toy_libs toy_libs_in_range
                (SentimentAnalyzer.__init__ true true)
                InsightExtractor.__init__
                (PStr (L "This is a great solution! The delay was terrible."))
                world0
                (L "We have a major problem with the system. The issue is causing delays.")
                InsightExtractor.PROBLEM) as [Ha Hi].
  split; [ exact toy_libs_in_range | ].
  split; [ | split; [ vm_compute; reflexivity | exact Hi ] ].
  eexists. split; [ vm_compute; reflexivity | ].
  split; [ vm_compute; reflexivity | ].
  apply Ha. vm_compute; reflexivity.
Defined.

(** ** Sentence extraction of the normalizer *)

Lemma take_drop_run (p : ascii -> bool) (s : str) :
  take_run p s ++ drop_run p s = s.
Proof.
  induction s as [ | c t IH ]; cbn; [ reflexivity | ].
  destruct (p c); cbn; [ rewrite IH | ]; reflexivity.
Qed.

Lemma drop_run_length (p : ascii -> bool) (s : str) :
  length s = length (take_run p s) + length (drop_run p s).
Proof. rewrite <- length_app, take_drop_run. reflexivity. Qed.

(** A greedy repetition of a character class consumes the longest run of
    the class. *)
Lemma greedy_class (p : ascii -> bool)
    (body : Re.mstate -> (Re.mstate -> option Re.mstate) -> option Re.mstate) :
  (forall fl st k, body st k = Re.run fl (Re.Class p) st k) ->
  forall n st,
    length (Re.todo st) <= n ->
    Re.greedy body Some n st
    = Some (Re.mkState (rev (take_run p (Re.todo st)) ++ Re.seen st)
                       (drop_run p (Re.todo st)) (Re.caps st)).
Proof.
  intro Hbody.
  induction n as [ | n IH ]; intros [sn td cp] Hn; cbn in Hn.
  - destruct td; [ reflexivity | cbn in Hn; lia ].
  - cbn [Re.greedy]. rewrite (Hbody Re.no_flags). cbn.
    destruct td as [ | x t ]; [ reflexivity | ].
    destruct (p x) eqn:Px; cbn; rewrite ?Px; [ | reflexivity ].
    rewrite Nat.leb_refl, IH by (cbn in *; lia). cbn.
    rewrite <- app_assoc. reflexivity.
Qed.

(** One match attempt of [[c]+] for a character class [c]. *)
Lemma match_at_plus_class (fl : Re.flags) (p : ascii -> bool)
    (before ahead : str) :
  Re.match_at fl (Re.Plus (Re.Class p)) before ahead
  = match ahead with
    | c :: rest =>
        if p c
        then Some (Re.mkState (rev (take_run p rest) ++ c :: before)
                              (drop_run p rest) [])
        else None
    | [] => None
    end.
Proof.
  unfold Re.match_at, Re.Plus. cbn.
  destruct ahead as [ | c rest ]; [ reflexivity | ].
  destruct (p c); [ | reflexivity ].
  rewrite (greedy_class p) by (intros; cbn; solve [ reflexivity | lia ]).
  reflexivity.
Qed.

(** Skipping the characters of a match moves the scan past them. *)
Lemma tokens_skip (fl : Re.flags) (r : Re.regex) (xs : str) :
  forall before ys,
    Re.tokens fl r before (xs ++ ys) (length xs)
    = Re.tokens fl r (rev xs ++ before) ys 0.
Proof.
  induction xs as [ | x xs IH ]; intros before ys.
  - cbn. destruct ys; reflexivity.
  - cbn. rewrite IH, <- app_assoc. reflexivity.
Qed.

Lemma fragments_after_run (s : str) :
  fragments_from [] true s = fragments_from [] false (drop_run is_terminator s).
Proof.
  induction s as [ | c t IH ]; cbn [fragments_from drop_run];
    [ reflexivity | ].
  destruct (is_terminator c) eqn:E; [ exact IH | ].
  cbn [fragments_from]. rewrite E. reflexivity.
Qed.

(** [re.split] on [[.!?]+] cuts the text at the runs of terminators. *)
Lemma re_split_sentence_end_from (fl : Re.flags) :
  forall n ahead,
    length ahead <= n ->
    forall before cur,
      Re.pieces cur (Re.tokens fl Validators.SENTENCE_END before ahead 0)
      = fragments_from cur false ahead.
Proof.
  unfold Validators.SENTENCE_END, Re.one_of. fold is_terminator.
  induction n as [ | n IH ]; intros ahead Hn before cur.
  - destruct ahead; [ | cbn in Hn; lia ]. reflexivity.
  - destruct ahead as [ | c rest ]; [ reflexivity | ].
    cbn [Re.tokens]. rewrite match_at_plus_class.
    cbn [fragments_from]. cbn in Hn.
    destruct (is_terminator c) eqn:E.
    + cbn [Re.todo Re.caps].
      replace (length (c :: rest) - length (drop_run is_terminator rest))
        with (S (length (take_run is_terminator rest)))
        by (cbn [length]; pose proof (drop_run_length is_terminator rest);
            lia).
      cbn [Re.pieces]. f_equal.
      rewrite <- (take_drop_run is_terminator rest) at 1.
      rewrite tokens_skip, fragments_after_run.
      apply IH. pose proof (drop_run_length is_terminator rest). lia.
    + cbn [Re.pieces]. apply IH. lia.
Qed.

Lemma re_split_sentence_end (fl : Re.flags) (s : str) :
  Re.re_split fl Validators.SENTENCE_END s = fragments s.
Proof.
  unfold Re.re_split, Re.scan, fragments.
  apply (re_split_sentence_end_from fl (length s)). lia.
Qed.

(** C4, as the code has it: the sentences are the trimmed fragments between
    runs of terminators that are longer than 10 characters, in scan order; a
    trimmed fragment is kept exactly when it has at least 11 characters. *)
Theorem extract_sentences_longer_than_10 :
  forall text : str,
    TranscriptProcessor._extract_sentences text
    = filter (fun f => 11 <=? length f) (map Py.strip (fragments text))
    /\ forall f,
         In f (TranscriptProcessor._extract_sentences text)
         <-> In f (map Py.strip (fragments text)) /\ 11 <= length f.
Proof.
  intro text.
  assert (E : TranscriptProcessor._extract_sentences text
              = filter (fun f => 11 <=? length f)
                       (map Py.strip (fragments text))).
  { unfold TranscriptProcessor._extract_sentences.
    rewrite re_split_sentence_end. reflexivity. }
  split; [ exact E | ].
  intro f. rewrite E, filter_In, Nat.leb_le. reflexivity.
Qed.

(** C4, as the claim states it, fails: in ["It is done. This is a longer
    sentence."] the trimmed fragment ["It is done"] has 10 characters, and
    the sentence list does not hold it. *)
Lemma extract_sentences_drops_length_10 :
  let text := L "It is done. This is a longer sentence." in
  In (L "It is done") (map Py.strip (fragments text))
  /\ 10 <= length (L "It is done")
  /\ ~ In (L "It is done") (TranscriptProcessor._extract_sentences text)
  /\ TranscriptProcessor._extract_sentences text
     = [L "This is a longer sentence"].
Proof.
  cbv zeta. split; [ vm_compute; auto | ].
  split; [ vm_compute; lia | ].
  assert (E : TranscriptProcessor._extract_sentences
                (L "It is done. This is a longer sentence.")
              = [L "This is a longer sentence"])
    by (vm_compute; reflexivity).
  split; [ | exact E ].
  rewrite E. intros [H | []]. discriminate H.
Qed.

(** ** Validation *)

Lemma lstrip_nil (s : str) :
  Py.lstrip s = [] <-> forallb Py.isspace s = true.
Proof.
  induction s as [ | c t IH ]; cbn [Py.lstrip forallb]; [ tauto | ].
  destruct (Py.isspace c); cbn [andb]; [ exact IH | ].
  split; discriminate.
Qed.

Lemma forallb_rev {A} (p : A -> bool) (l : list A) :
  forallb p (rev l) = forallb p l.
Proof.
  induction l as [ | x l IH ]; cbn; [ reflexivity | ].
  rewrite forallb_app, IH. cbn. rewrite andb_true_r. apply andb_comm.
Qed.

Lemma lstrip_head (s : str) :
  match Py.lstrip s with
  | [] => True
  | c :: _ => Py.isspace c = false
  end.
Proof.
  induction s as [ | c t IH ]; cbn [Py.lstrip]; [ exact I | ].
  destruct (Py.isspace c) eqn:E; [ exact IH | exact E ].
Qed.

(** [s.strip()] is empty exactly for a string of whitespace. *)
Lemma strip_nil (s : str) :
  Py.strip s = [] <-> forallb Py.isspace s = true.
Proof.
  unfold Py.strip, Py.rstrip. split.
  - intro H. apply (f_equal (@rev _)) in H. rewrite rev_involutive in H.
    cbn in H. apply lstrip_nil in H. rewrite forallb_rev in H.
    pose proof (lstrip_head s) as Hh.
    destruct (Py.lstrip s) as [ | c t ] eqn:E.
    + apply lstrip_nil. exact E.
    + cbn in H. rewrite Hh in H. discriminate.
  - intro H. apply lstrip_nil in H. rewrite H. reflexivity.
Qed.

Lemma existsb_lstrip (p : ascii -> bool) (s : str) :
  (forall c, Py.isspace c = true -> p c = false) ->
  existsb p (Py.lstrip s) = existsb p s.
Proof.
  intro Hp. induction s as [ | c t IH ]; cbn [Py.lstrip]; [ reflexivity | ].
  destruct (Py.isspace c) eqn:E; [ | reflexivity ].
  cbn [existsb]. rewrite (Hp c E). exact IH.
Qed.

Lemma existsb_rev {A} (p : A -> bool) (l : list A) :
  existsb p (rev l) = existsb p l.
Proof.
  induction l as [ | x l IH ]; cbn; [ reflexivity | ].
  rewrite existsb_app, IH. cbn. rewrite orb_false_r. apply orb_comm.
Qed.

(** Stripping removes no character outside the whitespace class. *)
Lemma existsb_strip (p : ascii -> bool) (s : str) :
  (forall c, Py.isspace c = true -> p c = false) ->
  existsb p (Py.strip s) = existsb p s.
Proof.
  intro Hp. unfold Py.strip, Py.rstrip.
  rewrite existsb_rev, existsb_lstrip, existsb_rev, existsb_lstrip by exact Hp.
  reflexivity.
Qed.

Lemma space_not_letter (c : ascii) :
  Py.isspace c = true -> Py.is_azAZ c = false.
Proof.
  destruct c as [[ | ] [ | ] [ | ] [ | ] [ | ] [ | ] [ | ] [ | ]];
    vm_compute; congruence.
Qed.

(** [re.search] for one character of a class finds it exactly when the text
    holds one. *)
Lemma re_search_class (fl : Re.flags) (p : ascii -> bool) (s : str) :
  Re.re_search fl (Re.Class p) s = existsb p s.
Proof.
  unfold Re.re_search, Re.scan. generalize (@nil ascii) as pre.
  induction s as [ | c t IH ]; intro pre; [ reflexivity | ].
  cbn [Re.tokens]. unfold Re.match_at. cbn [Re.run Re.todo Re.seen Re.caps].
  destruct (p c) eqn:E.
  - cbn [Re.todo]. replace (length (c :: t) - length t) with 1
      by (cbn [length]; lia).
    cbn [existsb]. rewrite E. reflexivity.
  - cbn [existsb]. rewrite E. cbn [orb]. apply IH.
Qed.

(** The validation of a string. *)
Lemma validate_string_rejects (s : str) :
  (forallb Py.isspace s = true ->
   Validators.is_valid (Validators.validate_string s) = false
   /\ Validators.error (Validators.validate_string s)
      = Some (L "Transcript is empty"))
  /\ (forallb Py.isspace s = false -> existsb Py.is_azAZ s = false ->
      Validators.is_valid (Validators.validate_string s) = false
      /\ Validators.error (Validators.validate_string s)
         = Some (L "Transcript contains no alphabetic characters"))
  /\ (existsb Py.is_azAZ s = true ->
      Validators.is_valid (Validators.validate_string s) = true
      /\ Validators.transcript (Validators.validate_string s) = Py.strip s).
Proof.
  unfold Validators.validate_string.
  pose proof (strip_nil s) as Hnil.
  pose proof (existsb_strip Py.is_azAZ s space_not_letter) as Hex.
  unfold Validators.ALPHA. rewrite re_search_class, Hex.
  destruct (Py.strip s) as [ | c t ] eqn:Es.
  - assert (Hsp : forallb Py.isspace s = true) by (apply Hnil; reflexivity).
    cbn in Hex.
    repeat split; intros; try reflexivity; congruence.
  - assert (Hsp : forallb Py.isspace s = false).
    { destruct (forallb Py.isspace s); [ | reflexivity ].
      destruct Hnil as [_ Hn]. discriminate (Hn eq_refl). }
    destruct (existsb Py.is_azAZ s) eqn:Ea; cbn [negb];
      repeat split; intros; try reflexivity; try congruence.
Qed.

(** Every invalid input is rejected by the validation, with its error
    description. *)
Lemma validate_transcript_rejects (text : PyVal) (err : str) :
  invalid_input text err ->
  exists v,
    Validators.validate_transcript text = Ok v
    /\ Validators.is_valid v = false
    /\ Validators.error v = Some err.
Proof.
  intros [ | v Hnone Hstr Hdict | s Hs | s Hs Ha ].
  - eexists. repeat split.
  - destruct v; try (eexists; repeat split; fail).
    + congruence.
    + exfalso. eapply Hstr. reflexivity.
    + unfold Validators.validate_transcript. rewrite (Hdict d eq_refl).
      eexists. repeat split.
  - destruct (validate_string_rejects s) as (H & _ & _).
    destruct (H Hs). eexists. cbn. repeat split; assumption.
  - destruct (validate_string_rejects s) as (_ & H & _).
    destruct (H Hs Ha). eexists. cbn. repeat split; assumption.
Qed.

(** On every invalid input, [analyze] and [extract_insights] return the
    empty result that carries the error description: overall Neutral, score
    0, confidence 0, no sentences; six empty lists and no insights. *)
Theorem invalid_input_empty_results :
  forall (libs : TextLibs) (self : SentimentAnalyzer.Analyzer)
         (ex : InsightExtractor.Extractor) (text : PyVal) (err : str)
         (w : World),
    invalid_input text err ->
    fst (SentimentAnalyzer.analyze self text w)
    = Ok (SentimentAnalyzer.mkResult SentimentAnalyzer.Neutral 0 0 []
            (SentimentAnalyzer.SummaryError err))
    /\ fst (InsightExtractor.extract_insights ex text w)
       = Ok (InsightExtractor.mkReport [] [] [] [] [] []
               (InsightExtractor.mkMetadata 0 [] 0 [] (Some err)) []).
Proof.
  intros libs self ex text err w H.
  destruct (validate_transcript_rejects text err H) as (v & Ev & Hv & He).
  unfold SentimentAnalyzer.analyze, InsightExtractor.extract_insights.
  rewrite Ev, Hv, He. split; reflexivity.
Qed.

Lemma invalid_input_empty_results_witness :
  invalid_input (PInt 123)
    (L "Transcript must be a string, received int")
  /\ fst (SentimentAnalyzer.analyze (libs := toy_libs)
            (SentimentAnalyzer.__init__ true true) (PInt 123) world0)
     = Ok (SentimentAnalyzer.mkResult SentimentAnalyzer.Neutral 0 0 []
             (SentimentAnalyzer.SummaryError
                (L "Transcript must be a string, received int"))).
Proof.
  assert (H : invalid_input (PInt 123)
                (L "Transcript must be a string, received int")).
  { apply (invalid_type (PInt 123)); intros; discriminate. }
  split; [ exact H | ].
  apply (invalid_input_empty_results toy_libs
           (SentimentAnalyzer.__init__ true true) InsightExtractor.__init__
           (PInt 123) (L "Transcript must be a string, received int")
           world0 H).
Defined.

(** A dict with a string under ["text"] is validated as that string. *)
Theorem validate_transcript_dict_text :
  forall (d : list (str * PyVal)) (s : str),
    dict_get (L "text") d = Some (PStr s) ->
    Validators.validate_transcript (PDict d)
    = Validators.validate_transcript (PStr s).
Proof.
  intros d s H. unfold Validators.validate_transcript. rewrite H.
  reflexivity.
Qed.

Lemma validate_transcript_dict_text_witness :
  dict_get (L "text") [(L "id", PInt 7); (L "text", PStr (L "Hello there."))]
  = Some (PStr (L "Hello there."))
  /\ Validators.validate_transcript
       (PDict [(L "id", PInt 7); (L "text", PStr (L "Hello there."))])
     = Validators.validate_transcript (PStr (L "Hello there.")).
Proof.
  split; [ reflexivity | ].
  apply (validate_transcript_dict_text
           [(L "id", PInt 7); (L "text", PStr (L "Hello there."))]
           (L "Hello there.")).
  reflexivity.
Defined.

(** ** The theorems at concrete inputs *)

(** With VADER alone, the combined score is the compound score itself: a
    compound score of exactly 0.05 makes the sentence Positive, one of
    exactly -0.05 makes it Negative. *)
Lemma sentence_label_thresholds_witness :
  let analyzed q :=
    fst (SentimentAnalyzer._analyze_sentence (libs := const_libs q)
           (SentimentAnalyzer.__init__ true false)
           (L "The meeting starts at noon") world0) in
  (SentimentAnalyzer.polarity (analyzed (5 # 100)%Q) = (5 # 100)%Q
   /\ SentimentAnalyzer.sentiment (analyzed (5 # 100)%Q)
      = SentimentAnalyzer.Positive)
  /\ (SentimentAnalyzer.polarity (analyzed (- (5 # 100))%Q) = (- (5 # 100))%Q
      /\ SentimentAnalyzer.sentiment (analyzed (- (5 # 100))%Q)
         = SentimentAnalyzer.Negative).
Proof.
  cbv zeta. split; (split; [ reflexivity | ]).
  - apply (sentence_label_thresholds (const_libs (5 # 100))
             (SentimentAnalyzer.__init__ true false)
             (L "The meeting starts at noon") world0).
    apply Qle_bool_iff. vm_compute. reflexivity.
  - apply (sentence_label_thresholds (const_libs (- (5 # 100)))
             (SentimentAnalyzer.__init__ true false)
             (L "The meeting starts at noon") world0).
    apply Qle_bool_iff. vm_compute. reflexivity.
Defined.

(** Two sentences, of polarity 0.5 with confidence 0.5 and of polarity -0.2
    with confidence 0.2: the overall score is 0.3 and the overall confidence
    0.35. *)
Lemma overall_sentiment_weighted_mean_witness :
  let sentence p c :=
    SentimentAnalyzer.mkSentence [] (SentimentAnalyzer.label_of p) p c [] []
      false None None None in
  let rs := [sentence (1 # 2)%Q (1 # 2)%Q; sentence (- (1 # 5))%Q (1 # 5)%Q] in
  let o := SentimentAnalyzer._calculate_overall_sentiment rs in
  (SentimentAnalyzer.o_score o == 3 # 10)%Q
  /\ (SentimentAnalyzer.o_confidence o == 35 # 100)%Q
  /\ (SentimentAnalyzer.o_score o
      == weighted_polarity rs / total_confidence rs)%Q.
Proof.
  cbv zeta. split; [ vm_compute; reflexivity | ].
  split; [ vm_compute; reflexivity | ].
  apply (overall_sentiment_weighted_mean
           [ SentimentAnalyzer.mkSentence []
               (SentimentAnalyzer.label_of (1 # 2)) (1 # 2) (1 # 2) [] []
               false None None None;
             SentimentAnalyzer.mkSentence []
               (SentimentAnalyzer.label_of (- (1 # 5))) (- (1 # 5)) (1 # 5)
               [] [] false None None None ]).
  vm_compute. discriminate.
Defined.

(** ** Occurrence of a word in a text *)

Lemma startswith_prefix (p s : str) :
  Py.startswith p s = true <-> exists post, s = p ++ post.
Proof.
  revert s. induction p as [ | x p IH ]; intro s; cbn.
  - split; [ intros _; exists s; reflexivity | reflexivity ].
  - destruct s as [ | y s ].
    + split; [ discriminate | intros [post H]; discriminate H ].
    + rewrite andb_true_iff, Ascii.eqb_eq, IH. split.
      * intros [-> [post ->]]. exists post. reflexivity.
      * intros [post [= -> ->]]. split; [ reflexivity | ].
        exists post. reflexivity.
Qed.

(** [needle in hay] holds exactly when [needle] occurs in [hay] as a
    contiguous part. *)
Lemma contains_infix (needle hay : str) :
  Py.contains needle hay = true
  <-> exists pre post, hay = pre ++ needle ++ post.
Proof.
  induction hay as [ | c t IH ]; cbn [Py.contains].
  - rewrite orb_false_r, startswith_prefix. split.
    + intros [post H]. exists [], post. exact H.
    + intros (pre & post & H). destruct pre as [ | x pre ].
      * exists post. exact H.
      * discriminate H.
  - rewrite orb_true_iff, startswith_prefix, IH. split.
    + intros [[post H] | (pre & post & H)].
      * exists [], post. exact H.
      * exists (c :: pre), post. cbn. rewrite H. reflexivity.
    + intros (pre & post & H). destruct pre as [ | x pre ].
      * left. exists post. exact H.
      * right. cbn in H. injection H as _ H. exists pre, post. exact H.
Qed.

(** ** The repository's tests, run on the model *)

(** [test_sentence_extraction] *)
Example test_sentence_extraction :
  TranscriptProcessor._extract_sentences
    (TranscriptProcessor._clean_text
       (L "This is sentence one. This is sentence two! This is sentence three?"))
  = [L "This is sentence one"; L "This is sentence two";
     L "This is sentence three"].
Proof. vm_compute. reflexivity. Qed.

(** [test_short_sentence_filtering] (scenario 5) *)
Example test_short_sentence_filtering :
  TranscriptProcessor._extract_sentences
    (TranscriptProcessor._clean_text
       (L "Hi. This is a longer sentence. OK. Another long sentence here."))
  = [L "This is a longer sentence"; L "Another long sentence here"].
Proof. vm_compute. reflexivity. Qed.

(** [test_noise_removal] *)
Example test_noise_removal :
  TranscriptProcessor._clean_text
    (L "Hello [background noise] how are you? (unclear) I'm fine.")
  = L "Hello how are you? I'm fine.".
Proof. vm_compute. reflexivity. Qed.

(** [test_common_issues_fixing] *)
Example test_common_issues_fixing :
  TranscriptProcessor._clean_text (L "Hello world ! This is a test .")
  = L "Hello world! This is a test.".
Proof. vm_compute. reflexivity. Qed.

(** The problems that the per-type extraction finds in the text of
    [test_extract_problems] (scenario 3). *)
Example test_extract_problems :
  InsightExtractor.texts
    (InsightExtractor._extract_insights_by_type InsightExtractor.__init__
       (L "We have a major problem with the system. The issue is causing delays.")
       InsightExtractor.PROBLEM)
  = [L "problem with the system."; L "issue is causing delays."].
Proof. vm_compute. reflexivity. Qed.

(** The decisions that the per-type extraction finds in the text of
    [test_extract_decisions] (scenario 4). *)
Example test_extract_decisions :
  InsightExtractor.texts
    (InsightExtractor._extract_insights_by_type InsightExtractor.__init__
       (L "We decided to proceed with the project. The decision was made to go ahead.")
       InsightExtractor.DECISION)
  = [L "decided to proceed with the project.";
     L "decision was made to go ahead."; L "proceed with the project."].
Proof. vm_compute. reflexivity. Qed.

(** [test_extract_problems] asserts that the report of [extract_insights]
    has a problem for the text below; on the model, as on the code, the
    report has none and carries the error of the failed comprehension. *)
Example test_extract_problems_fails :
  exists rep,
    fst (InsightExtractor.extract_insights InsightExtractor.__init__
           (PStr (L "We have a major problem with the system. The issue is causing delays."))
           world0) = Ok rep
    /\ InsightExtractor.problems rep = []
    /\ InsightExtractor.error (InsightExtractor.metadata rep)
       = Some (L "Extraction error: 'str' object has no attribute 'value'").
Proof.
  eexists. split; [ vm_compute; reflexivity | ].
  split; vm_compute; reflexivity.
Qed.

(** [test_speaker_extraction] asserts two speakers, ["John"] and ["Mary"],
    for the text below; on the model, as on the code, [process] returns one. *)
Example test_speaker_extraction_fails :
  let text :=
    [Re.newline] ++ L "        John: Hello everyone!" ++ [Re.newline]
    ++ L "        Mary: Hi John, how are you?" ++ [Re.newline]
    ++ L "        John: I'm doing great, thanks for asking." ++ [Re.newline]
    ++ L "        " in
  exists r,
    fst (TranscriptProcessor.process (PStr text) world0) = Ok r
    /\ TranscriptProcessor.speakers r = [L "John"].
Proof. cbv zeta. eexists. split; [ reflexivity | vm_compute; reflexivity ]. Qed.

(** * Further properties of the insight extractor *)

(** ** Every extracted text is a valid candidate *)

Lemma is_valid_insight_spec (self : InsightExtractor.Extractor) (text : str) :
  InsightExtractor._is_valid_insight self text = true
  <-> 10 <= length text
      /\ 3 <= length (Py.split_ws text)
      /\ (stop_word_share self text <= 7 # 10)%Q.
Proof.
  unfold InsightExtractor._is_valid_insight, stop_word_share,
    InsightExtractor.Qnat.
  destruct (length text <? 10) eqn:E1.
  - apply Nat.ltb_lt in E1. split; [ discriminate | lia ].
  - apply Nat.ltb_ge in E1.
    destruct (length (Py.split_ws text) <? 3) eqn:E2.
    + apply Nat.ltb_lt in E2. split; [ discriminate | lia ].
    + apply Nat.ltb_ge in E2.
      destruct (Qlt_le_dec _ _) as [H | H].
      * split; [ discriminate | ]. intros (_ & _ & H'). exfalso.
        apply (Qlt_not_le _ _ H H').
      * split; [ auto | reflexivity ].
Qed.

(** Every insight that [_extract_insights_by_type] returns has a text of at
    least 10 characters and at least 3 words, of which at most 70% are stop
    words. *)
Theorem extracted_texts_valid :
  forall (ex : InsightExtractor.Extractor) (text : str)
         (t : InsightExtractor.InsightType),
    Forall (fun i => 10 <= length (InsightExtractor.text i)
                     /\ 3 <= length (Py.split_ws (InsightExtractor.text i))
                     /\ (stop_word_share ex (InsightExtractor.text i)
                         <= 7 # 10)%Q)
           (InsightExtractor._extract_insights_by_type ex text t).
Proof.
  intros ex text t. apply Forall_forall. intros i Hi.
  apply insights_by_type_created in Hi. destruct Hi as (c & Hc & ->).
  cbn [InsightExtractor._create_insight InsightExtractor.text].
  apply is_valid_insight_spec. exact Hc.
Qed.

(** ["We have a major problem"] is cut down to ["problem with the
    system."]; the candidate ["delays."] of the pattern for ["delay"] is too
    short and is not kept. *)
Lemma extracted_texts_valid_witness :
  InsightExtractor.texts
    (InsightExtractor._extract_insights_by_type InsightExtractor.__init__
       (L "We have a major problem with the system. The issue is causing delays.")
       InsightExtractor.PROBLEM)
  = [L "problem with the system."; L "issue is causing delays."]
  /\ Forall (fun i => 10 <= length (InsightExtractor.text i)
                      /\ 3 <= length (Py.split_ws (InsightExtractor.text i))
                      /\ (stop_word_share InsightExtractor.__init__
                            (InsightExtractor.text i) <= 7 # 10)%Q)
            (InsightExtractor._extract_insights_by_type
               InsightExtractor.__init__
               (L "We have a major problem with the system. The issue is causing delays.")
               InsightExtractor.PROBLEM).
Proof.
  split; [ vm_compute; reflexivity | ].
  apply (extracted_texts_valid InsightExtractor.__init__
           (L "We have a major problem with the system. The issue is causing delays.")
           InsightExtractor.PROBLEM).
Defined.

(** ** The report of [extract_insights] *)

(** The comprehension for ["detailed_insights"] raises on its first item,
    so that [extract_insights] ends in its [except] for every transcript that
    passes the validation. *)
Lemma extract_insights_valid (ex : InsightExtractor.Extractor)
    (input : PyVal) (v : Validators.Validation) (w : World) :
  Validators.validate_transcript input = Ok v ->
  Validators.is_valid v = true ->
  InsightExtractor.extract_insights ex input w
  = (Ok (InsightExtractor._create_empty_result
           (L "Extraction error: 'str' object has no attribute 'value'")),
     mkWorld (log w ++ [(ERROR,
                         L "Insight extraction error: 'str' object has no attribute 'value'")])).
Proof.
  intros Hv Hvalid. unfold InsightExtractor.extract_insights.
  rewrite Hv, Hvalid. reflexivity.
Qed.

(** [extract_insights] never returns an insight.  For every transcript that
    passes the validation, the call ends in the [except] of the method: it
    logs one error and returns the empty report whose error is
    ["Extraction error: 'str' object has no attribute 'value'"].  So every
    report of [extract_insights], on whatever input, has six empty lists, no
    detailed insight, the total 0, and an error. *)
Theorem extract_insights_ends_in_error :
  forall (ex : InsightExtractor.Extractor) (input : PyVal) (w : World),
    (forall v,
        Validators.validate_transcript input = Ok v ->
        Validators.is_valid v = true ->
        InsightExtractor.extract_insights ex input w
        = (Ok (InsightExtractor._create_empty_result
                 (L "Extraction error: 'str' object has no attribute 'value'")),
           mkWorld
             (log w
              ++ [(ERROR,
                   L "Insight extraction error: 'str' object has no attribute 'value'")])))
    /\ (forall rep,
           fst (InsightExtractor.extract_insights ex input w) = Ok rep ->
           report_lists rep = [[]; []; []; []; []; []]
           /\ InsightExtractor.detailed_insights rep = []
           /\ InsightExtractor.total_insights (InsightExtractor.metadata rep)
              = 0
           /\ InsightExtractor.insights_by_type (InsightExtractor.metadata rep)
              = []
           /\ InsightExtractor.high_priority_items
                (InsightExtractor.metadata rep) = []
           /\ InsightExtractor.error (InsightExtractor.metadata rep) <> None).
Proof.
  intros ex input w. split.
  - intros v Hv Hvalid. apply (extract_insights_valid ex input v w Hv Hvalid).
  - intros rep H. destruct (extract_insights_result ex input w rep H) as [e ->].
    cbn. repeat split; discriminate.
Qed.

(** The text of the repository's [test_extract_problems], which asserts
    that the report has a problem. *)
Lemma extract_insights_ends_in_error_witness :
  InsightExtractor.extract_insights InsightExtractor.__init__
    (PStr (L "We have a major problem with the system. The issue is causing delays."))
    world0
  = (Ok (InsightExtractor._create_empty_result
           (L "Extraction error: 'str' object has no attribute 'value'")),
     mkWorld [(ERROR,
               L "Insight extraction error: 'str' object has no attribute 'value'")]).
Proof.
  eapply (extract_insights_ends_in_error InsightExtractor.__init__
            (PStr (L "We have a major problem with the system. The issue is causing delays."))
            world0);
    vm_compute; reflexivity.
Defined.

(** ** Priority and category *)

(** The priority of an insight does not depend on its confidence: it is
    high when one of the urgency words occurs in the lower-cased text;
    otherwise low for an opportunity or a decision, and medium for a
    problem, a solution, an action item or a risk. *)
Theorem priority_by_type_and_cue :
  forall (text : str) (t : InsightExtractor.InsightType) (confidence : Q),
    InsightExtractor._determine_priority text t confidence
    = if Py.any_in
           (map L ["urgent"; "critical"; "important"; "asap"; "immediately";
                   "deadline"]%string)
           (Py.lower text)
      then InsightExtractor.high
      else match t with
           | InsightExtractor.OPPORTUNITY | InsightExtractor.DECISION =>
               InsightExtractor.low
           | _ => InsightExtractor.medium
           end.
Proof.
  intros text t c. unfold InsightExtractor._determine_priority.
  change InsightExtractor.high_priority_words
    with (map L ["urgent"; "critical"; "important"; "asap"; "immediately";
                 "deadline"]%string).
  destruct (Py.any_in _ _); [ reflexivity | ].
  destruct t; cbn; try destruct (Qlt_le_dec (5 # 10) c); reflexivity.
Qed.

(** The category of an insight is one of the five categories of the keyword
    table or the first category declared for its type (["general"] when none
    is declared); it is a table category exactly when a keyword of the table
    occurs in the lower-cased text. *)
Lemma category_of_insight :
  forall (text : str) (categories : list str),
    let category := InsightExtractor._categorize_insight text categories in
    let in_table :=
      existsb (fun entry => Py.any_in (snd entry) (Py.lower text))
              InsightExtractor.category_keywords in
    (in_table = true ->
     In category
        (map L ["technical"; "business"; "process"; "resource";
                "timeline"]%string))
    /\ (in_table = false -> category = hd (L "general") categories).
Proof.
  intros text categories. cbv zeta.
  unfold InsightExtractor._categorize_insight.
  destruct (find _ InsightExtractor.category_keywords) as [[c ks] | ] eqn:E.
  - split.
    + intros _. apply find_some in E. destruct E as [E _].
      change (map L ["technical"; "business"; "process"; "resource";
                     "timeline"]%string)
        with (map fst InsightExtractor.category_keywords).
      apply in_map_iff. exists (c, ks). auto.
    + intro H. exfalso. apply find_some in E. destruct E as [E1 E2].
      assert (Ht : existsb (fun entry => Py.any_in (snd entry) (Py.lower text))
                     InsightExtractor.category_keywords = true).
      { apply existsb_exists. exists (c, ks). auto. }
      congruence.
  - split.
    + intro H. exfalso. apply existsb_exists in H.
      destruct H as (entry & H1 & H2).
      pose proof (find_none _ _ E entry H1) as H3. cbn in H3. congruence.
    + intros _. destruct categories; reflexivity.
Qed.

(** Every insight that [_extract_insights_by_type] returns for a type
    carries that type, a category that is one of the five categories of the
    keyword table or the first category declared for the type, and a
    priority that is high or low for opportunities and decisions and high or
    medium for the other types. *)
Theorem extracted_category_and_priority :
  forall (ex : InsightExtractor.Extractor) (text : str)
         (t : InsightExtractor.InsightType),
    Forall
      (fun i =>
         InsightExtractor.type i = t
         /\ In (InsightExtractor.category i)
               (map L ["technical"; "business"; "process"; "resource";
                       "timeline"]%string
                ++ [hd (L "general")
                       (InsightExtractor.categories
                          (InsightExtractor.self_patterns ex t))])
         /\ InsightExtractor.priority i
            <> match t with
               | InsightExtractor.OPPORTUNITY
               | InsightExtractor.DECISION => InsightExtractor.medium
               | _ => InsightExtractor.low
               end)
      (InsightExtractor._extract_insights_by_type ex text t).
Proof.
  intros ex text t. apply Forall_forall. intros i Hi.
  apply insights_by_type_created in Hi. destruct Hi as (c & _ & ->).
  cbn [InsightExtractor._create_insight InsightExtractor.type
       InsightExtractor.category InsightExtractor.priority].
  split; [ reflexivity | ]. split.
  - destruct (category_of_insight c
                (InsightExtractor.categories
                   (InsightExtractor.self_patterns ex t))) as [H1 H2].
    cbv zeta in H1, H2. apply in_app_iff.
    destruct (existsb _ InsightExtractor.category_keywords).
    + left. apply H1. reflexivity.
    + right. left. symmetry. apply H2. reflexivity.
  - unfold InsightExtractor._determine_priority.
    destruct (Py.any_in _ _); [ destruct t; discriminate | ].
    destruct t; cbn; try destruct (Qlt_le_dec _ _); discriminate.
Qed.

(** An action item about software gets the category ["technical"], which
    is not among the categories declared for action items. *)
Lemma extracted_category_and_priority_witness :
  map (fun i => (InsightExtractor.category i, InsightExtractor.priority i))
      (InsightExtractor._extract_insights_by_type InsightExtractor.__init__
         (L "The next step is to update the software before Friday.")
         InsightExtractor.ACTION_ITEM)
  = [(L "technical", InsightExtractor.medium)]
  /\ Forall
       (fun i =>
          InsightExtractor.type i = InsightExtractor.ACTION_ITEM
          /\ In (InsightExtractor.category i)
                (map L ["technical"; "business"; "process"; "resource";
                        "timeline"]%string
                 ++ [hd (L "general")
                        (InsightExtractor.categories
                           (InsightExtractor.self_patterns
                              InsightExtractor.__init__
                              InsightExtractor.ACTION_ITEM))])
          /\ InsightExtractor.priority i <> InsightExtractor.low)
       (InsightExtractor._extract_insights_by_type InsightExtractor.__init__
          (L "The next step is to update the software before Friday.")
          InsightExtractor.ACTION_ITEM).
Proof.
  split; [ vm_compute; reflexivity | ].
  apply (extracted_category_and_priority InsightExtractor.__init__
           (L "The next step is to update the software before Friday.")
           InsightExtractor.ACTION_ITEM).
Defined.

(** * Further properties of the sentiment analyzer *)

(** ** Which inputs raise *)



(** ** What a successful analysis returns *)

(** [analyze] on a string with a letter: the empty result when the sentence
    tokenizer raises, else the aggregation over the analyzed sentences. *)
Lemma analyze_on_letters (libs : TextLibs) (self : SentimentAnalyzer.Analyzer)
    (s : str) (w : World) :
  existsb Py.is_azAZ s = true ->
  fst (SentimentAnalyzer.analyze self (PStr s) w)
  = match SentimentAnalyzer._extract_sentences (Py.strip s) with
    | Raise e =>
        Ok (SentimentAnalyzer._create_empty_result
              (L "Analysis error: " ++ exn_message e))
    | Ok ss =>
        let rs := fst (mapM (SentimentAnalyzer._analyze_sentence self) ss w) in
        let o := SentimentAnalyzer._calculate_overall_sentiment rs in
        Ok (SentimentAnalyzer.mkResult (SentimentAnalyzer.o_overall o)
              (SentimentAnalyzer.o_score o) (SentimentAnalyzer.o_confidence o)
              rs (SentimentAnalyzer._create_summary rs))
    end.
Proof.
  intro Ha. destruct (validate_string_rejects s) as (_ & _ & H).
  destruct (H Ha) as [Hv Ht].
  unfold SentimentAnalyzer.analyze, Validators.validate_transcript.
  rewrite Hv, Ht. cbn [negb].
  destruct (SentimentAnalyzer._extract_sentences (Py.strip s)) as [ss | e];
    [ | reflexivity ].
  unfold bind. destruct (mapM _ ss w) as [rs w1]. reflexivity.
Qed.

(** Every result of [analyze] is the empty result or the aggregation over
    its own sentence records. *)
Lemma analyze_result_full (libs : TextLibs)
    (self : SentimentAnalyzer.Analyzer) (text : PyVal) (w : World)
    (res : SentimentAnalyzer.SentimentResult) :
  fst (SentimentAnalyzer.analyze self text w) = Ok res ->
  (exists e, res = SentimentAnalyzer._create_empty_result e)
  \/ exists ss,
       let rs := fst (mapM (SentimentAnalyzer._analyze_sentence self) ss w) in
       let o := SentimentAnalyzer._calculate_overall_sentiment rs in
       res = SentimentAnalyzer.mkResult (SentimentAnalyzer.o_overall o)
               (SentimentAnalyzer.o_score o) (SentimentAnalyzer.o_confidence o)
               rs (SentimentAnalyzer._create_summary rs).
Proof.
  unfold SentimentAnalyzer.analyze.
  destruct (Validators.validate_transcript text) as [v | e]; [ | discriminate ].
  destruct (negb (Validators.is_valid v)).
  - cbn. intros [= <-]. left. eexists. reflexivity.
  - destruct (SentimentAnalyzer._extract_sentences (Validators.transcript v))
      as [ss | e].
    + unfold bind.
      destruct (mapM (SentimentAnalyzer._analyze_sentence self) ss w)
        as [rs w1] eqn:E.
      cbn. intros [= <-]. right. exists ss. rewrite E. reflexivity.
    + cbn. intros [= <-]. left. eexists. reflexivity.
Qed.

(** ** Summary statistics *)

Lemma Qmaximum_upper (l : list Q) :
  forall x,
    (x <= SentimentAnalyzer.Qmaximum x l)%Q
    /\ Forall (fun y => (y <= SentimentAnalyzer.Qmaximum x l)%Q) l.
Proof.
  unfold SentimentAnalyzer.Qmaximum.
  induction l as [ | y l IH ]; intro x; cbn [fold_left].
  - split; [ lra | constructor ].
  - destruct (Qle_bool y x) eqn:E.
    + apply Qle_bool_iff in E. destruct (IH x) as [H1 H2].
      split; [ exact H1 | constructor; [ lra | exact H2 ] ].
    + apply Qle_bool_false in E. destruct (IH y) as [H1 H2].
      split; [ lra | constructor; [ exact H1 | exact H2 ] ].
Qed.

Lemma Qminimum_lower (l : list Q) :
  forall x,
    (SentimentAnalyzer.Qminimum x l <= x)%Q
    /\ Forall (fun y => (SentimentAnalyzer.Qminimum x l <= y)%Q) l.
Proof.
  unfold SentimentAnalyzer.Qminimum.
  induction l as [ | y l IH ]; intro x; cbn [fold_left].
  - split; [ lra | constructor ].
  - destruct (Qle_bool x y) eqn:E.
    + apply Qle_bool_iff in E. destruct (IH x) as [H1 H2].
      split; [ exact H1 | constructor; [ lra | exact H2 ] ].
    + apply Qle_bool_false in E. destruct (IH y) as [H1 H2].
      split; [ lra | constructor; [ exact H1 | exact H2 ] ].
Qed.

Lemma label_counts (rs : list SentimentAnalyzer.SentenceResult) :
  length (filter (fun r => SentimentAnalyzer.label_eqb
                             (SentimentAnalyzer.sentiment r)
                             SentimentAnalyzer.Positive) rs)
  + length (filter (fun r => SentimentAnalyzer.label_eqb
                               (SentimentAnalyzer.sentiment r)
                               SentimentAnalyzer.Negative) rs)
  + length (filter (fun r => SentimentAnalyzer.label_eqb
                               (SentimentAnalyzer.sentiment r)
                               SentimentAnalyzer.Neutral) rs)
  = length rs.
Proof.
  induction rs as [ | r rs IH ]; [ reflexivity | ].
  cbn [filter]. destruct (SentimentAnalyzer.sentiment r); cbn; lia.
Qed.

(** The statistics of a non-empty list of sentence records. *)
Lemma create_summary_stats (rs : list SentimentAnalyzer.SentenceResult)
    (st : SentimentAnalyzer.Statistics) :
  SentimentAnalyzer._create_summary rs = SentimentAnalyzer.SummaryStats st ->
  SentimentAnalyzer.total_sentences st = length rs
  /\ 0 < length rs
  /\ SentimentAnalyzer.count_positive st + SentimentAnalyzer.count_negative st
     + SentimentAnalyzer.count_neutral st = length rs
  /\ SentimentAnalyzer.important_sentences st <= length rs
  /\ Forall (fun r => (SentimentAnalyzer.min_polarity st
                       <= SentimentAnalyzer.polarity r
                       <= SentimentAnalyzer.max_polarity st)%Q) rs.
Proof.
  unfold SentimentAnalyzer._create_summary.
  destruct rs as [ | r rs' ]; [ discriminate | ].
  set (rs := r :: rs'). cbn [map]. intros [= <-].
  cbn [SentimentAnalyzer.total_sentences SentimentAnalyzer.count_positive
       SentimentAnalyzer.count_negative SentimentAnalyzer.count_neutral
       SentimentAnalyzer.important_sentences SentimentAnalyzer.min_polarity
       SentimentAnalyzer.max_polarity SentimentAnalyzer.average_polarity].
  set (p := SentimentAnalyzer.polarity r).
  set (ps := map SentimentAnalyzer.polarity rs').
  destruct (Qmaximum_upper ps p) as [Hmax1 Hmax2].
  destruct (Qminimum_lower ps p) as [Hmin1 Hmin2].
  assert (Hall : Forall (fun y => (SentimentAnalyzer.Qminimum p ps <= y
                                   <= SentimentAnalyzer.Qmaximum p ps)%Q)
                        (p :: ps)).
  { constructor; [ lra | ].
    apply Forall_forall. intros y Hy.
    rewrite Forall_forall in Hmax2, Hmin2.
    split; [ apply Hmin2 | apply Hmax2 ]; exact Hy. }
  split; [ reflexivity | ]. split; [ subst rs; cbn; lia | ].
  split; [ exact (label_counts rs) | ].
  split; [ exact (filter_length_le SentimentAnalyzer.is_important rs) | ].
  subst rs. change (p :: ps) with (map SentimentAnalyzer.polarity (r :: rs'))
    in Hall. apply Forall_map in Hall. exact Hall.
Qed.

(** When [analyze] returns statistics, they are consistent with the
    sentence records: the total is their number (at least one), the three
    label counts add up to it, the number of important sentences does not
    exceed it, and every sentence polarity lies between the minimal and the
    maximal polarity. *)
Theorem summary_statistics_consistent :
  forall (libs : TextLibs) (self : SentimentAnalyzer.Analyzer)
         (text : PyVal) (w : World)
         (res : SentimentAnalyzer.SentimentResult)
         (st : SentimentAnalyzer.Statistics),
    fst (SentimentAnalyzer.analyze self text w) = Ok res ->
    SentimentAnalyzer.summary res = SentimentAnalyzer.SummaryStats st ->
    let n := length (SentimentAnalyzer.sentences res) in
    SentimentAnalyzer.total_sentences st = n
    /\ 0 < n
    /\ SentimentAnalyzer.count_positive st
       + SentimentAnalyzer.count_negative st
       + SentimentAnalyzer.count_neutral st = n
    /\ SentimentAnalyzer.important_sentences st <= n
    /\ Forall (fun r => (SentimentAnalyzer.min_polarity st
                         <= SentimentAnalyzer.polarity r
                         <= SentimentAnalyzer.max_polarity st)%Q)
              (SentimentAnalyzer.sentences res).
Proof.
  intros libs self text w res st H Hst.
  destruct (analyze_result_full libs self text w res H) as [[e ->] | (ss & ->)].
  - discriminate Hst.
  - cbn [SentimentAnalyzer.summary SentimentAnalyzer.sentences] in *.
    apply create_summary_stats. exact Hst.
Qed.

Lemma summary_statistics_consistent_witness :
  exists res st,
    fst (SentimentAnalyzer.analyze (libs := toy_libs)
           (SentimentAnalyzer.__init__ true true)
           (PStr (L "This is a great solution! The delay was terrible. We meet again on Monday."))
           world0) = Ok res
    /\ SentimentAnalyzer.summary res = SentimentAnalyzer.SummaryStats st
    /\ SentimentAnalyzer.total_sentences st = 3
    /\ SentimentAnalyzer.count_positive st
       + SentimentAnalyzer.count_negative st
       + SentimentAnalyzer.count_neutral st
       = length (SentimentAnalyzer.sentences res).
Proof.
  eexists. eexists. split; [ vm_compute; reflexivity | ].
  split; [ vm_compute; reflexivity | ].
  split; [ vm_compute; reflexivity | ].
  eapply (summary_statistics_consistent toy_libs
            (SentimentAnalyzer.__init__ true true)
            (PStr (L "This is a great solution! The delay was terrible. We meet again on Monday."))
            world0); vm_compute; reflexivity.
Defined.

(** ** The sentence records *)

Lemma analyze_sentence_text (libs : TextLibs)
    (self : SentimentAnalyzer.Analyzer) (s : str) (w : World) :
  SentimentAnalyzer.text (fst (SentimentAnalyzer._analyze_sentence self s w))
  = s.
Proof.
  unfold SentimentAnalyzer._analyze_sentence, SentimentAnalyzer.failed,
    SentimentAnalyzer.initial_result.
  destruct (SentimentAnalyzer.use_vader self);
    [ destruct (vader_polarity_scores s) | ];
    try reflexivity;
    (destruct (SentimentAnalyzer.use_textblob self);
     [ destruct (textblob_sentiment s) as [[? ?] | ?] | ]; reflexivity).
Qed.

Lemma mapM_map_fst {A B C} (f : A -> M B) (g : B -> C) (h : A -> C) :
  (forall x w, g (fst (f x w)) = h x) ->
  forall l w, map g (fst (mapM f l w)) = map h l.
Proof.
  intros Hf. induction l as [ | x l IH ]; intro w; [ reflexivity | ].
  cbn [mapM]. unfold bind.
  destruct (f x w) as [y w1] eqn:E.
  specialize (IH w1). destruct (mapM f l w1) as [ys w2] eqn:E2.
  cbn in *. rewrite IH. f_equal.
  specialize (Hf x w). rewrite E in Hf. exact Hf.
Qed.

(** [analyze] keeps one record per sentence of the tokenizer that has at
    least three words, in the tokenizer's order; the record's text is the
    sentence, stripped. *)
Theorem sentence_records_follow_tokenizer :
  forall (libs : TextLibs) (self : SentimentAnalyzer.Analyzer)
         (s : str) (w : World) (toks : list str),
    existsb Py.is_azAZ s = true ->
    textblob_sentences (Py.strip s) = Ok toks ->
    exists res,
      fst (SentimentAnalyzer.analyze self (PStr s) w) = Ok res
      /\ map SentimentAnalyzer.text (SentimentAnalyzer.sentences res)
         = filter (fun t => 3 <=? length (Py.split_ws t)) (map Py.strip toks).
Proof.
  intros libs self s w toks Hs Ht.
  rewrite (analyze_on_letters libs self s w Hs).
  unfold SentimentAnalyzer._extract_sentences. rewrite Ht.
  eexists. split; [ reflexivity | ].
  cbn [SentimentAnalyzer.sentences].
  rewrite (mapM_map_fst _ SentimentAnalyzer.text (fun x => x)).
  - apply map_id.
  - intros x w1. apply analyze_sentence_text.
Qed.

Lemma sentence_records_follow_tokenizer_witness :
  exists res,
    fst (SentimentAnalyzer.analyze (libs := toy_libs)
           (SentimentAnalyzer.__init__ true true)
           (PStr (L "  This is a great solution!  Thank you. We meet again on Monday. "))
           world0) = Ok res
    /\ map SentimentAnalyzer.text (SentimentAnalyzer.sentences res)
       = [L "This is a great solution"; L "We meet again on Monday"].
Proof.
  destruct (sentence_records_follow_tokenizer toy_libs
              (SentimentAnalyzer.__init__ true true)
              (L "  This is a great solution!  Thank you. We meet again on Monday. ")
              world0
              (Re.re_split Re.no_flags Validators.SENTENCE_END
                 (Py.strip (L "  This is a great solution!  Thank you. We meet again on Monday. "))))
    as (res & H1 & H2).
  - vm_compute; reflexivity.
  - reflexivity.
  - exists res. split; [ exact H1 | ]. rewrite H2. vm_compute; reflexivity.
Defined.

Lemma analyze_sentence_error (libs : TextLibs)
    (self : SentimentAnalyzer.Analyzer) (s : str) (w : World) :
  let r := fst (SentimentAnalyzer._analyze_sentence self s w) in
  (SentimentAnalyzer.s_error r = None <-> libs_answer libs self s)
  /\ (SentimentAnalyzer.s_error r <> None -> failed_record r).
Proof.
  cbv zeta.
  unfold SentimentAnalyzer._analyze_sentence, SentimentAnalyzer.failed,
    SentimentAnalyzer.initial_result, libs_answer, failed_record.
  destruct (SentimentAnalyzer.use_vader self) eqn:Ev;
    [ destruct (vader_polarity_scores s) as [v | e] eqn:V | ];
    (destruct (SentimentAnalyzer.use_textblob self) eqn:Et;
     [ destruct (textblob_sentiment s) as [[p sub] | e'] eqn:T | ]);
    cbn; (split; [ split | ]);
    try (intros; congruence);
    try (intros _; split; intros ?; solve [ eauto | discriminate ]);
    try (intros _; repeat split; reflexivity);
    try (intros [H1 H2];
         try (destruct (H1 eq_refl) as [? ?]; discriminate);
         try (destruct (H2 eq_refl) as [? ?]; discriminate)).
Qed.

(** A library failure on one sentence stays in that sentence's record: the
    record carries an error entry exactly when an enabled library call
    failed on its text, and then it is a neutral record of polarity and
    confidence 0, without highlights and not important. *)
Theorem failed_sentences_stay_neutral :
  forall (libs : TextLibs) (self : SentimentAnalyzer.Analyzer)
         (text : PyVal) (w : World)
         (res : SentimentAnalyzer.SentimentResult),
    fst (SentimentAnalyzer.analyze self text w) = Ok res ->
    Forall (fun r =>
              (SentimentAnalyzer.s_error r = None
               <-> libs_answer libs self (SentimentAnalyzer.text r))
              /\ (SentimentAnalyzer.s_error r <> None -> failed_record r))
           (SentimentAnalyzer.sentences res).
Proof.
  intros libs self text w res H.
  destruct (analyze_result_full libs self text w res H) as [[e ->] | (ss & ->)].
  - constructor.
  - cbn [SentimentAnalyzer.sentences].
    apply mapM_Forall. intros s w1.
    rewrite analyze_sentence_text. apply analyze_sentence_error.
Qed.

Lemma failed_sentences_stay_neutral_witness :
  exists res,
    fst (SentimentAnalyzer.analyze (libs := brittle_libs (L "delay"))
           (SentimentAnalyzer.__init__ true true)
           (PStr (L "This is a great solution! The delay was terrible. We meet again on Monday."))
           world0) = Ok res
    /\ map SentimentAnalyzer.s_error (SentimentAnalyzer.sentences res)
       = [None; Some (L "lexicon lookup failed"); None]
    /\ Forall (fun r =>
                 (SentimentAnalyzer.s_error r = None
                  <-> libs_answer (brittle_libs (L "delay"))
                        (SentimentAnalyzer.__init__ true true)
                        (SentimentAnalyzer.text r))
                 /\ (SentimentAnalyzer.s_error r <> None -> failed_record r))
              (SentimentAnalyzer.sentences res).
Proof.
  eexists. split; [ vm_compute; reflexivity | ].
  split; [ vm_compute; reflexivity | ].
  eapply (failed_sentences_stay_neutral (brittle_libs (L "delay"))
            (SentimentAnalyzer.__init__ true true)
            (PStr (L "This is a great solution! The delay was terrible. We meet again on Monday."))
            world0); vm_compute; reflexivity.
Defined.

(** A failure of the sentence tokenizer does not leave [analyze]: the call
    returns the empty result with the error text, and logs one error. *)
Theorem tokenizer_failure_is_reported :
  forall (libs : TextLibs) (self : SentimentAnalyzer.Analyzer)
         (s : str) (w : World) (e : PyExn),
    existsb Py.is_azAZ s = true ->
    textblob_sentences (Py.strip s) = Raise e ->
    SentimentAnalyzer.analyze self (PStr s) w
    = (Ok (SentimentAnalyzer.mkResult SentimentAnalyzer.Neutral 0 0 []
             (SentimentAnalyzer.SummaryError
                (L "Analysis error: " ++ exn_message e))),
       mkWorld (log w ++ [(ERROR,
                           L "Sentiment analysis error: " ++ exn_message e)])).
Proof.
  intros libs self s w e Ha Ht.
  destruct (validate_string_rejects s) as (_ & _ & H).
  destruct (H Ha) as [Hv Hs].
  unfold SentimentAnalyzer.analyze, Validators.validate_transcript.
  rewrite Hv, Hs. cbn [negb].
  unfold SentimentAnalyzer._extract_sentences. rewrite Ht.
  reflexivity.
Qed.

Lemma tokenizer_failure_is_reported_witness :
  SentimentAnalyzer.analyze (libs := no_tokenizer_libs)
    (SentimentAnalyzer.__init__ true true)
    (PStr (L "This is a great solution!")) world0
  = (Ok (SentimentAnalyzer.mkResult SentimentAnalyzer.Neutral 0 0 []
           (SentimentAnalyzer.SummaryError
              (L "Analysis error: tokenizer resource not found"))),
     mkWorld [(ERROR,
               L "Sentiment analysis error: tokenizer resource not found")]).
Proof.
  apply (tokenizer_failure_is_reported no_tokenizer_libs
           (SentimentAnalyzer.__init__ true true)
           (L "This is a great solution!") world0
           (LibraryError (L "tokenizer resource not found")));
    reflexivity.
Defined.

(** ** The scan of a text *)

(** A literal pattern, matched case-sensitively, consumes exactly its own
    characters. *)
Lemma run_lit (w : str) :
  forall st k e,
    Re.run Re.no_flags (Re.lit w) st k = Some e ->
    exists rest,
      Re.todo st = w ++ rest
      /\ k (Re.mkState (rev w ++ Re.seen st) rest (Re.caps st)) = Some e.
Proof.
  assert (Hone : forall c st k e,
             Re.run Re.no_flags (Re.Lit c) st k = Some e ->
             exists rest,
               Re.todo st = c :: rest
               /\ k (Re.mkState (c :: Re.seen st) rest (Re.caps st)) = Some e).
  { intros c [sn td cp] k e. cbn.
    destruct td as [ | x t ]; [ discriminate | ].
    unfold Re.lit_eqb. cbn.
    destruct (Ascii.eqb c x) eqn:E; [ | discriminate ].
    apply Ascii.eqb_eq in E. subst x. intro H. exists t. split; [ reflexivity | exact H ]. }
  induction w as [ | c w IH ]; intros st k e H.
  - cbn in H. exists (Re.todo st). split; [ reflexivity | ].
    destruct st; exact H.
  - destruct w as [ | c' w' ].
    + apply Hone in H. exact H.
    + change (Re.lit (c :: c' :: w'))
        with (Re.Seq (Re.Lit c) (Re.lit (c' :: w'))) in H.
      apply (Hone c st
               (fun st1 => Re.run Re.no_flags (Re.lit (c' :: w')) st1 k))
        in H.
      destruct H as (rest & Hr & H).
      apply IH in H. cbn [Re.todo Re.seen Re.caps] in H.
      destruct H as (rest' & Hr' & H).
      exists rest'. split.
      * rewrite Hr, Hr'. reflexivity.
      * replace (rev (c :: c' :: w') ++ Re.seen st)
          with (rev (c' :: w') ++ c :: Re.seen st);
          [ exact H | ].
        change (rev (c :: c' :: w')) with (rev (c' :: w') ++ [c]).
        rewrite <- app_assoc. reflexivity.
Qed.

(** A match of [\bword\b] covers exactly [word]. *)
Lemma match_at_word_pattern (w pre ahead : str) (e : Re.mstate) :
  Re.match_at Re.no_flags (SentimentAnalyzer.word_pattern w) pre ahead
  = Some e ->
  ahead = w ++ Re.todo e.
Proof.
  unfold Re.match_at, SentimentAnalyzer.word_pattern. cbn [Re.seqs Re.run].
  destruct (Re.at_wordb _); [ | discriminate ].
  intro H. apply run_lit in H. destruct H as (rest & Hr & H).
  cbn [Re.todo] in Hr. cbn [Re.run] in H.
  destruct (Re.at_wordb _); [ | discriminate ].
  injection H as <-. exact Hr.
Qed.

(** Every span that [re.finditer] reports starts at an offset of the text
    where the pattern matches, and ends where that match ends. *)
Lemma spans_tokens (fl : Re.flags) (r : Re.regex) :
  forall ahead pre skip p0 s e,
    In (s, e) (Re.spans (p0 + skip) (Re.tokens fl r pre ahead skip)) ->
    exists k st,
      k <= length ahead
      /\ s = p0 + k
      /\ Re.match_at fl r (rev (firstn k ahead) ++ pre) (skipn k ahead)
         = Some st
      /\ e = s + (length (skipn k ahead) - length (Re.todo st)).
Proof.
  induction ahead as [ | c rest IH ]; intros pre skip p0 s e H.
  - cbn [Re.tokens] in H. destruct skip; [ | destruct H ].
    destruct (Re.match_at fl r pre []) as [st | ] eqn:E; [ | destruct H ].
    cbn in H. destruct H as [[= <- <-] | []].
    exists 0, st. cbn [firstn skipn rev app length].
    rewrite E. repeat split; cbn; lia.
  - assert (Hshift : forall n,
               In (s, e) (Re.spans (p0 + 1 + n)
                            (Re.tokens fl r (c :: pre) rest n)) ->
               exists k st,
                 k <= length (c :: rest)
                 /\ s = p0 + k
                 /\ Re.match_at fl r (rev (firstn k (c :: rest)) ++ pre)
                      (skipn k (c :: rest)) = Some st
                 /\ e = s + (length (skipn k (c :: rest))
                             - length (Re.todo st))).
    { intros n Hn. apply IH in Hn.
      destruct Hn as (k & st & Hk & Hs & Hm & He).
      exists (S k), st. cbn [firstn skipn rev length].
      rewrite <- app_assoc. cbn [app].
      repeat split; [ lia | lia | exact Hm | exact He ]. }
    cbn [Re.tokens] in H. destruct skip as [ | n ].
    + destruct (Re.match_at fl r pre (c :: rest)) as [st | ] eqn:E.
      * destruct (length (c :: rest) - length (Re.todo st)) as [ | n ] eqn:D.
        -- cbn [Re.spans length] in H. destruct H as [[= <- <-] | H].
           ++ exists 0, st. cbn [firstn skipn rev app].
              rewrite E, D. repeat split; lia.
           ++ apply (Hshift 0).
              replace (p0 + 1 + 0) with (S (p0 + 0 + 0)) by lia. exact H.
        -- assert (Hlen : length (firstn (S n) (c :: rest)) = S n).
           { rewrite length_firstn. lia. }
           cbn [Re.spans] in H. rewrite Hlen in H.
           destruct H as [[= <- <-] | H].
           ++ exists 0, st. cbn [firstn skipn rev app].
              rewrite E, D. repeat split; lia.
           ++ apply (Hshift n).
              replace (p0 + 1 + n) with (p0 + 0 + S n) by lia. exact H.
      * cbn [Re.spans] in H. apply (Hshift 0).
        replace (p0 + 1 + 0) with (S (p0 + 0)) by lia. exact H.
    + apply (Hshift n).
      replace (p0 + 1 + n) with (p0 + S n) by lia. exact H.
Qed.

Lemma finditer_spans (fl : Re.flags) (r : Re.regex) (text : str) (s e : nat) :
  In (s, e) (Re.re_finditer fl r text) ->
  exists st,
    s <= length text
    /\ Re.match_at fl r (rev (firstn s text)) (skipn s text) = Some st
    /\ e = s + (length (skipn s text) - length (Re.todo st)).
Proof.
  unfold Re.re_finditer, Re.scan. intro H.
  apply (spans_tokens fl r text [] 0 0) in H.
  destruct H as (k & st & Hk & -> & Hm & He).
  rewrite app_nil_r in Hm. cbn [Nat.add] in *.
  exists st. repeat split; assumption.
Qed.

(** ** Highlights *)

Lemma highlights_of_spec (self : SentimentAnalyzer.Analyzer) (text : str)
    (pol : SentimentAnalyzer.Label) (words : list str)
    (h : SentimentAnalyzer.Highlight) :
  In h (SentimentAnalyzer.highlights_of self text pol words) ->
  SentimentAnalyzer.h_polarity h = pol
  /\ In (Py.slice (Py.lower text) (SentimentAnalyzer.h_start h)
                  (SentimentAnalyzer.h_end h)) words
  /\ SentimentAnalyzer.h_start h <= SentimentAnalyzer.h_end h
  /\ SentimentAnalyzer.h_end h <= length (Py.lower text)
  /\ SentimentAnalyzer.h_word h
     = Py.slice text (SentimentAnalyzer.h_start h) (SentimentAnalyzer.h_end h).
Proof.
  unfold SentimentAnalyzer.highlights_of. intro H.
  apply in_flat_map in H. destruct H as (w & Hw & H).
  apply in_map_iff in H. destruct H as ([s e] & <- & H).
  apply finditer_spans in H. destruct H as (st & Hs & Hm & He).
  apply match_at_word_pattern in Hm.
  cbn [SentimentAnalyzer.h_polarity SentimentAnalyzer.h_word
       SentimentAnalyzer.h_start SentimentAnalyzer.h_end].
  assert (Hlen : length (skipn s (Py.lower text)) = length w + length (Re.todo st))
    by (rewrite Hm, length_app; reflexivity).
  assert (Ee : e = s + length w) by lia.
  rewrite length_skipn in Hlen.
  assert (Hsl : Py.slice (Py.lower text) s e = w).
  { unfold Py.slice. rewrite Hm, Ee.
    replace (s + length w - s) with (length w + 0) by lia.
    rewrite firstn_app_2. cbn [firstn]. apply app_nil_r. }
  split; [ reflexivity | ].
  split; [ rewrite Hsl; exact Hw | ].
  split; [ lia | ]. split; [ lia | reflexivity ].
Qed.

Lemma insert_by_start_In (h x : SentimentAnalyzer.Highlight)
    (l : list SentimentAnalyzer.Highlight) :
  In x (SentimentAnalyzer.insert_by_start h l) <-> x = h \/ In x l.
Proof.
  induction l as [ | y l IH ]; cbn.
  - intuition congruence.
  - destruct (SentimentAnalyzer.h_start h <=? SentimentAnalyzer.h_start y);
      cbn; rewrite ?IH; intuition congruence.
Qed.

Lemma sort_by_start_In (x : SentimentAnalyzer.Highlight)
    (l : list SentimentAnalyzer.Highlight) :
  In x (SentimentAnalyzer.sort_by_start l) <-> In x l.
Proof.
  unfold SentimentAnalyzer.sort_by_start.
  induction l as [ | y l IH ]; cbn [fold_right]; [ reflexivity | ].
  rewrite insert_by_start_In, IH. cbn. intuition congruence.
Qed.

Lemma insert_by_start_sorted (h : SentimentAnalyzer.Highlight)
    (l : list SentimentAnalyzer.Highlight) :
  StronglySorted (fun a b => SentimentAnalyzer.h_start a
                             <= SentimentAnalyzer.h_start b) l ->
  StronglySorted (fun a b => SentimentAnalyzer.h_start a
                             <= SentimentAnalyzer.h_start b)
                 (SentimentAnalyzer.insert_by_start h l).
Proof.
  induction 1 as [ | y l Hs IH Hy ]; cbn.
  - constructor; constructor.
  - destruct (SentimentAnalyzer.h_start h <=? SentimentAnalyzer.h_start y)
      eqn:E.
    + apply Nat.leb_le in E. constructor; [ constructor; assumption | ].
      constructor; [ exact E | ].
      eapply Forall_impl; [ | exact Hy ]. cbv beta. intros; lia.
    + apply Nat.leb_gt in E. constructor; [ exact IH | ].
      apply Forall_forall. intros x Hx. rewrite insert_by_start_In in Hx.
      destruct Hx as [-> | Hx]; [ lia | ].
      rewrite Forall_forall in Hy. apply Hy. exact Hx.
Qed.

Lemma sort_by_start_sorted (l : list SentimentAnalyzer.Highlight) :
  StronglySorted (fun a b => SentimentAnalyzer.h_start a
                             <= SentimentAnalyzer.h_start b)
                 (SentimentAnalyzer.sort_by_start l).
Proof.
  unfold SentimentAnalyzer.sort_by_start.
  induction l as [ | y l IH ]; cbn [fold_right]; [ constructor | ].
  apply insert_by_start_sorted. exact IH.
Qed.

Lemma generate_highlights_spec (self : SentimentAnalyzer.Analyzer)
    (text : str) :
  StronglySorted (fun a b => SentimentAnalyzer.h_start a
                             <= SentimentAnalyzer.h_start b)
                 (SentimentAnalyzer._generate_highlights self text)
  /\ Forall (marks_lexicon_word self text)
            (SentimentAnalyzer._generate_highlights self text).
Proof.
  unfold SentimentAnalyzer._generate_highlights.
  split; [ apply sort_by_start_sorted | ].
  apply Forall_forall. intros h Hh.
  rewrite sort_by_start_In, in_app_iff in Hh.
  unfold marks_lexicon_word.
  destruct Hh as [Hh | Hh]; apply highlights_of_spec in Hh;
    destruct Hh as (Hp & Hw & H1 & H2 & H3);
    repeat (split; [ assumption | ]); [ left | right ]; split; assumption.
Qed.

(** The highlights and the highlighted text of a record. *)
Lemma analyze_sentence_highlights (libs : TextLibs)
    (self : SentimentAnalyzer.Analyzer) (s : str) (w : World) :
  let r := fst (SentimentAnalyzer._analyze_sentence self s w) in
  (SentimentAnalyzer.highlights r = []
   /\ SentimentAnalyzer.highlighted_text r = s)
  \/ (SentimentAnalyzer.highlights r
      = SentimentAnalyzer._generate_highlights self s
      /\ SentimentAnalyzer.highlighted_text r
         = SentimentAnalyzer._create_highlighted_text s
             (SentimentAnalyzer._generate_highlights self s)).
Proof.
  cbv zeta.
  unfold SentimentAnalyzer._analyze_sentence, SentimentAnalyzer.failed,
    SentimentAnalyzer.initial_result.
  destruct (SentimentAnalyzer.use_vader self);
    [ destruct (vader_polarity_scores s) | ];
    try (left; split; reflexivity);
    (destruct (SentimentAnalyzer.use_textblob self);
     [ destruct (textblob_sentiment s) as [[? ?] | ?] | ];
     solve [ left; split; reflexivity | right; split; reflexivity ]).
Qed.

(** Every highlight of every sentence record marks an occurrence of a
    lexicon word of its polarity: between its offsets the lower-cased
    sentence reads a word of the lexicon, and its word is the text of the
    sentence between the same offsets; the highlights of a record are listed
    from left to right. *)
Theorem highlights_mark_lexicon_words :
  forall (libs : TextLibs) (self : SentimentAnalyzer.Analyzer)
         (text : PyVal) (w : World)
         (res : SentimentAnalyzer.SentimentResult),
    fst (SentimentAnalyzer.analyze self text w) = Ok res ->
    Forall (fun r =>
              StronglySorted
                (fun a b => SentimentAnalyzer.h_start a
                            <= SentimentAnalyzer.h_start b)
                (SentimentAnalyzer.highlights r)
              /\ Forall (marks_lexicon_word self (SentimentAnalyzer.text r))
                        (SentimentAnalyzer.highlights r))
           (SentimentAnalyzer.sentences res).
Proof.
  intros libs self text w res H.
  destruct (analyze_result_full libs self text w res H) as [[e ->] | (ss & ->)].
  - constructor.
  - cbn [SentimentAnalyzer.sentences].
    apply mapM_Forall. intros s w1.
    rewrite analyze_sentence_text.
    destruct (analyze_sentence_highlights libs self s w1) as [[-> _] | [-> _]].
    + split; constructor.
    + apply generate_highlights_spec.
Qed.

Lemma highlights_mark_lexicon_words_witness :
  exists res,
    fst (SentimentAnalyzer.analyze (libs := toy_libs)
           (SentimentAnalyzer.__init__ true true)
           (PStr (L "The plan is Great but the delay was really terrible."))
           world0) = Ok res
    /\ map (fun r => map (fun h => (SentimentAnalyzer.h_word h,
                                    SentimentAnalyzer.h_start h,
                                    SentimentAnalyzer.h_end h))
                         (SentimentAnalyzer.highlights r))
           (SentimentAnalyzer.sentences res)
       = [[(L "Great", 12, 17); (L "terrible", 43, 51)]]
    /\ Forall (fun r =>
                 StronglySorted
                   (fun a b => SentimentAnalyzer.h_start a
                               <= SentimentAnalyzer.h_start b)
                   (SentimentAnalyzer.highlights r)
                 /\ Forall (marks_lexicon_word
                              (SentimentAnalyzer.__init__ true true)
                              (SentimentAnalyzer.text r))
                           (SentimentAnalyzer.highlights r))
              (SentimentAnalyzer.sentences res).
Proof.
  eexists. split; [ vm_compute; reflexivity | ].
  split; [ vm_compute; reflexivity | ].
  eapply (highlights_mark_lexicon_words toy_libs
            (SentimentAnalyzer.__init__ true true)
            (PStr (L "The plan is Great but the delay was really terrible."))
            world0); vm_compute; reflexivity.
Defined.

Lemma slice_to_end (text : str) (a : nat) :
  Py.slice text a (length text) = skipn a text.
Proof.
  unfold Py.slice. apply firstn_all2. rewrite length_skipn. lia.
Qed.

Lemma slice_then_rest (text : str) (a b : nat) :
  a <= b -> Py.slice text a b ++ skipn b text = skipn a text.
Proof.
  intro H. unfold Py.slice.
  replace (skipn b text) with (skipn (b - a) (skipn a text)).
  - apply firstn_skipn.
  - rewrite skipn_skipn. f_equal. lia.
Qed.

Lemma without_markers_app (a b : str) :
  without_markers (a ++ b) = without_markers a ++ without_markers b.
Proof. apply filter_app. Qed.

(** The loop of [_create_highlighted_text] adds asterisks and nothing else. *)
Lemma highlight_parts_unmarked (text : str)
    (hs : list SentimentAnalyzer.Highlight) :
  Forall (fun h => SentimentAnalyzer.h_start h <= SentimentAnalyzer.h_end h
                   /\ SentimentAnalyzer.h_word h
                      = Py.slice text (SentimentAnalyzer.h_start h)
                                 (SentimentAnalyzer.h_end h)) hs ->
  forall last_end,
    without_markers (SentimentAnalyzer.highlight_parts text last_end hs)
    = without_markers (skipn last_end text).
Proof.
  induction 1 as [ | h hs [Hle Hw] _ IH ]; intro last_end;
    cbn [SentimentAnalyzer.highlight_parts].
  - rewrite slice_to_end. reflexivity.
  - destruct (SentimentAnalyzer.h_start h <? last_end) eqn:E; [ apply IH | ].
    apply Nat.ltb_ge in E.
    rewrite !without_markers_app, IH, Hw.
    change (without_markers (L "**")) with (@nil ascii). cbn [app].
    rewrite <- !without_markers_app. f_equal.
    rewrite (slice_then_rest text _ _ Hle).
    apply slice_then_rest. exact E.
Qed.

Lemma create_highlighted_text_unmarked (self : SentimentAnalyzer.Analyzer)
    (text : str) :
  without_markers
    (SentimentAnalyzer._create_highlighted_text text
       (SentimentAnalyzer._generate_highlights self text))
  = without_markers text.
Proof.
  unfold SentimentAnalyzer._create_highlighted_text.
  destruct (SentimentAnalyzer._generate_highlights self text) eqn:E;
    [ reflexivity | ].
  rewrite <- E. rewrite highlight_parts_unmarked; [ reflexivity | ].
  apply Forall_forall. intros x Hx. rewrite sort_by_start_In in Hx.
  destruct (generate_highlights_spec self text) as [_ Hm].
  rewrite Forall_forall in Hm. destruct (Hm x Hx) as (H1 & _ & H3 & _).
  split; assumption.
Qed.

(** The highlighted text of a record is its sentence with asterisks added:
    without the asterisks, the two texts are the same. *)
Theorem highlighting_only_adds_markers :
  forall (libs : TextLibs) (self : SentimentAnalyzer.Analyzer)
         (text : PyVal) (w : World)
         (res : SentimentAnalyzer.SentimentResult),
    fst (SentimentAnalyzer.analyze self text w) = Ok res ->
    Forall (fun r =>
              without_markers (SentimentAnalyzer.highlighted_text r)
              = without_markers (SentimentAnalyzer.text r))
           (SentimentAnalyzer.sentences res).
Proof.
  intros libs self text w res H.
  destruct (analyze_result_full libs self text w res H) as [[e ->] | (ss & ->)].
  - constructor.
  - cbn [SentimentAnalyzer.sentences].
    apply mapM_Forall. intros s w1.
    rewrite analyze_sentence_text.
    destruct (analyze_sentence_highlights libs self s w1) as [[_ ->] | [_ ->]].
    + reflexivity.
    + apply create_highlighted_text_unmarked.
Qed.

Lemma highlighting_only_adds_markers_witness :
  exists res,
    fst (SentimentAnalyzer.analyze (libs := toy_libs)
           (SentimentAnalyzer.__init__ true true)
           (PStr (L "The plan is Great but the delay was really terrible."))
           world0) = Ok res
    /\ map SentimentAnalyzer.highlighted_text (SentimentAnalyzer.sentences res)
       = [L "The plan is **Great** but the delay was really **terrible**"]
    /\ Forall (fun r =>
                 without_markers (SentimentAnalyzer.highlighted_text r)
                 = without_markers (SentimentAnalyzer.text r))
              (SentimentAnalyzer.sentences res).
Proof.
  eexists. split; [ vm_compute; reflexivity | ].
  split; [ vm_compute; reflexivity | ].
  eapply (highlighting_only_adds_markers toy_libs
            (SentimentAnalyzer.__init__ true true)
            (PStr (L "The plan is Great but the delay was really terrible."))
            world0); vm_compute; reflexivity.
Defined.

(** ** What a substitution can write *)

Lemma Forall_prefix {A} (Q : A -> Prop) (n : nat) (l : list A) :
  Forall Q l -> Forall Q (firstn n l).
Proof.
  intro H. revert n. induction H as [ | x l Hx _ IH ]; intros [ | n ];
    cbn [firstn]; constructor; [ exact Hx | apply IH ].
Qed.

Section CharInvariant.
Variable P : ascii -> Prop.

Lemma state_over_step (x : ascii) (t sn : str) (cp : list (nat * str))
    (st : Re.mstate) :
  state_over P st -> Re.todo st = x :: t -> cp = Re.caps st ->
  state_over P (Re.mkState sn t cp).
Proof.
  intros [Ht Hc] E ->. rewrite E in Ht. inversion Ht; subst.
  split; assumption.
Qed.

Lemma greedy_over (body : Re.mstate -> (Re.mstate -> option Re.mstate)
                          -> option Re.mstate)
    (k : Re.mstate -> option Re.mstate) (e : Re.mstate) :
  (forall st k' e', state_over P st -> body st k' = Some e' ->
                    exists st1, state_over P st1 /\ k' st1 = Some e') ->
  forall n st,
    state_over P st -> Re.greedy body k n st = Some e ->
    exists st1, state_over P st1 /\ k st1 = Some e.
Proof.
  intro Hbody. induction n as [ | n IH ]; intros st Hg H; cbn [Re.greedy] in H.
  - exists st. split; assumption.
  - destruct (body st _) as [e0 | ] eqn:E.
    + injection H as ->. apply Hbody in E; [ | exact Hg ].
      destruct E as (st1 & Hg1 & E).
      destruct (Re.progress st st1); [ | discriminate ].
      apply IH in E; assumption.
    + exists st. split; assumption.
Qed.

Lemma lazy_over (body : Re.mstate -> (Re.mstate -> option Re.mstate)
                        -> option Re.mstate)
    (k : Re.mstate -> option Re.mstate) (e : Re.mstate) :
  (forall st k' e', state_over P st -> body st k' = Some e' ->
                    exists st1, state_over P st1 /\ k' st1 = Some e') ->
  forall n st,
    state_over P st -> Re.lazy body k n st = Some e ->
    exists st1, state_over P st1 /\ k st1 = Some e.
Proof.
  intro Hbody. induction n as [ | n IH ]; intros st Hg H; cbn [Re.lazy] in H.
  - exists st. split; assumption.
  - destruct (k st) as [e0 | ] eqn:E.
    + injection H as ->. exists st. split; assumption.
    + apply Hbody in H; [ | exact Hg ].
      destruct H as (st1 & Hg1 & H).
      destruct (Re.progress st st1); [ | discriminate ].
      apply IH in H; assumption.
Qed.

(** A match that starts on characters of one kind continues on, and
    captures, characters of that kind only. *)
Lemma run_over (fl : Re.flags) (r : Re.regex) :
  forall st k e,
    state_over P st -> Re.run fl r st k = Some e ->
    exists st1, state_over P st1 /\ k st1 = Some e.
Proof.
  induction r as [ | c | p | a IHa b IHb | a IHa b IHb | a IHa | a IHa
                 | n a IHa | | ]; intros st k e Hg H; cbn [Re.run] in H.
  - exists st. split; assumption.
  - destruct (Re.todo st) as [ | x t ] eqn:E; [ discriminate | ].
    destruct (Re.lit_eqb fl c x); [ | discriminate ].
    eexists. split; [ | exact H ].
    eapply state_over_step; [ exact Hg | exact E | reflexivity ].
  - destruct (Re.todo st) as [ | x t ] eqn:E; [ discriminate | ].
    destruct (p x); [ | discriminate ].
    eexists. split; [ | exact H ].
    eapply state_over_step; [ exact Hg | exact E | reflexivity ].
  - apply IHa in H; [ | exact Hg ]. destruct H as (st1 & Hg1 & H).
    apply IHb in H; assumption.
  - destruct (Re.run fl a st k) as [e0 | ] eqn:E.
    + injection H as ->. apply IHa in E; assumption.
    + apply IHb in H; assumption.
  - eapply greedy_over; [ | exact Hg | exact H ].
    intros st0 k' e' Hg0 H0. apply IHa in H0; assumption.
  - eapply lazy_over; [ | exact Hg | exact H ].
    intros st0 k' e' Hg0 H0. apply IHa in H0; assumption.
  - apply IHa in H; [ | exact Hg ]. destruct H as (st1 & [Ht1 Hc1] & H).
    eexists. split; [ | exact H ].
    split; [ exact Ht1 | ]. cbn [Re.set_cap Re.caps].
    constructor; [ | exact Hc1 ]. cbn [snd]. unfold Re.consumed.
    apply Forall_prefix. apply Hg.
  - destruct (Re.at_bol fl st); [ | discriminate ].
    exists st. split; assumption.
  - destruct (Re.at_wordb st); [ | discriminate ].
    exists st. split; assumption.
Qed.

Lemma match_at_over (fl : Re.flags) (r : Re.regex) (pre ahead : str)
    (e : Re.mstate) :
  Forall P ahead -> Re.match_at fl r pre ahead = Some e ->
  Forall (fun ns => Forall P (snd ns)) (Re.caps e).
Proof.
  unfold Re.match_at. intros Ha H. apply run_over in H.
  - destruct H as (st1 & [_ Hc] & [= <-]). exact Hc.
  - split; [ exact Ha | constructor ].
Qed.

Lemma tokens_over (fl : Re.flags) (r : Re.regex) :
  forall ahead pre skip,
    Forall P ahead -> Forall (token_over P) (Re.tokens fl r pre ahead skip).
Proof.
  induction ahead as [ | c rest IH ]; intros pre skip Ha; cbn [Re.tokens].
  - destruct skip; [ | constructor ].
    destruct (Re.match_at fl r pre []) as [e | ] eqn:E; constructor;
      [ | constructor ].
    split; [ constructor | ]. eapply match_at_over; [ | exact E ]. constructor.
  - inversion Ha as [ | ? ? Hc Hrest ]; subst.
    destruct skip as [ | n ]; [ | apply IH; exact Hrest ].
    destruct (Re.match_at fl r pre (c :: rest)) as [e | ] eqn:E.
    + pose proof (match_at_over fl r pre (c :: rest) e Ha E) as Hcaps.
      destruct (length (c :: rest) - length (Re.todo e)) as [ | n ].
      * constructor; [ split; [ constructor | exact Hcaps ] | ].
        constructor; [ exact Hc | apply IH; exact Hrest ].
      * constructor; [ | apply IH; exact Hrest ].
        split; [ apply Forall_prefix; exact Ha | exact Hcaps ].
    + constructor; [ exact Hc | apply IH; exact Hrest ].
Qed.

Lemma group_over (n : nat) (cs : list (nat * str)) :
  Forall (fun ns => Forall P (snd ns)) cs -> Forall P (Re.group n cs).
Proof.
  induction 1 as [ | [i s] cs Hs _ IH ]; cbn [Re.group]; [ constructor | ].
  destruct (Nat.eqb i n); [ exact Hs | exact IH ].
Qed.

(** [re.sub] writes characters of the text and of the replacement only. *)
Lemma re_sub_over (fl : Re.flags) (r : Re.regex) (repl : list Re.rpart)
    (s : str) :
  Forall (rpart_over P) repl -> Forall P s ->
  Forall P (Re.re_sub fl r repl s).
Proof.
  intros Hrepl Hs. unfold Re.re_sub, Re.scan.
  apply Forall_flat_map.
  eapply Forall_impl; [ | apply tokens_over; exact Hs ].
  intros [c | m cs]; cbn [token_over].
  - intro Hc. constructor; [ exact Hc | constructor ].
  - intros [_ Hcs]. unfold Re.expand. apply Forall_flat_map.
    eapply Forall_impl; [ | exact Hrepl ].
    intros [t | n]; cbn [rpart_over]; intro Ht;
      [ exact Ht | apply group_over; exact Hcs ].
Qed.

End CharInvariant.

(** ** The cleaned text *)

(** Where [[c]+] is replaced, no character of the class [c] stays. *)
Lemma tokens_plus_class (fl : Re.flags) (p : ascii -> bool) :
  forall ahead pre skip,
    Forall (fun t => match t with
                     | Re.Chr c => p c = false
                     | Re.Hit _ _ => True
                     end)
           (Re.tokens fl (Re.Plus (Re.Class p)) pre ahead skip).
Proof.
  induction ahead as [ | c rest IH ]; intros pre skip; cbn [Re.tokens].
  - destruct skip; [ | constructor ].
    rewrite match_at_plus_class. constructor.
  - destruct skip as [ | n ]; [ | apply IH ].
    rewrite match_at_plus_class. destruct (p c) eqn:E.
    + cbn [Re.todo Re.caps].
      pose proof (drop_run_length p rest) as Hl.
      destruct (length (c :: rest) - length (drop_run p rest)) as [ | n ] eqn:D;
        [ cbn [length] in D; lia | ].
      constructor; [ exact I | apply IH ].
    + constructor; [ exact E | apply IH ].
Qed.

Lemma re_sub_plus_class (fl : Re.flags) (p : ascii -> bool) (t s : str)
    (Q : ascii -> Prop) :
  (forall c, p c = false -> Q c) -> Forall Q t ->
  Forall Q (Re.re_sub fl (Re.Plus (Re.Class p)) [Re.RText t] s).
Proof.
  intros Hp Ht. unfold Re.re_sub, Re.scan. apply Forall_flat_map.
  eapply Forall_impl; [ | apply tokens_plus_class ].
  intros [c | m cs] H.
  - constructor; [ apply Hp; exact H | constructor ].
  - unfold Re.expand. cbn [flat_map]. rewrite app_nil_r. exact Ht.
Qed.

Lemma plain_space_text (s : str) :
  forallb (fun c => negb (Py.isspace c) || Ascii.eqb c " "%char) s = true ->
  Forall plain_space s.
Proof.
  intro H. rewrite forallb_forall in H. apply Forall_forall.
  intros c Hc Hs. specialize (H c Hc). rewrite Hs in H. cbn in H.
  apply Ascii.eqb_eq. exact H.
Qed.

Lemma lstrip_over (P : ascii -> Prop) (s : str) :
  Forall P s -> Forall P (Py.lstrip s).
Proof.
  induction 1 as [ | c s Hc Hs IH ]; cbn [Py.lstrip]; [ constructor | ].
  destruct (Py.isspace c); [ exact IH | constructor; assumption ].
Qed.

Lemma strip_over (P : ascii -> Prop) (s : str) :
  Forall P s -> Forall P (Py.strip s).
Proof.
  intro H. unfold Py.strip, Py.rstrip.
  apply Forall_rev, lstrip_over, Forall_rev, lstrip_over. exact H.
Qed.

Ltac repl_over :=
  match goal with
  | |- Forall _ [] => apply Forall_nil
  | |- Forall _ (Re.RText _ :: _) =>
      apply Forall_cons;
      [ cbn [rpart_over]; apply plain_space_text; reflexivity | repl_over ]
  | |- Forall _ (Re.RGroup _ :: _) =>
      apply Forall_cons; [ exact I | repl_over ]
  end.

Lemma fix_common_issues_over (s : str) :
  Forall plain_space s ->
  Forall plain_space (TranscriptProcessor._fix_common_issues s).
Proof.
  intro H. unfold TranscriptProcessor._fix_common_issues.
  unfold TranscriptProcessor.fixes. cbn [fold_left fst snd].
  repeat (apply re_sub_over; [ repl_over | ]).
  exact H.
Qed.

(** Whatever the text, the cleaned text holds no whitespace character but
    the plain space. *)
Lemma clean_text_plain_space (s : str) :
  Forall plain_space (TranscriptProcessor._clean_text s).
Proof.
  unfold TranscriptProcessor._clean_text.
  apply strip_over, fix_common_issues_over.
  apply re_sub_over; [ repl_over | ].
  apply re_sub_plus_class.
  - intros c Hc Hs. unfold Re.Space in *. congruence.
  - apply plain_space_text. reflexivity.
Qed.

Lemma lstrip_idem (s : str) : Py.lstrip (Py.lstrip s) = Py.lstrip s.
Proof.
  induction s as [ | c t IH ]; cbn [Py.lstrip]; [ reflexivity | ].
  destruct (Py.isspace c) eqn:E; [ exact IH | ].
  cbn [Py.lstrip]. rewrite E. reflexivity.
Qed.

Lemma lstrip_snoc (a : str) (c : ascii) :
  Py.isspace c = false ->
  exists b, Py.lstrip (a ++ [c]) = b ++ [c].
Proof.
  intro Hc. induction a as [ | x a IH ]; cbn [app Py.lstrip].
  - rewrite Hc. exists []. reflexivity.
  - destruct (Py.isspace x); [ exact IH | ].
    exists (x :: a). reflexivity.
Qed.

(** [strip] leaves nothing for a second [strip]. *)
Lemma strip_idem (s : str) : Py.strip (Py.strip s) = Py.strip s.
Proof.
  unfold Py.strip.
  assert (Hr : forall t, Py.rstrip (Py.rstrip t) = Py.rstrip t).
  { intro t. unfold Py.rstrip. rewrite rev_involutive, lstrip_idem.
    reflexivity. }
  assert (Hl : Py.lstrip (Py.rstrip (Py.lstrip s)) = Py.rstrip (Py.lstrip s)).
  { pose proof (lstrip_head s) as Hh.
    destruct (Py.lstrip s) as [ | c t ]; [ reflexivity | ].
    unfold Py.rstrip. cbn [rev].
    destruct (lstrip_snoc (rev t) c Hh) as (b & ->).
    rewrite rev_app_distr. cbn [rev app Py.lstrip]. rewrite Hh. reflexivity. }
  rewrite Hl. apply Hr.
Qed.

Lemma split_char_from_no_sep (sep : ascii) (s : str) :
  Forall (fun c => Ascii.eqb c sep = false) s ->
  forall cur, Py.split_char_from sep cur s = [rev cur ++ s].
Proof.
  induction 1 as [ | c s Hc _ IH ]; intro cur; cbn [Py.split_char_from].
  - rewrite app_nil_r. reflexivity.
  - rewrite Hc, IH. cbn [rev]. rewrite <- app_assoc. reflexivity.
Qed.

Lemma speaker_of_line_one (line : str) (patterns : list Re.regex) :
  length (TranscriptProcessor.speaker_of_line patterns line []) <= 1.
Proof.
  induction patterns as [ | p ps IH ];
    cbn [TranscriptProcessor.speaker_of_line]; [ cbn; lia | ].
  destruct (Re.re_match Re.no_flags p line) as [groups | ]; [ | exact IH ].
  destruct (1 <? length (Py.strip (Re.group 1 groups)));
    unfold Py.set_add, Py.mem; cbn [existsb app length]; lia.
Qed.

(** A text without a line break has at most one speaker. *)
Lemma extract_speakers_one_line (text : str) :
  Forall plain_space text ->
  length (TranscriptProcessor._extract_speakers text) <= 1.
Proof.
  intro H. unfold TranscriptProcessor._extract_speakers, Py.split_char.
  rewrite split_char_from_no_sep.
  - cbn [rev app fold_left].
    pose proof (speaker_of_line_one text TranscriptProcessor.speaker_patterns)
      as Hl.
    destruct (TranscriptProcessor.speaker_of_line _ text [])
      as [ | x [ | y l ] ]; cbn [length] in Hl;
      unfold Py.sorted; cbn [fold_right Py.insert_sorted length]; lia.
  - eapply Forall_impl; [ | exact H ]. intros c Hc.
    destruct (Ascii.eqb c Re.newline) eqn:E; [ | reflexivity ].
    apply Ascii.eqb_eq in E. subst c.
    specialize (Hc eq_refl). discriminate Hc.
Qed.

Lemma validate_transcript_valid (text : PyVal) (v : Validators.Validation) :
  Validators.validate_transcript text = Ok v ->
  Validators.is_valid v = true ->
  Py.strip (Validators.transcript v) = Validators.transcript v.
Proof.
  assert (Hs : forall s,
             Validators.is_valid (Validators.validate_string s) = true ->
             Py.strip (Validators.transcript (Validators.validate_string s))
             = Validators.transcript (Validators.validate_string s)).
  { intros s Hv. destruct (validate_string_rejects s) as (H1 & H2 & H3).
    destruct (forallb Py.isspace s) eqn:E1;
      [ destruct (H1 eq_refl); congruence | ].
    destruct (existsb Py.is_azAZ s) eqn:E2;
      [ | destruct (H2 eq_refl eq_refl); congruence ].
    destruct (H3 eq_refl) as [_ ->]. apply strip_idem. }
  unfold Validators.validate_transcript.
  destruct text as [ | s | | | | | d ]; try (intros [= <-]; discriminate).
  - intros [= <-]. apply Hs.
  - destruct (dict_get (L "text") d) as [[ | s | | | | | ] | ];
      try discriminate; try (intros [= <-]; discriminate).
    intros [= <-]. apply Hs.
Qed.

(** Every result of [process] is the empty result or is computed from the
    stripped text. *)
Lemma process_result (text : PyVal) (w : World)
    (res : TranscriptProcessor.ProcessedTranscript) :
  fst (TranscriptProcessor.process text w) = Ok res ->
  (exists e, res = TranscriptProcessor._create_empty_result text e)
  \/ exists s,
       let cleaned := TranscriptProcessor._clean_text s in
       let sentences := TranscriptProcessor._extract_sentences cleaned in
       let speakers := TranscriptProcessor._extract_speakers cleaned in
       Py.strip s = s
       /\ res = TranscriptProcessor.mkProcessed (PStr s) cleaned sentences
                  speakers
                  (TranscriptProcessor._create_metadata s cleaned sentences
                     speakers).
Proof.
  unfold TranscriptProcessor.process.
  destruct (Validators.validate_transcript text) as [v | e] eqn:V;
    [ | discriminate ].
  destruct (Validators.is_valid v) eqn:Hv; cbn [negb].
  - unfold bind, logger, ret. cbn [fst]. intros [= <-]. right.
    exists (Validators.transcript v).
    split; [ | reflexivity ].
    apply (validate_transcript_valid text v V Hv).
  - unfold bind, logger, ret. cbn [fst]. intros [= <-]. left.
    eexists. reflexivity.
Qed.

Lemma fragments_from_over (P : ascii -> Prop) (s : str) :
  Forall P s ->
  forall cur in_run,
    Forall P cur -> Forall (Forall P) (fragments_from cur in_run s).
Proof.
  induction 1 as [ | c s Hc _ IH ]; intros cur in_run Hcur;
    cbn [fragments_from].
  - constructor; [ apply Forall_rev; exact Hcur | constructor ].
  - destruct (is_terminator c).
    + destruct in_run; [ apply IH; constructor | ].
      constructor; [ apply Forall_rev; exact Hcur | apply IH; constructor ].
    + apply IH. constructor; assumption.
Qed.

Lemma fragments_from_no_terminator (s : str) :
  forall cur in_run,
    Forall (fun c => is_terminator c = false) cur ->
    Forall (Forall (fun c => is_terminator c = false))
           (fragments_from cur in_run s).
Proof.
  induction s as [ | c s IH ]; intros cur in_run Hcur; cbn [fragments_from].
  - constructor; [ apply Forall_rev; exact Hcur | constructor ].
  - destruct (is_terminator c) eqn:E.
    + destruct in_run; [ apply IH; constructor | ].
      constructor; [ apply Forall_rev; exact Hcur | apply IH; constructor ].
    + apply IH. constructor; assumption.
Qed.

(** The sentences [_extract_sentences] returns: longer than 10 characters,
    stripped, without a sentence terminator, and made of characters of the
    text. *)
Lemma extract_sentences_shape (P : ascii -> Prop) (text : str) :
  Forall P text ->
  Forall (fun s => 10 < length s
                   /\ Py.strip s = s
                   /\ Forall (fun c => is_terminator c = false) s
                   /\ Forall P s)
         (TranscriptProcessor._extract_sentences text).
Proof.
  intro Ht. unfold TranscriptProcessor._extract_sentences.
  rewrite re_split_sentence_end. apply Forall_forall. intros s Hs.
  apply filter_In in Hs. destruct Hs as [Hs Hlen].
  apply in_map_iff in Hs. destruct Hs as (f & <- & Hf).
  apply Nat.ltb_lt in Hlen.
  split; [ exact Hlen | ]. split; [ apply strip_idem | ].
  unfold fragments in Hf. split; apply strip_over.
  - pose proof (fragments_from_no_terminator text [] false (Forall_nil _)) as H.
    rewrite Forall_forall in H. apply H. exact Hf.
  - pose proof (fragments_from_over P text Ht [] false (Forall_nil _)) as H.
    rewrite Forall_forall in H. apply H. exact Hf.
Qed.

(** The cleaned text of every processed transcript is one line: it holds
    no whitespace character but the plain space, and it neither starts nor
    ends with whitespace. *)
Theorem cleaned_text_is_one_line :
  forall (text : PyVal) (w : World)
         (res : TranscriptProcessor.ProcessedTranscript),
    fst (TranscriptProcessor.process text w) = Ok res ->
    Forall plain_space (TranscriptProcessor.cleaned_text res)
    /\ Py.strip (TranscriptProcessor.cleaned_text res)
       = TranscriptProcessor.cleaned_text res.
Proof.
  intros text w res H.
  destruct (process_result text w res H) as [[e ->] | (s & _ & ->)];
    cbn [TranscriptProcessor.cleaned_text TranscriptProcessor._create_empty_result].
  - split; [ constructor | reflexivity ].
  - split; [ apply clean_text_plain_space | ].
    unfold TranscriptProcessor._clean_text. apply strip_idem.
Qed.

Lemma cleaned_text_is_one_line_witness :
  exists res,
    fst (TranscriptProcessor.process (PStr two_speaker_lines) world0) = Ok res
    /\ TranscriptProcessor.cleaned_text res
       = L "Alice: We should ship it today. Bob: I agree with that plan Really good work everyone!"
    /\ Forall plain_space (TranscriptProcessor.cleaned_text res)
    /\ Py.strip (TranscriptProcessor.cleaned_text res)
       = TranscriptProcessor.cleaned_text res.
Proof.
  eexists. split; [ vm_compute; reflexivity | ].
  split; [ vm_compute; reflexivity | ].
  eapply (cleaned_text_is_one_line (PStr two_speaker_lines) world0).
  vm_compute; reflexivity.
Defined.

(** Speakers are looked for in the cleaned text, which has no line break:
    whatever the transcript, [process] reports at most one speaker. *)
Theorem process_reports_at_most_one_speaker :
  forall (text : PyVal) (w : World)
         (res : TranscriptProcessor.ProcessedTranscript),
    fst (TranscriptProcessor.process text w) = Ok res ->
    length (TranscriptProcessor.speakers res) <= 1.
Proof.
  intros text w res H.
  destruct (process_result text w res H) as [[e ->] | (s & _ & ->)];
    cbn [TranscriptProcessor.speakers TranscriptProcessor._create_empty_result].
  - cbn. lia.
  - apply extract_speakers_one_line, clean_text_plain_space.
Qed.

Lemma process_reports_at_most_one_speaker_witness :
  exists res,
    fst (TranscriptProcessor.process (PStr two_speaker_lines) world0) = Ok res
    /\ TranscriptProcessor.speakers res = [L "Alice"]
    /\ length (TranscriptProcessor.speakers res) <= 1.
Proof.
  eexists. split; [ vm_compute; reflexivity | ].
  split; [ vm_compute; reflexivity | ].
  eapply (process_reports_at_most_one_speaker (PStr two_speaker_lines) world0).
  vm_compute; reflexivity.
Defined.

(** Every sentence of a processed transcript is longer than 10 characters,
    is stripped, holds no sentence terminator, and holds no whitespace
    character but the plain space. *)
Theorem processed_sentences_are_clean :
  forall (text : PyVal) (w : World)
         (res : TranscriptProcessor.ProcessedTranscript),
    fst (TranscriptProcessor.process text w) = Ok res ->
    Forall (fun s => 10 < length s
                     /\ Py.strip s = s
                     /\ Forall (fun c => is_terminator c = false) s
                     /\ Forall plain_space s)
           (TranscriptProcessor.sentences res).
Proof.
  intros text w res H.
  destruct (process_result text w res H) as [[e ->] | (s & _ & ->)];
    cbn [TranscriptProcessor.sentences TranscriptProcessor._create_empty_result].
  - constructor.
  - apply extract_sentences_shape, clean_text_plain_space.
Qed.

Lemma processed_sentences_are_clean_witness :
  exists res,
    fst (TranscriptProcessor.process (PStr two_speaker_lines) world0) = Ok res
    /\ TranscriptProcessor.sentences res
       = [L "Alice: We should ship it today";
          L "Bob: I agree with that plan Really good work everyone"]
    /\ Forall (fun s => 10 < length s
                        /\ Py.strip s = s
                        /\ Forall (fun c => is_terminator c = false) s
                        /\ Forall plain_space s)
              (TranscriptProcessor.sentences res).
Proof.
  eexists. split; [ vm_compute; reflexivity | ].
  split; [ vm_compute; reflexivity | ].
  eapply (processed_sentences_are_clean (PStr two_speaker_lines) world0).
  vm_compute; reflexivity.
Defined.

(** ** Validation, once more *)

Lemma validate_string_strip (s : str) :
  Validators.validate_string (Py.strip s) = Validators.validate_string s.
Proof.
  unfold Validators.validate_string. rewrite strip_idem. reflexivity.
Qed.

(** A validated transcript validates to itself: validating the text that
    [validate_transcript] returns gives the same result again. *)
Theorem validated_transcript_revalidates :
  forall (text : PyVal) (v : Validators.Validation),
    Validators.validate_transcript text = Ok v ->
    Validators.is_valid v = true ->
    Validators.validate_transcript (PStr (Validators.transcript v)) = Ok v.
Proof.
  assert (Hs : forall s,
             Validators.is_valid (Validators.validate_string s) = true ->
             Validators.validate_string
               (Validators.transcript (Validators.validate_string s))
             = Validators.validate_string s).
  { intros s Hv. destruct (validate_string_rejects s) as (H1 & H2 & H3).
    destruct (forallb Py.isspace s) eqn:E1;
      [ destruct (H1 eq_refl); congruence | ].
    destruct (existsb Py.is_azAZ s) eqn:E2;
      [ | destruct (H2 eq_refl eq_refl); congruence ].
    destruct (H3 eq_refl) as [_ ->]. apply validate_string_strip. }
  intros text v. unfold Validators.validate_transcript.
  destruct text as [ | s | | | | | d ]; try (intros [= <-]; discriminate).
  - intros [= <-] Hv. rewrite Hs by exact Hv. reflexivity.
  - destruct (dict_get (L "text") d) as [[ | s | | | | | ] | ];
      try discriminate; try (intros [= <-]; discriminate).
    intros [= <-] Hv. rewrite Hs by exact Hv. reflexivity.
Qed.

Lemma validated_transcript_revalidates_witness :
  exists v,
    Validators.validate_transcript
      (PDict [(L "text", PStr (L "  Hello team. We start now.  "))]) = Ok v
    /\ Validators.transcript v = L "Hello team. We start now."
    /\ Validators.validate_transcript (PStr (Validators.transcript v)) = Ok v.
Proof.
  eexists. split; [ vm_compute; reflexivity | ].
  split; [ vm_compute; reflexivity | ].
  eapply (validated_transcript_revalidates
            (PDict [(L "text", PStr (L "  Hello team. We start now.  "))]));
    vm_compute; reflexivity.
Defined.

(** ** [sanitize_text] *)

Lemma re_sub_class_delete (fl : Re.flags) (p : ascii -> bool) (s : str) :
  Re.re_sub fl (Re.Class p) [] s = filter (fun c => negb (p c)) s.
Proof.
  unfold Re.re_sub, Re.scan.
  assert (H : forall t pre,
             flat_map (fun tk => match tk with
                                 | Re.Chr c => [c]
                                 | Re.Hit _ cs => Re.expand [] cs
                                 end)
                      (Re.tokens fl (Re.Class p) pre t 0)
             = filter (fun c => negb (p c)) t).
  { induction t as [ | c t IH ]; intro pre; [ reflexivity | ].
    cbn [Re.tokens]. unfold Re.match_at.
    cbn [Re.run Re.todo Re.seen Re.caps].
    destruct (p c) eqn:E.
    - cbn [Re.todo]. replace (length (c :: t) - length t) with 1
        by (cbn [length]; lia).
      cbn [flat_map filter]. rewrite E. cbn [negb Re.expand flat_map app].
      apply IH.
    - cbn [flat_map filter]. rewrite E. cbn [negb app]. f_equal. apply IH. }
  apply H.
Qed.

Lemma squeeze_after_run (s : str) :
  squeeze_from true s = squeeze_from false (drop_run Py.isspace s).
Proof.
  induction s as [ | c t IH ]; cbn [squeeze_from drop_run]; [ reflexivity | ].
  destruct (Py.isspace c) eqn:E; [ exact IH | ].
  cbn [squeeze_from]. rewrite E. reflexivity.
Qed.

Lemma re_sub_spaces_from (fl : Re.flags) :
  forall n ahead,
    length ahead <= n ->
    forall pre,
      flat_map (fun t => match t with
                         | Re.Chr c => [c]
                         | Re.Hit _ cs => Re.expand [Re.RText (L " ")] cs
                         end)
               (Re.tokens fl (Re.Plus Re.Space) pre ahead 0)
      = squeeze_from false ahead.
Proof.
  unfold Re.Space.
  induction n as [ | n IH ]; intros ahead Hn pre.
  - destruct ahead; [ | cbn in Hn; lia ]. reflexivity.
  - destruct ahead as [ | c rest ]; [ reflexivity | ].
    cbn [Re.tokens]. rewrite match_at_plus_class.
    cbn [squeeze_from]. cbn in Hn.
    destruct (Py.isspace c) eqn:E.
    + cbn [Re.todo Re.caps].
      replace (length (c :: rest) - length (drop_run Py.isspace rest))
        with (S (length (take_run Py.isspace rest)))
        by (cbn [length]; pose proof (drop_run_length Py.isspace rest); lia).
      cbn [flat_map]. unfold Re.expand at 1. cbn [flat_map app].
      change (L " ") with [" "%char]. cbn [app]. f_equal.
      rewrite <- (take_drop_run Py.isspace rest) at 1.
      rewrite tokens_skip, squeeze_after_run.
      apply IH. pose proof (drop_run_length Py.isspace rest). lia.
    + cbn [flat_map app]. f_equal. apply IH. lia.
Qed.

(** [sanitize_text], read directly off the text. *)
Lemma sanitize_text_closed (s : str) :
  Validators.sanitize_text (PStr s)
  = Py.strip (squeeze_from false
                (filter (fun c => negb (Validators.is_control c)) s)).
Proof.
  unfold Validators.sanitize_text, Validators.CONTROL.
  rewrite re_sub_class_delete. f_equal.
  unfold Re.re_sub, Re.scan.
  eapply re_sub_spaces_from. apply Nat.le_refl.
Qed.

Lemma single_spaced_squeeze (s : str) :
  forall b, single_spaced b (squeeze_from b s).
Proof.
  induction s as [ | c t IH ]; intro b; cbn [squeeze_from]; [ exact I | ].
  destruct (Py.isspace c) eqn:E.
  - destruct b; [ apply IH | ].
    cbn [single_spaced]. change (Py.isspace " "%char) with true.
    repeat split. apply IH.
  - cbn [single_spaced]. rewrite E. apply IH.
Qed.

Lemma squeeze_single_spaced (s : str) :
  forall b, single_spaced b s -> squeeze_from b s = s.
Proof.
  induction s as [ | c t IH ]; intros b H; cbn [squeeze_from single_spaced] in *;
    [ reflexivity | ].
  destruct (Py.isspace c).
  - destruct H as (-> & -> & H). rewrite (IH true H). reflexivity.
  - rewrite (IH false H). reflexivity.
Qed.

Lemma single_spaced_weaken (s : str) :
  single_spaced true s -> single_spaced false s.
Proof.
  destruct s as [ | c t ]; cbn [single_spaced]; [ trivial | ].
  destruct (Py.isspace c); [ | trivial ].
  intros (_ & H & _). discriminate H.
Qed.

Lemma single_spaced_lstrip (s : str) :
  single_spaced false s -> single_spaced false (Py.lstrip s).
Proof.
  induction s as [ | c t IH ]; intro H; [ exact I | ].
  cbn [Py.lstrip]. cbn [single_spaced] in H.
  destruct (Py.isspace c) eqn:E.
  - destruct H as (_ & _ & H). apply IH, single_spaced_weaken, H.
  - cbn [single_spaced]. rewrite E. exact H.
Qed.

Lemma single_spaced_prefix (a w : str) :
  forall b, single_spaced b (a ++ w) -> single_spaced b a.
Proof.
  induction a as [ | c a IH ]; intros b H; [ exact I | ].
  cbn [app single_spaced] in *.
  destruct (Py.isspace c).
  - destruct H as (H1 & H2 & H). repeat split; try assumption.
    apply IH. exact H.
  - apply IH. exact H.
Qed.

Lemma lstrip_suffix (s : str) : exists w, s = w ++ Py.lstrip s.
Proof.
  induction s as [ | c t [w IH] ]; [ exists []; reflexivity | ].
  cbn [Py.lstrip]. destruct (Py.isspace c).
  - exists (c :: w). cbn [app]. f_equal. exact IH.
  - exists []. reflexivity.
Qed.

Lemma rstrip_prefix (s : str) : exists w, s = Py.rstrip s ++ w.
Proof.
  unfold Py.rstrip. destruct (lstrip_suffix (rev s)) as [w H].
  exists (rev w). rewrite <- rev_app_distr, <- H, rev_involutive. reflexivity.
Qed.

Lemma single_spaced_strip (s : str) :
  single_spaced false s -> single_spaced false (Py.strip s).
Proof.
  intro H. unfold Py.strip.
  apply single_spaced_lstrip in H.
  destruct (rstrip_prefix (Py.lstrip s)) as [w Hw].
  rewrite Hw in H. apply single_spaced_prefix in H. exact H.
Qed.

Lemma filter_all {A} (p : A -> bool) (l : list A) :
  Forall (fun x => p x = true) l -> filter p l = l.
Proof.
  induction 1 as [ | x l Hx _ IH ]; cbn [filter]; [ reflexivity | ].
  rewrite Hx, IH. reflexivity.
Qed.

Lemma squeeze_over (P : ascii -> Prop) (s : str) :
  P " "%char -> Forall P s -> forall b, Forall P (squeeze_from b s).
Proof.
  intros Hsp H. induction H as [ | c t Hc _ IH ]; intro b; cbn [squeeze_from];
    [ constructor | ].
  destruct (Py.isspace c); [ destruct b | ];
    try constructor; try apply IH; assumption.
Qed.

Lemma sanitize_text_shape (text : PyVal) :
  let out := Validators.sanitize_text text in
  Forall (fun c => negb (Validators.is_control c) = true) out
  /\ single_spaced false out
  /\ Py.strip out = out.
Proof.
  cbv zeta. destruct text as [ | s | | | | | ];
    try (split; [ constructor | split; [ exact I | reflexivity ] ]).
  rewrite sanitize_text_closed.
  split; [ | split ].
  - apply strip_over, squeeze_over; [ reflexivity | ].
    apply Forall_forall. intros c Hc. apply filter_In in Hc. apply Hc.
  - apply single_spaced_strip, single_spaced_squeeze.
  - apply strip_idem.
Qed.

(** Sanitised text holds no control character, its whitespace is single
    plain spaces, and it neither starts nor ends with whitespace. *)
Theorem sanitized_text_is_clean :
  forall text : PyVal,
    Forall (fun c => Validators.is_control c = false)
           (Validators.sanitize_text text)
    /\ single_spaced false (Validators.sanitize_text text)
    /\ Py.strip (Validators.sanitize_text text)
       = Validators.sanitize_text text.
Proof.
  intro text.
  destruct (sanitize_text_shape text) as (H1 & H2 & H3).
  split; [ | split; assumption ].
  eapply Forall_impl; [ | exact H1 ]. cbv beta. intros c Hc.
  destruct (Validators.is_control c); [ discriminate Hc | reflexivity ].
Qed.

(** Sanitising a sanitised text changes nothing. *)
Theorem sanitize_text_idempotent :
  forall text : PyVal,
    Validators.sanitize_text (PStr (Validators.sanitize_text text))
    = Validators.sanitize_text text.
Proof.
  intro text.
  destruct (sanitize_text_shape text) as (H1 & H2 & H3).
  rewrite sanitize_text_closed.
  rewrite (filter_all _ _ H1), (squeeze_single_spaced _ _ H2). exact H3.
Qed.

(** ** [validate_insight_data] *)

Lemma check_key_cases (d : list (str * PyVal)) (r : Validators.InsightValidation)
    (key : str) :
  ((exists l, dict_get key d = Some (PList l))
   /\ Validators.check_key d r key = r)
  \/ ((forall l, dict_get key d <> Some (PList l))
      /\ exists e,
           Validators.check_key d r key
           = Validators.mkInsightValidation false
               (Validators.iv_errors r ++ [e]) (Validators.iv_warnings r)).
Proof.
  unfold Validators.check_key.
  destruct (dict_get key d) as [[ | | | | | l | ] | ];
    try (right; split; [ intros ? ?; discriminate | eexists; reflexivity ]).
  left. split; [ eexists; reflexivity | reflexivity ].
Qed.

(** The loop over the required keys: the result is valid exactly when no
    error was written, and that is when every key is present with a list. *)
Lemma check_keys (d : list (str * PyVal)) (keys : list str) :
  forall r,
    (Validators.iv_is_valid r = true <-> Validators.iv_errors r = []) ->
    let r' := fold_left (Validators.check_key d) keys r in
    (Validators.iv_is_valid r' = true <-> Validators.iv_errors r' = [])
    /\ (Validators.iv_is_valid r' = true
        <-> Validators.iv_is_valid r = true
            /\ forall key, In key keys ->
                           exists l, dict_get key d = Some (PList l))
    /\ Validators.iv_warnings r' = Validators.iv_warnings r
    /\ length (Validators.iv_errors r')
       <= length (Validators.iv_errors r) + length keys.
Proof.
  induction keys as [ | key keys IH ]; intros r Hr; cbn [fold_left].
  - cbv zeta. split; [ exact Hr | ]. split; [ | split; [ reflexivity | lia ] ].
    split; [ intro H; split; [ exact H | intros ? [] ] | tauto ].
  - destruct (check_key_cases d r key) as [[[l Hl] ->] | [Hn [e ->]]].
    + destruct (IH r Hr) as (H1 & H2 & H3 & H4). cbv zeta in *.
      split; [ exact H1 | ]. split; [ | split; [ exact H3 | cbn [length]; lia ] ].
      rewrite H2. split.
      * intros [Hv Hk]. split; [ exact Hv | ].
        intros k [<- | Hin]; [ exists l; exact Hl | apply Hk; exact Hin ].
      * intros [Hv Hk]. split; [ exact Hv | ].
        intros k Hin. apply Hk. right. exact Hin.
    + match goal with
      | |- context [fold_left _ keys ?r0] =>
          destruct (IH r0) as (H1 & H2 & H3 & H4)
      end.
      { cbn. split; [ discriminate | ].
        intro H. apply (f_equal (@length _)) in H.
        rewrite length_app in H. cbn in H. lia. }
      cbv zeta in *.
      cbn [Validators.iv_is_valid Validators.iv_errors
           Validators.iv_warnings] in *.
      split; [ exact H1 | ].
      split; [ | split; [ exact H3 | rewrite length_app in H4;
                                     cbn [length] in *; lia ] ].
      rewrite H2. split.
      * intros [Hf _]. discriminate Hf.
      * intros [_ Hk]. exfalso.
        destruct (Hk key (or_introl eq_refl)) as [l Hl].
        exact (Hn l Hl).
Qed.

(** [validate_insight_data] accepts a dictionary exactly when each of
    ["problems"], ["solutions"] and ["action_items"] is present with a list;
    it is valid exactly when it lists no error, it lists at most one error
    per key, and it warns only about a valid dictionary. *)
Theorem validate_insight_data_accepts_lists :
  forall d : list (str * PyVal),
    (Validators.iv_is_valid (Validators.validate_insight_data d) = true
     <-> forall key, In key Validators.required_keys ->
                     exists l, dict_get key d = Some (PList l))
    /\ (Validators.iv_is_valid (Validators.validate_insight_data d) = true
        <-> Validators.iv_errors (Validators.validate_insight_data d) = [])
    /\ length (Validators.iv_errors (Validators.validate_insight_data d)) <= 3
    /\ (Validators.iv_warnings (Validators.validate_insight_data d) <> [] ->
        Validators.iv_is_valid (Validators.validate_insight_data d) = true).
Proof.
  intro d. unfold Validators.validate_insight_data.
  destruct (check_keys d Validators.required_keys
              (Validators.mkInsightValidation true [] []))
    as (H1 & H2 & H3 & H4); [ cbn; tauto | ].
  cbv zeta in *.
  set (r := fold_left (Validators.check_key d) Validators.required_keys
                      (Validators.mkInsightValidation true [] [])) in *.
  cbn [Validators.iv_is_valid Validators.iv_errors Validators.iv_warnings
       length] in *.
  change (length Validators.required_keys) with 3 in H4.
  assert (H2' : Validators.iv_is_valid r = true
                <-> forall key, In key Validators.required_keys ->
                                exists l, dict_get key d = Some (PList l))
    by (rewrite H2; tauto).
  destruct (Validators.iv_is_valid r) eqn:Ev.
  - destruct (_ =? 0);
      cbn [Validators.iv_is_valid Validators.iv_errors Validators.iv_warnings];
      rewrite ?Ev; repeat split; try tauto; try lia; try apply H1;
      try apply H2'; auto.
  - rewrite Ev. repeat split; try tauto; try lia; try apply H1;
      try apply H2'; auto.
Qed.

(** ** Uploaded files *)

Lemma mem_In_str (x : str) (l : list str) : Py.mem x l = true -> In x l.
Proof.
  unfold Py.mem. intro H. apply existsb_exists in H.
  destruct H as (y & Hy & E). apply str_eqb_eq in E. subst y. exact Hy.
Qed.

Lemma finish_consistent (c : list Byte.byte) (t f content : str) (w : World) :
  c <> [] -> (Z.of_nat (length c) <= 10 * 1024 * 1024)%Z ->
  In t (map fst Validators.allowed_types) ->
  consistent_upload c t f (fst (FileHandler.finish t f content w)).
Proof.
  intros Hc Hl Ht. unfold FileHandler.finish, consistent_upload.
  destruct (Py.strip content) as [ | x xs ] eqn:E;
    unfold bind, logger, ret;
    cbn [fst FileHandler.success FileHandler.content FileHandler.error
         FileHandler.file_type FileHandler.filename].
  - repeat split; try discriminate.
  - repeat split; try discriminate; try assumption.
    rewrite E. discriminate.
Qed.

(** The result of [process_uploaded_file] is consistent with the upload,
    whatever the decoders do. *)
Theorem upload_result_is_consistent :
  forall (dec : Decoders) (file_content : list Byte.byte)
         (file_type filename : str) (w : World),
    consistent_upload file_content file_type filename
      (fst (FileHandler.process_uploaded_file file_content file_type
              filename w)).
Proof.
  intros dec c t f w.
  unfold FileHandler.process_uploaded_file, Validators.validate_file_upload.
  assert (Hfail : forall e,
             consistent_upload c t f
               (FileHandler.mkUploadResult false [] (Some e) t f)).
  { intro e. unfold consistent_upload.
    cbn [FileHandler.success FileHandler.content FileHandler.error
         FileHandler.file_type FileHandler.filename].
    repeat split; discriminate. }
  destruct c as [ | b c' ]; [ apply Hfail | ].
  cbv beta iota. set (c := b :: c') in *.
  assert (Hne : c <> []) by discriminate.
  destruct (10 * 1024 * 1024 <? Z.of_nat (length c))%Z eqn:El;
    cbn [Validators.up_is_valid Validators.up_error negb]; [ apply Hfail | ].
  apply Z.ltb_ge in El.
  destruct (Py.mem t (map fst Validators.allowed_types)) eqn:Em;
    cbn [Validators.up_is_valid Validators.up_error negb]; [ | apply Hfail ].
  apply mem_In_str in Em.
  destruct (_ || _).
  { apply finish_consistent; assumption. }
  destruct (_ || _).
  { unfold bind. destruct (FileHandler._extract_from_pdf c w) as [content w1].
    apply finish_consistent; assumption. }
  destruct (_ || _).
  { unfold bind. destruct (FileHandler._extract_from_docx c w) as [content w1].
    apply finish_consistent; assumption. }
  apply Hfail.
Qed.

(** A CSV upload passes [validate_file_upload], and yet
    [process_uploaded_file] refuses it as unsupported, unless the file name
    ends in [.txt], [.pdf] or [.docx]. *)
Theorem csv_upload_is_validated_but_refused :
  forall (dec : Decoders) (file_content : list Byte.byte) (filename : str)
         (w : World),
    file_content <> [] ->
    (Z.of_nat (length file_content) <= 10 * 1024 * 1024)%Z ->
    Py.endswith (L ".txt") filename = false ->
    Py.endswith (L ".pdf") filename = false ->
    Py.endswith (L ".docx") filename = false ->
    Validators.up_is_valid
      (Validators.validate_file_upload file_content (L "text/csv")) = true
    /\ FileHandler.process_uploaded_file file_content (L "text/csv") filename w
       = (FileHandler.mkUploadResult false []
            (Some (L "Unsupported file type: text/csv"))
            (L "text/csv") filename, w).
Proof.
  intros dec c f w Hne Hl H1 H2 H3.
  unfold FileHandler.process_uploaded_file, Validators.validate_file_upload.
  destruct c as [ | b c' ]; [ contradiction | ].
  cbv beta iota. set (c := b :: c') in *.
  apply Z.ltb_ge in Hl. rewrite Hl, H1, H2, H3.
  split; reflexivity.
Qed.

Lemma csv_upload_is_validated_but_refused_witness :
  Validators.up_is_valid
    (Validators.validate_file_upload (bytes_of (L "a,b")) (L "text/csv"))
  = true
  /\ FileHandler.process_uploaded_file (dec := toy_decoders)
       (bytes_of (L "a,b")) (L "text/csv") (L "table.csv") world0
     = (FileHandler.mkUploadResult false []
          (Some (L "Unsupported file type: text/csv"))
          (L "text/csv") (L "table.csv"), world0).
Proof.
  apply (csv_upload_is_validated_but_refused toy_decoders
           (bytes_of (L "a,b")) (L "table.csv") world0);
    solve [ discriminate | vm_compute; congruence | reflexivity ].
Defined.

(** ** Chart data *)

(** The chart data of an analysis is empty exactly when the analysis has
    no sentence record; otherwise it lists, for Positive, Negative and
    Neutral in this order, the number of sentence records with that label,
    and these numbers add up to the number of records. *)
Theorem chart_data_counts_sentences :
  forall (libs : TextLibs) (self : SentimentAnalyzer.Analyzer)
         (text : PyVal) (w : World)
         (res : SentimentAnalyzer.SentimentResult),
    fst (SentimentAnalyzer.analyze self text w) = Ok res ->
    match SentimentAnalyzer.get_sentiment_distribution_chart_data res with
    | None => SentimentAnalyzer.sentences res = []
    | Some ch =>
        SentimentAnalyzer.sentences res <> []
        /\ SentimentAnalyzer.c_labels ch
           = [L "Positive"; L "Negative"; L "Neutral"]
        /\ SentimentAnalyzer.c_values ch
           = map (fun l => count_label l (SentimentAnalyzer.sentences res))
                 [SentimentAnalyzer.Positive; SentimentAnalyzer.Negative;
                  SentimentAnalyzer.Neutral]
        /\ fold_left Nat.add (SentimentAnalyzer.c_values ch) 0
           = length (SentimentAnalyzer.sentences res)
        /\ length (SentimentAnalyzer.c_colors ch) = 3
    end.
Proof.
  intros libs self text w res H.
  destruct (analyze_result_full libs self text w res H) as [[e ->] | (ss & ->)].
  - reflexivity.
  - unfold SentimentAnalyzer.get_sentiment_distribution_chart_data.
    cbn [SentimentAnalyzer.summary SentimentAnalyzer.sentences].
    set (rs := fst (mapM (SentimentAnalyzer._analyze_sentence self) ss w)).
    unfold SentimentAnalyzer._create_summary.
    destruct rs as [ | r rs' ] eqn:E; [ reflexivity | ].
    rewrite <- E. replace (map SentimentAnalyzer.polarity rs)
      with (SentimentAnalyzer.polarity r
            :: map SentimentAnalyzer.polarity rs') by (rewrite E; reflexivity).
    cbn [SentimentAnalyzer.c_labels SentimentAnalyzer.c_values
         SentimentAnalyzer.c_colors SentimentAnalyzer.count_positive
         SentimentAnalyzer.count_negative SentimentAnalyzer.count_neutral
         map fold_left length].
    split; [ rewrite E; discriminate | ].
    split; [ reflexivity | ]. split; [ reflexivity | ].
    split; [ | reflexivity ].
    pose proof (label_counts rs) as Hc. unfold count_label.
    cbn [Nat.add]. exact Hc.
Qed.

Lemma chart_data_counts_sentences_witness :
  exists res ch,
    fst (SentimentAnalyzer.analyze (libs := toy_libs)
           (SentimentAnalyzer.__init__ true true)
           (PStr (L "This is a great solution! The delay was terrible. We meet again on Monday."))
           world0) = Ok res
    /\ SentimentAnalyzer.get_sentiment_distribution_chart_data res = Some ch
    /\ SentimentAnalyzer.c_values ch = [1; 1; 1]
    /\ fold_left Nat.add (SentimentAnalyzer.c_values ch) 0
       = length (SentimentAnalyzer.sentences res).
Proof.
  eexists. eexists. split; [ vm_compute; reflexivity | ].
  split; [ vm_compute; reflexivity | ].
  split; [ vm_compute; reflexivity | ].
  match goal with
  | |- fold_left _ _ _ = length (SentimentAnalyzer.sentences ?r) =>
      pose proof (chart_data_counts_sentences toy_libs
                    (SentimentAnalyzer.__init__ true true)
                    (PStr (L "This is a great solution! The delay was terrible. We meet again on Monday."))
                    world0 r) as H
  end.
  vm_compute in H. vm_compute. destruct (H eq_refl) as (_ & _ & _ & H4 & _).
  exact H4.
Defined.
